(** * Wasabi downloader: version resolution, path mapping and batch flows

    A shallow embedding of the two command-line clients of the repository:

    - the package [wasabi-downloader/] ([s3_handler.py] driven by
      [wasabi-downloader/wasabi_downloader.py]), embedded in the modules
      [S3Handler] and [PackageMain];
    - the standalone script [wasabi_downloader.py] at the repository root,
      embedded in the modules [Script], [ScriptIO] and [Progress].

    The start of the package ([config_loader.py], [get_s3_client] and the
    first steps of its [main]) is embedded in [ConfigLoader], [Session]
    and [PackageStartup], its [format_bytes] in [PackageFormat].

    Timestamps are instants, counted in microseconds (the resolution of
    Python's [datetime]); the records the SDK returns are dict-shaped, so
    a key that may be missing from the dict is an [option] field. *)

From Stdlib Require Import QArith Qround.
From Stdlib Require Import ZArith List String Ascii Bool Lia Permutation.
From Stdlib Require Import Numbers.DecimalString.
Import ListNotations.

Open Scope string_scope.
Open Scope list_scope.
Open Scope Z_scope.

(* ================================================================== *)
(** * Python strings *)
(* ================================================================== *)

Module PyStr.

Definition sep : ascii := "/"%char.

(** [s.endswith('/')] *)
Fixpoint endswith_sep (s : string) : bool :=
  match s with
  | EmptyString => false
  | String c EmptyString => Ascii.eqb c sep
  | String _ r => endswith_sep r
  end.

(** [s.startswith('/')] *)
Definition startswith_sep (s : string) : bool :=
  match s with
  | String c _ => Ascii.eqb c sep
  | EmptyString => false
  end.

(** [s.rstrip('/')] *)
Fixpoint rstrip_sep (s : string) : string :=
  match s with
  | EmptyString => EmptyString
  | String c r =>
      let r' := rstrip_sep r in
      if Ascii.eqb c sep && String.eqb r' "" then "" else String c r'
  end.

(** [s.split('/')]: never empty, [''.split('/') == ['']]. *)
Fixpoint split_sep (s : string) : list string :=
  match s with
  | EmptyString => [""]
  | String c r =>
      if Ascii.eqb c sep then "" :: split_sep r
      else match split_sep r with
           | h :: t => String c h :: t
           | [] => [String c ""]
           end
  end.

(** [bool(s)]: a string is truthy when it is not empty. *)
Definition truthy (s : string) : bool := negb (String.eqb s "").

(** The line feed of the messages that start with a backslash-n. *)
Definition nl : string := String (ascii_of_nat 10) "".

(** [str(n)] for a non-negative count. *)
Definition str_of_nat (n : nat) : string :=
  NilEmpty.string_of_uint (Nat.to_uint n).

End PyStr.

(* ================================================================== *)
(** * Python dicts keyed by strings

    A [dict] keeps its keys in insertion order and [d[k] = v] on a key
    already present keeps the key where it is; [items()] walks that
    order.  The order is observable (it is the order of the returned
    download list), so the dict is an ordered association list without
    duplicate keys rather than an extensional map. *)
(* ================================================================== *)

Module PyDict.
Section Dict.
Context {V : Type}.

Definition t := list (string * V).

Definition empty : t := [].

(** [d.get(k)] *)
Fixpoint get (k : string) (d : t) : option V :=
  match d with
  | [] => None
  | (k', v) :: r => if String.eqb k k' then Some v else get k r
  end.

(** [k in d] *)
Definition mem (k : string) (d : t) : bool :=
  match get k d with Some _ => true | None => false end.

(** [d[k] = v] *)
Fixpoint set (k : string) (v : V) (d : t) : t :=
  match d with
  | [] => [(k, v)]
  | (k', v') :: r =>
      if String.eqb k k' then (k', v) :: r else (k', v') :: set k v r
  end.

(** [d.items()] *)
Definition items (d : t) : list (string * V) := d.

(** [list(d)], the keys in insertion order *)
Definition keys (d : t) : list string := map fst d.
End Dict.
Arguments t : clear implicits.
End PyDict.

(* ================================================================== *)
(** * The records of the storage listing *)
(* ================================================================== *)

(** One dict of a listing page.  [list_object_versions] puts such dicts
    under ['Versions'] and under ['DeleteMarkers'], [list_objects_v2]
    under ['Contents'].  The code reads four keys; ['VersionId'] and
    ['Size'] are tested for presence, hence optional. *)
Record entry := mkEntry {
  Key : string;
  VersionId : option string;
  LastModified : Z;
  Size : option Z
}.

(** A page of [list_object_versions]; [page.get('Versions', [])] reads an
    absent list as empty. *)
Record version_page := mkVersionPage {
  Versions : list entry;
  DeleteMarkers : list entry
}.

(** A page of [list_objects_v2]: ['Contents'] may be missing, and each of
    its dicts has ['Key'] and ['Size']. *)
Record object_summary := mkObject {
  obj_Key : string;
  obj_Size : Z
}.

Record object_page := mkObjectPage {
  Contents : option (list object_summary)
}.

(** The exceptions the flows raise or handle. *)
Inductive exn :=
| ClientError (code : string)
| FileNotFoundError (msg : string)
| ValueError (msg : string)
| KeyError (key : string)
| PermissionError
| OtherException (what : string)
| SystemExit (status : Z).

(** [entry.get('Size', default)] *)
Definition get_Size (e : entry) (default : Z) : Z :=
  match Size e with Some s => s | None => default end.

(** ['Size' in entry] and ['VersionId' in entry] *)
Definition has_Size (e : entry) : bool :=
  match Size e with Some _ => true | None => false end.

Definition has_VersionId (e : entry) : bool :=
  match VersionId e with Some _ => true | None => false end.

(** The sum of the ['Size'] values of a list of listing dicts. *)
Definition sum_sizes (l : list entry) : Z :=
  fold_right (fun e acc => get_Size e 0 + acc) 0 l.

Definition sum_obj_sizes (l : list object_summary) : Z :=
  fold_right (fun o acc => obj_Size o + acc) 0 l.

(* ================================================================== *)
(** * [wasabi-downloader/s3_handler.py]: listings *)
(* ================================================================== *)

Module S3Handler.

(** The body of the two nested loops of [list_objects_in_prefix]. *)
Definition collect_object (acc : list object_summary * Z)
    (obj : object_summary) : list object_summary * Z :=
  let '(objects_to_download, total_size) := acc in
  if obj_Size obj >? 0 then
    (objects_to_download ++ [obj], total_size + obj_Size obj)
  else acc.

Definition collect_page (acc : list object_summary * Z)
    (page : object_page) : list object_summary * Z :=
  match Contents page with
  | Some contents => fold_left collect_object contents acc
  | None => acc
  end.

Definition list_objects_in_prefix (pages : list object_page)
  : list object_summary * Z :=
  fold_left collect_page pages ([], 0).

(** The body of the inner loop of [list_object_versions_at_timestamp]:
    lines 96 to 99. *)
Definition resolve_entry (timestamp : Z)
    (latest_valid_versions : PyDict.t entry) (e : entry) : PyDict.t entry :=
  if LastModified e <=? timestamp then
    let key := Key e in
    match PyDict.get key latest_valid_versions with
    | None => PyDict.set key e latest_valid_versions
    | Some cur =>
        if LastModified e >? LastModified cur
        then PyDict.set key e latest_valid_versions
        else latest_valid_versions
    end
  else latest_valid_versions.

(** [page.get('Versions', []) + page.get('DeleteMarkers', [])] *)
Definition all_entries (page : version_page) : list entry :=
  Versions page ++ DeleteMarkers page.

Definition resolve_page (timestamp : Z)
    (latest_valid_versions : PyDict.t entry) (page : version_page)
  : PyDict.t entry :=
  fold_left (resolve_entry timestamp) (all_entries page)
    latest_valid_versions.

(** The state after the loop over the pages (line 100). *)
Definition latest_valid_versions (pages : list version_page)
    (timestamp : Z) : PyDict.t entry :=
  fold_left (resolve_page timestamp) pages PyDict.empty.

(** The body of the second loop, lines 104 to 106.  [entry['Size']] is
    read only under [entry.get('Size', 0) > 0], where the key is there. *)
Definition select_entry (acc : list entry * Z) (kv : string * entry)
  : list entry * Z :=
  let '(objects_to_download, total_size) := acc in
  let e := snd kv in
  if has_VersionId e && (get_Size e 0 >? 0) then
    (objects_to_download ++ [e], total_size + get_Size e 0)
  else acc.

Definition select_entries (state : PyDict.t entry) : list entry * Z :=
  fold_left select_entry (PyDict.items state) ([], 0).

Definition list_object_versions_at_timestamp
    (pages : list version_page) (timestamp : Z) : list entry * Z :=
  select_entries (latest_valid_versions pages timestamp).

End S3Handler.

(* ================================================================== *)
(** * [wasabi_downloader.py]: listing and resolution of the script *)
(* ================================================================== *)

Module Script.

Definition DEFAULT_DOWNLOAD_DIR : string := "Download".

(** Line 165 of [download_dir]: the keys of every page that has
    ['Contents'], without those ending in a separator. *)
Definition all_keys (pages : list object_page) : list string :=
  flat_map
    (fun page =>
       match Contents page with
       | Some contents =>
           map obj_Key
             (filter (fun obj => negb (PyStr.endswith_sep (obj_Key obj)))
                contents)
       | None => []
       end)
    pages.

(** Lines 215 to 218 of [download_versioned]. *)
Definition all_entries (pages : list version_page) : list entry :=
  fold_left
    (fun acc page => (acc ++ Versions page) ++ DeleteMarkers page)
    pages [].

(** Lines 221 to 226. *)
Definition resolve_entry (target_timestamp : Z)
    (latest_versions_in_time : PyDict.t entry) (e : entry)
  : PyDict.t entry :=
  if PyStr.endswith_sep (Key e) then latest_versions_in_time
  else if LastModified e <=? target_timestamp then
    let key := Key e in
    match PyDict.get key latest_versions_in_time with
    | None => PyDict.set key e latest_versions_in_time
    | Some cur =>
        if LastModified e >? LastModified cur
        then PyDict.set key e latest_versions_in_time
        else latest_versions_in_time
    end
  else latest_versions_in_time.

Definition latest_versions_in_time (pages : list version_page)
    (target_timestamp : Z) : PyDict.t entry :=
  fold_left (resolve_entry target_timestamp) (all_entries pages)
    PyDict.empty.

(** Lines 228 to 231: [entry['VersionId']] raises [KeyError] on a dict
    without that key. *)
Fixpoint select_versions (items : list (string * entry))
    (to_download : PyDict.t string) : exn + PyDict.t string :=
  match items with
  | [] => inr to_download
  | (key, e) :: rest =>
      if has_Size e then
        match VersionId e with
        | Some v => select_versions rest (PyDict.set key v to_download)
        | None => inl (KeyError "VersionId")
        end
      else select_versions rest to_download
  end.

Definition to_download (pages : list version_page) (target_timestamp : Z)
  : exn + PyDict.t string :=
  select_versions
    (PyDict.items (latest_versions_in_time pages target_timestamp))
    PyDict.empty.

End Script.

(* ================================================================== *)
(** * [datetime]: the target timestamp

    Both clients build the target with
    [strptime(s, '%Y%m%d').replace(hour=23, minute=59, second=59,
    microsecond=999999, tzinfo=utc)].  The listing's [LastModified] values
    are aware datetimes too, and Python compares aware datetimes as
    instants; [instant] is that instant, in microseconds from the start
    of the proleptic Gregorian ordinal day 0, computed the way
    [datetime.py] does ([_ymd2ord] for the day, then the time of day). *)
(* ================================================================== *)

Module PyFormat.
Fixpoint zeros (n : nat) : string :=
  match n with O => "" | S n' => String "0"%char (zeros n') end.
End PyFormat.

Module Datetime.

Record datetime := mkDatetime {
  year : Z; month : Z; day : Z;
  hour : Z; minute : Z; second : Z; microsecond : Z
}.

Definition is_leap (y : Z) : bool :=
  (y mod 4 =? 0) && (negb (y mod 100 =? 0) || (y mod 400 =? 0)).

Definition days_before_year (y : Z) : Z :=
  let y1 := y - 1 in y1 * 365 + y1 / 4 - y1 / 100 + y1 / 400.

(** [_DAYS_BEFORE_MONTH] and [_DAYS_IN_MONTH]; index 0 is a placeholder. *)
Definition DAYS_BEFORE_MONTH : list Z :=
  [-1; 0; 31; 59; 90; 120; 151; 181; 212; 243; 273; 304; 334].

Definition DAYS_IN_MONTH : list Z :=
  [-1; 31; 28; 31; 30; 31; 30; 31; 31; 30; 31; 30; 31].

Definition days_in_month (y m : Z) : Z :=
  if (m =? 2) && is_leap y then 29 else nth (Z.to_nat m) DAYS_IN_MONTH 0.

Definition days_before_month (y m : Z) : Z :=
  nth (Z.to_nat m) DAYS_BEFORE_MONTH 0
  + (if (m >? 2) && is_leap y then 1 else 0).

Definition ymd2ord (y m d : Z) : Z :=
  days_before_year y + days_before_month y m + d.

Definition toordinal (dt : datetime) : Z :=
  ymd2ord (year dt) (month dt) (day dt).

Definition MICROS_PER_DAY : Z := 86400000000.

(** The time of day, in microseconds. *)
Definition time_of_day (dt : datetime) : Z :=
  ((hour dt * 60 + minute dt) * 60 + second dt) * 1000000 + microsecond dt.

Definition instant (dt : datetime) : Z :=
  toordinal dt * MICROS_PER_DAY + time_of_day dt.

(** The fields [datetime] accepts. *)
Definition valid_date (y m d : Z) : bool :=
  (1 <=? y) && (y <=? 9999) && (1 <=? m) && (m <=? 12)
  && (1 <=? d) && (d <=? days_in_month y m).

Definition valid_time (h mi s us : Z) : bool :=
  (0 <=? h) && (h <? 24) && (0 <=? mi) && (mi <? 60)
  && (0 <=? s) && (s <? 60) && (0 <=? us) && (us <? 1000000).

(** What [strptime(s, '%Y%m%d')] returns for a string that spells the
    calendar date [y]-[m]-[d]: midnight of that date. *)
Definition strptime_Ymd (y m d : Z) : datetime :=
  mkDatetime y m d 0 0 0 0.

(** [dt.replace(hour=h, minute=mi, second=s, microsecond=us)] *)
Definition replace_time (dt : datetime) (h mi s us : Z) : datetime :=
  mkDatetime (year dt) (month dt) (day dt) h mi s us.

(** [str(n).zfill(width)] for a non-negative [n] *)
Definition zfill (width : nat) (n : Z) : string :=
  let digits := PyStr.str_of_nat (Z.to_nat n) in
  (PyFormat.zeros (width - String.length digits) ++ digits)%string.

(** [str(dt.date())], that is ['%04d-%02d-%02d'] *)
Definition isoformat_date (y m d : Z) : string :=
  (zfill 4 y ++ "-" ++ zfill 2 m ++ "-" ++ zfill 2 d)%string.

(** Lines 203 and 204 of [download_versioned], lines 102 and 103 of the
    package's [main]. *)
Definition target_timestamp (y m d : Z) : Z :=
  instant (replace_time (strptime_Ymd y m d) 23 59 59 999999).

End Datetime.

(* ================================================================== *)
(** * [os.path] on POSIX

    The functions of [posixpath] the two clients call, on strings.  The
    working directory that [abspath] reads is the parameter [cwd]. *)
(* ================================================================== *)

Module PosixPath.
Import PyStr.

(** [os.path.join(a, b)] *)
Definition join (a b : string) : string :=
  if startswith_sep b then b
  else if String.eqb a "" || endswith_sep a then (a ++ b)%string
  else (a ++ "/" ++ b)%string.

(** [os.path.join(a, *p)] *)
Definition join_all (a : string) (p : list string) : string :=
  fold_left join p a.

(** [p[:p.rfind('/') + 1]] *)
Fixpoint head_to_last_sep (p : string) : string :=
  match p with
  | EmptyString => EmptyString
  | String c r =>
      let h := head_to_last_sep r in
      if Ascii.eqb c sep || truthy h then String c h else ""
  end.

(** [head == sep * len(head)] *)
Fixpoint all_sep (s : string) : bool :=
  match s with
  | EmptyString => true
  | String c r => Ascii.eqb c sep && all_sep r
  end.

(** [os.path.dirname(p)] *)
Definition dirname (p : string) : string :=
  let head := head_to_last_sep p in
  if truthy head && negb (all_sep head) then rstrip_sep head else head.

(** [p[p.rfind('/') + 1:]], which is [os.path.basename(p)] *)
Fixpoint basename (p : string) : string :=
  match p with
  | EmptyString => EmptyString
  | String c r =>
      if Ascii.eqb c sep then basename r
      else if truthy (head_to_last_sep r) then basename r
      else p
  end.

Definition is_nil {A} (l : list A) : bool :=
  match l with [] => true | _ => false end.

(** The body of the loop of [normpath]. *)
Definition normpath_step (initial_slashes : nat) (new_comps : list string)
    (comp : string) : list string :=
  if String.eqb comp "" || String.eqb comp "." then new_comps
  else if negb (String.eqb comp "..")
          || (Nat.eqb initial_slashes 0 && is_nil new_comps)
          || (negb (is_nil new_comps)
              && String.eqb (last new_comps "") "..")
  then new_comps ++ [comp]
  else if negb (is_nil new_comps) then removelast new_comps
  else new_comps.

(** POSIX keeps two leading slashes, and reads three or more as one. *)
Definition initial_slashes (path : string) : nat :=
  match path with
  | String c1 (String c2 (String c3 _)) =>
      if Ascii.eqb c1 sep then
        if Ascii.eqb c2 sep then (if Ascii.eqb c3 sep then 1 else 2)
        else 1
      else 0
  | String c1 (String c2 EmptyString) =>
      if Ascii.eqb c1 sep then (if Ascii.eqb c2 sep then 2 else 1)
      else 0
  | String c1 EmptyString => if Ascii.eqb c1 sep then 1 else 0
  | EmptyString => 0
  end%nat.

Fixpoint seps (n : nat) : string :=
  match n with O => "" | S n' => String sep (seps n') end.

(** [os.path.normpath(path)] *)
Definition normpath (path : string) : string :=
  if String.eqb path "" then "."
  else
    let n := initial_slashes path in
    let comps := fold_left (normpath_step n) (split_sep path) [] in
    let path' := (seps n ++ String.concat "/" comps)%string in
    if truthy path' then path' else ".".

(** [os.path.abspath(path)] in the working directory [cwd] *)
Definition abspath (cwd path : string) : string :=
  if startswith_sep path then normpath path
  else normpath (join cwd path).

(** [os.path.commonprefix([l1, l2])] on two lists of components *)
Fixpoint commonprefix (l1 l2 : list string) : list string :=
  match l1, l2 with
  | x :: r1, y :: r2 => if String.eqb x y then x :: commonprefix r1 r2 else []
  | _, _ => []
  end.

(** [[x for x in s.split('/') if x]] *)
Definition components (s : string) : list string :=
  filter truthy (split_sep s).

(** [[pardir] * (len(start_list) - i) + path_list[i:]], where [i] is
    the length of the common prefix *)
Definition rel_list (start_list path_list : list string) : list string :=
  let i := List.length (commonprefix start_list path_list) in
  repeat ".." (List.length start_list - i) ++ skipn i path_list.

(** [os.path.relpath(path, start)]; an empty [path] raises
    [ValueError], an empty [start] is the working directory. *)
Definition relpath (cwd path start : string) : exn + string :=
  if negb (truthy path) then inl (ValueError "no path specified")
  else
    let start_list := components (abspath cwd start) in
    let path_list := components (abspath cwd path) in
    match rel_list start_list path_list with
    | [] => inr "."
    | a :: p => inr (join_all a p)
    end.

End PosixPath.

(* ================================================================== *)
(** * The path mapping of the two clients *)
(* ================================================================== *)

Module PathMapper.
Import PyStr.

(** [s3_handler.download_objects], lines 135 to 140. *)
Definition prefix_dir (source_prefix : string) : string :=
  if truthy source_prefix && negb (endswith_sep source_prefix)
  then PosixPath.dirname (rstrip_sep source_prefix)
  else source_prefix.

Definition handler_destination_path (cwd destination_dir source_prefix
    source_key : string) : exn + string :=
  let prefix_dir := prefix_dir source_prefix in
  match PosixPath.relpath cwd source_key
          (if truthy prefix_dir then prefix_dir else "") with
  | inl e => inl e
  | inr relative_path => inr (PosixPath.join destination_dir relative_path)
  end.

(** [download_dir], lines 181 and 182, and [download_versioned], lines
    251 and 252, of the script. *)
Definition script_local_path (cwd dest_dir source_prefix key : string)
  : exn + string :=
  match PosixPath.relpath cwd key source_prefix with
  | inl e => inl e
  | inr relative_path => inr (PosixPath.join dest_dir relative_path)
  end.

End PathMapper.

(* ================================================================== *)
(** * Effects: the local file system, the two output streams, the SDK

    The flows run in a state-and-exception monad over [world].  What the
    collaborators answer (the storage service, [os.makedirs], the
    rendering of an exception, [strptime]) is read from an [environment];
    [sdk_log] records every request the flows send to the storage
    client, in order.  Progress bars only observe, and are left out. *)
(* ================================================================== *)

Inductive sdk_call :=
| HeadObject (bucket key : string) (version : option string)
| DownloadFile (bucket key : string) (version : option string)
    (filename : string).

Record world := mkWorld {
  files : list string;
  dirs : list string;
  stdout : list string;
  stderr : list string;
  sdk_log : list sdk_call
}.

Record environment := mkEnv {
  (** [head_object(Bucket, Key, VersionId)]: the ['ContentLength'], or
      the exception raised *)
  head_object : string -> string -> option string -> exn + Z;
  (** [download_file(Bucket, Key, Filename, ExtraArgs)]: [None] when the
      object was written to [Filename] *)
  sdk_download_file :
    string -> string -> option string -> string -> option exn;
  (** [os.makedirs(path, exist_ok=True)] on a non-empty path *)
  makedirs_error : string -> option exn;
  (** the pages of the two paginators for a bucket and a prefix *)
  list_objects_v2 : string -> string -> exn + list object_page;
  list_object_versions : string -> string -> exn + list version_page;
  (** [os.getcwd()] *)
  getcwd : string;
  (** [str(e)] for an exception the collaborators raise *)
  exn_text : exn -> string;
  (** the calendar date [strptime(s, '%Y%m%d')] reads, [None] when it
      raises [ValueError] *)
  strptime : string -> option (Z * Z * Z);
  (** [format_bytes], which divides and prints floats *)
  format_bytes : Z -> string
}.

Definition initial_world : world := mkWorld [] [] [] [] [].

Module Eff.

Definition M (A : Type) : Type := world -> (exn + A) * world.

Definition ret {A} (a : A) : M A := fun w => (inr a, w).

Definition bind {A B} (m : M A) (k : A -> M B) : M B :=
  fun w =>
    match m w with
    | (inr a, w') => k a w'
    | (inl e, w') => (inl e, w')
    end.

Definition raise {A} (e : exn) : M A := fun w => (inl e, w).

(** [try: body except ...: handler]; a handler that answers [None]
    does not match the exception, which keeps propagating. *)
Definition try_except {A} (body : M A) (handler : exn -> option (M A))
  : M A :=
  fun w =>
    match body w with
    | (inl e, w') =>
        match handler e with
        | Some h => h w'
        | None => (inl e, w')
        end
    | r => r
    end.

Definition lift {A} (r : exn + A) : M A := fun w => (r, w).

Definition print (line : string) : M unit :=
  fun w =>
    (inr tt,
     mkWorld (files w) (dirs w) (stdout w ++ [line]) (stderr w)
       (sdk_log w)).

Definition eprint (line : string) : M unit :=
  fun w =>
    (inr tt,
     mkWorld (files w) (dirs w) (stdout w) (stderr w ++ [line])
       (sdk_log w)).

Definition log_call (c : sdk_call) (w : world) : world :=
  mkWorld (files w) (dirs w) (stdout w) (stderr w) (sdk_log w ++ [c]).

(** [sys.exit(status)] *)
Definition sys_exit {A} (status : Z) : M A := raise (SystemExit status).

(** [except Exception] matches everything but [SystemExit]. *)
Definition is_Exception (e : exn) : bool :=
  match e with SystemExit _ => false | _ => true end.

(** [str(e)]: the message for the exceptions the flows construct, the
    collaborator's rendering for the others. *)
Definition str (env : environment) (e : exn) : string :=
  match e with
  | FileNotFoundError msg => msg
  | ValueError msg => msg
  | _ => exn_text env e
  end.

(** [os.makedirs(path, exist_ok=True)] *)
Definition makedirs (env : environment) (path : string) : M unit :=
  fun w =>
    if String.eqb path "" then
      (inl (FileNotFoundError "[Errno 2] No such file or directory: ''"),
       w)
    else
      match makedirs_error env path with
      | Some e => (inl e, w)
      | None =>
          (inr tt,
           mkWorld (files w) (path :: dirs w) (stdout w) (stderr w)
             (sdk_log w))
      end.

Definition client_head_object (env : environment) (bucket key : string)
    (version : option string) : M Z :=
  fun w =>
    (head_object env bucket key version,
     log_call (HeadObject bucket key version) w).

Definition client_download_file (env : environment) (bucket key : string)
    (version : option string) (filename : string) : M unit :=
  fun w =>
    let w1 := log_call (DownloadFile bucket key version filename) w in
    match sdk_download_file env bucket key version filename with
    | Some e => (inl e, w1)
    | None =>
        (inr tt,
         mkWorld (filename :: files w1) (dirs w1) (stdout w1) (stderr w1)
           (sdk_log w1))
    end.

(** The exit status of the process that ran [m]: an uncaught exception
    ends it with status 1. *)
Definition exit_status {A} (r : exn + A) : Z :=
  match r with
  | inr _ => 0
  | inl (SystemExit status) => status
  | inl _ => 1
  end.

End Eff.

Notation "x <- c1 ;; c2" := (Eff.bind c1 (fun x => c2))
  (at level 61, c1 at next level, right associativity).
Notation "c1 ;;; c2" := (Eff.bind c1 (fun _ => c2))
  (at level 61, right associativity).

(** The command line after [parse_args]. *)
Inductive command :=
| download_file_cmd (source : string) (destination : option string)
| download_dir_cmd (source : string) (destination : option string)
| download_versioned_cmd (timestamp : string) (source : string)
    (destination : option string).

(* ================================================================== *)
(** * [wasabi-downloader/s3_handler.py]: metadata and transfers *)
(* ================================================================== *)

Module S3HandlerIO.
Import PyStr Eff.

Definition not_found_message (source_key bucket_name : string) : string :=
  ("Error: Source file '" ++ source_key ++ "' not found in bucket '"
     ++ bucket_name ++ "'.")%string.

(** [get_object_info]: the ['Size'] of the returned dict. *)
Definition get_object_info (env : environment)
    (bucket_name source_key : string) : M Z :=
  try_except (client_head_object env bucket_name source_key None)
    (fun e =>
       match e with
       | ClientError code =>
           if String.eqb code "404"
           then Some (raise (FileNotFoundError
                               (not_found_message source_key bucket_name)))
           else Some (raise e)
       | _ => None
       end).

(** [download_file] *)
Definition download_file (env : environment)
    (bucket_name source_key destination_path : string) : M unit :=
  makedirs env (PosixPath.dirname destination_path) ;;;
  try_except
    (client_download_file env bucket_name source_key None destination_path)
    (fun e =>
       match e with
       | ClientError _ =>
           Some (print (nl ++ "Warning: Could not download " ++ source_key
                           ++ ". Error: " ++ str env e)%string)
       | _ => None
       end).

Definition version_text (version : option string) : string :=
  match version with Some v => v | None => "N/A" end.

(** One turn of the loop of [download_objects]; a dict of the list is
    read through [obj['Key']] and ['VersionId' in obj]. *)
Definition download_object (env : environment)
    (bucket_name destination_dir source_prefix : string)
    (obj : string * option string) : M unit :=
  let source_key := fst obj in
  destination_path <-
    lift (PathMapper.handler_destination_path (getcwd env) destination_dir
            source_prefix source_key) ;;
  makedirs env (PosixPath.dirname destination_path) ;;;
  try_except
    (client_download_file env bucket_name source_key (snd obj)
       destination_path)
    (fun e =>
       match e with
       | ClientError _ =>
           Some (print (nl ++ "Warning: Could not download " ++ source_key
                           ++ " (Version: " ++ version_text (snd obj)
                           ++ "). Error: " ++ str env e)%string)
       | _ => None
       end).

Fixpoint download_objects (env : environment)
    (bucket_name destination_dir source_prefix : string)
    (object_list : list (string * option string)) : M unit :=
  match object_list with
  | [] => ret tt
  | obj :: rest =>
      download_object env bucket_name destination_dir source_prefix obj ;;;
      download_objects env bucket_name destination_dir source_prefix rest
  end.

End S3HandlerIO.

(* ================================================================== *)
(** * [wasabi-downloader/wasabi_downloader.py]: [main] from step 4 on

    The configuration and the client are the parameters [bucket_name]
    and [env]. *)
(* ================================================================== *)

Module PackageMain.
Import PyStr Eff.

Definition get_default_download_dir (env : environment) : string :=
  PosixPath.join (getcwd env) "Download".

(** [args.destination if args.destination else default] *)
Definition destination_or (destination : option string)
    (default : string) : string :=
  match destination with
  | Some d => if truthy d then d else default
  | None => default
  end.

Definition bucket_root_or (source : string) : string :=
  if truthy source then source else "bucket root".

Definition run_download_file (env : environment)
    (bucket_name source : string) (destination : option string) : M unit :=
  let destination_path :=
    destination_or destination
      (PosixPath.join (get_default_download_dir env)
         (PosixPath.basename source)) in
  print ("Analyzing file '" ++ source ++ "'...")%string ;;;
  total_size <- S3HandlerIO.get_object_info env bucket_name source ;;
  print ("Found 1 file with total size of "
           ++ format_bytes env total_size ++ ".")%string ;;;
  print ("Downloading to '" ++ destination_path ++ "'...")%string ;;;
  S3HandlerIO.download_file env bucket_name source destination_path ;;;
  print (nl ++ "Successfully downloaded 1 file.")%string.

(** The listing of the two batch commands: the dicts to download, as
    [download_objects] reads them, and their total size. *)
Definition list_batch (env : environment) (bucket_name : string)
    (c : command) : M (list (string * option string) * Z) :=
  match c with
  | download_versioned_cmd timestamp source _ =>
      match strptime env timestamp with
      | None =>
          raise (ValueError "Invalid timestamp format. Please use YYYYMMDD.")
      | Some (y, m, d) =>
          pages <- lift (list_object_versions env bucket_name source) ;;
          let '(object_list, total_size) :=
            S3Handler.list_object_versions_at_timestamp pages
              (Datetime.target_timestamp y m d) in
          ret (map (fun e => (Key e, VersionId e)) object_list, total_size)
      end
  | download_dir_cmd source _ =>
      pages <- lift (list_objects_v2 env bucket_name source) ;;
      let '(object_list, total_size) :=
        S3Handler.list_objects_in_prefix pages in
      ret (map (fun o => (obj_Key o, @None string)) object_list, total_size)
  | download_file_cmd _ _ => ret ([], 0)
  end.

Definition run_batch (env : environment) (bucket_name : string)
    (c : command) (source : string) (destination : option string)
  : M unit :=
  let destination_dir :=
    destination_or destination (get_default_download_dir env) in
  print ("Analyzing files in '" ++ bucket_root_or source ++ "'...")%string ;;;
  listing <- list_batch env bucket_name c ;;
  let '(object_list, total_size) := listing in
  let file_count := List.length object_list in
  if Nat.eqb file_count 0 then print "No files found to download."
  else
    print ("Found " ++ str_of_nat file_count
             ++ " files to download with a total size of "
             ++ format_bytes env total_size ++ ".")%string ;;;
    print ("Downloading to '" ++ destination_dir ++ "'...")%string ;;;
    S3HandlerIO.download_objects env bucket_name destination_dir source
      object_list ;;;
    print (nl ++ "Successfully downloaded " ++ str_of_nat file_count
              ++ " files.")%string.

Definition execute (env : environment) (bucket_name : string)
    (c : command) : M unit :=
  match c with
  | download_file_cmd source destination =>
      run_download_file env bucket_name source destination
  | download_dir_cmd source destination =>
      run_batch env bucket_name c source destination
  | download_versioned_cmd _ source destination =>
      run_batch env bucket_name c source destination
  end.

(** The two [except] clauses that close [main]. *)
Definition main (env : environment) (bucket_name : string) (c : command)
  : M unit :=
  try_except (execute env bucket_name c)
    (fun e =>
       match e with
       | FileNotFoundError _ | ValueError _ | ClientError _ =>
           Some (eprint (nl ++ "ERROR: " ++ str env e)%string ;;;
                 sys_exit 1)
       | _ =>
           if is_Exception e
           then Some (eprint (nl ++ "An unexpected error occurred: "
                                 ++ str env e)%string ;;;
                      sys_exit 1)
           else None
       end).

End PackageMain.

(* ================================================================== *)
(** * [wasabi_downloader.py]: the flows of the script *)
(* ================================================================== *)

Module ScriptIO.
Import PyStr Eff.

(** [if version_id: extra_args['VersionId'] = version_id] *)
Definition extra_args (version_id : option string) : option string :=
  match version_id with
  | Some v => if truthy v then Some v else None
  | None => None
  end.

Definition not_found_message (source bucket : string) : string :=
  ("Error: Source file '" ++ source ++ "' not found in bucket '"
     ++ bucket ++ "'.")%string.

(** The part of [download_single_file] before the [try]: the
    destination, once its directory is there. *)
Definition prepare_destination (env : environment) (source : string)
    (destination : option string) : M string :=
  match destination with
  | None =>
      makedirs env Script.DEFAULT_DOWNLOAD_DIR ;;;
      ret (PosixPath.join Script.DEFAULT_DOWNLOAD_DIR
             (PosixPath.basename source))
  | Some d =>
      let local_dir := PosixPath.dirname d in
      (if truthy local_dir then makedirs env local_dir else ret tt) ;;;
      ret d
  end.

Definition download_single_file (env : environment)
    (bucket source : string) (destination : option string)
    (version_id : option string) : M (bool * option string) :=
  destination' <- prepare_destination env source destination ;;
  try_except
    (client_head_object env bucket source (extra_args version_id) ;;;
     client_download_file env bucket source (extra_args version_id)
       destination' ;;;
     ret (true, Some destination'))
    (fun e =>
       match e with
       | ClientError code =>
           Some ((if String.eqb code "404"
                  then eprint (not_found_message source bucket)
                  else eprint ("An unexpected error occurred for '"
                                 ++ source ++ "': " ++ str env e)%string) ;;;
                 ret (false, None))
       | PermissionError =>
           Some (eprint ("Error: Permission denied. Could not write to '"
                           ++ destination' ++ "'.")%string ;;;
                 ret (false, None))
       | _ =>
           if is_Exception e
           then Some (eprint ("An error occurred during download of '"
                                ++ source ++ "': " ++ str env e)%string ;;;
                      ret (false, None))
           else None
       end).

(** The loop of lines 180 to 189, and of lines 250 to 259: the two
    counters after the targets of [targets]. *)
Fixpoint download_each (env : environment)
    (bucket source_prefix dest_dir : string)
    (targets : list (string * option string))
    (success_count fail_count : nat) : M (nat * nat) :=
  match targets with
  | [] => ret (success_count, fail_count)
  | (key, version_id) :: rest =>
      local_path <-
        lift (PathMapper.script_local_path (getcwd env) dest_dir
                source_prefix key) ;;
      r <- download_single_file env bucket key (Some local_path)
             version_id ;;
      if fst r
      then download_each env bucket source_prefix dest_dir rest
             (S success_count) fail_count
      else download_each env bucket source_prefix dest_dir rest
             success_count (S fail_count)
  end.

Definition dest_or_default (dest_dir : option string) : string :=
  match dest_dir with Some d => d | None => Script.DEFAULT_DOWNLOAD_DIR end.

Definition bucket_root_or (source_prefix : string) : string :=
  if truthy source_prefix then source_prefix else "bucket root".

(** Lines 176 to 191 of [download_dir]. *)
Definition download_dir_batch (env : environment)
    (bucket source_prefix dest_dir : string) (all_keys : list string)
  : M unit :=
  counts <- download_each env bucket source_prefix dest_dir
              (map (fun key => (key, @None string)) all_keys) 0%nat 0%nat ;;
  print (nl ++ "Directory download complete. "
            ++ str_of_nat (fst counts) ++ " files succeeded, "
            ++ str_of_nat (snd counts) ++ " files failed.")%string.

Definition download_dir (env : environment) (bucket source_prefix : string)
    (dest_dir : option string) : M unit :=
  let dest_dir := dest_or_default dest_dir in
  match list_objects_v2 env bucket source_prefix with
  | inl (ClientError code) =>
      eprint ("Error listing files in '" ++ source_prefix ++ "': "
                ++ str env (ClientError code))%string
  | inl e => raise e
  | inr pages =>
      let all_keys := Script.all_keys pages in
      match all_keys with
      | [] => print ("No files found in '" ++ bucket_root_or source_prefix
                       ++ "'.")%string
      | _ =>
          print ("Found " ++ str_of_nat (List.length all_keys)
                   ++ " files to download from '"
                   ++ bucket_root_or source_prefix ++ "'.")%string ;;;
          download_dir_batch env bucket source_prefix dest_dir all_keys
      end
  end.

(** Lines 246 to 261 of [download_versioned]. *)
Definition download_versioned_batch (env : environment)
    (bucket source_prefix dest_dir : string)
    (to_download : PyDict.t string) : M unit :=
  counts <- download_each env bucket source_prefix dest_dir
              (map (fun kv => (fst kv, Some (snd kv)))
                 (PyDict.items to_download)) 0%nat 0%nat ;;
  print (nl ++ "Versioned download complete. "
            ++ str_of_nat (fst counts) ++ " file(s) succeeded, "
            ++ str_of_nat (snd counts) ++ " file(s) failed.")%string.

Definition download_versioned (env : environment)
    (bucket timestamp_str source_prefix : string)
    (dest_dir : option string) : M unit :=
  let dest_dir := dest_or_default dest_dir in
  match strptime env timestamp_str with
  | None =>
      eprint ("Error: Invalid timestamp format '" ++ timestamp_str
                ++ "'. Please use YYYYMMDD.")%string ;;;
      sys_exit 1
  | Some (y, m, d) =>
      print ("Fetching versions as of end-of-day "
               ++ Datetime.isoformat_date y m d ++ " UTC...")%string ;;;
      match list_object_versions env bucket source_prefix with
      | inl (ClientError code) =>
          (if String.eqb code "InvalidRequest"
           then eprint ("Error: Bucket '" ++ bucket
                          ++ "' may not have versioning enabled, which is required for this command.")%string
           else eprint ("Error listing object versions: "
                          ++ str env (ClientError code))%string) ;;;
          sys_exit 1
      | inl e => raise e
      | inr pages =>
          to_download <-
            lift (Script.to_download pages
                    (Datetime.target_timestamp y m d)) ;;
          match to_download with
          | [] =>
              print ("No file versions found for the specified timestamp '"
                       ++ timestamp_str ++ "'.")%string
          | _ =>
              print ("Found " ++ str_of_nat (List.length to_download)
                       ++ " file(s) to download for the state at "
                       ++ timestamp_str ++ ".")%string ;;;
              download_versioned_batch env bucket source_prefix dest_dir
                to_download
          end
      end
  end.

Definition execute (env : environment) (bucket_name : string)
    (c : command) : M unit :=
  match c with
  | download_file_cmd source destination =>
      print ("Starting download of '" ++ source ++ "'...")%string ;;;
      r <- download_single_file env bucket_name source destination None ;;
      match r with
      | (true, local_path) =>
          print (nl ++ "Successfully downloaded to '"
                    ++ match local_path with Some p => p | None => "None" end
                    ++ "'")%string
      | (false, _) =>
          eprint (nl ++ "Download failed for '" ++ source ++ "'")%string ;;;
          sys_exit 1
      end
  | download_dir_cmd source destination =>
      download_dir env bucket_name source destination
  | download_versioned_cmd timestamp source destination =>
      download_versioned env bucket_name timestamp source destination
  end.

(** The [except] clause that closes [main]. *)
Definition main (env : environment) (bucket_name : string) (c : command)
  : M unit :=
  try_except (execute env bucket_name c)
    (fun e =>
       match e with
       | FileNotFoundError _ | ValueError _ | ClientError _ =>
           Some (eprint ("Error: " ++ str env e)%string ;;; sys_exit 1)
       | _ => None
       end).

End ScriptIO.

(* ================================================================== *)
(** * [wasabi-downloader/wasabi_downloader.py]: [format_bytes]

    [byte_count /= power] is a float division by a power of two; for a
    count below [2^53] every quotient is exact, so the floats of the loop
    are the rationals below.  [f'{x:.2f}'] prints the exact value of
    the float rounded to two decimals, ties to even. *)
(* ================================================================== *)

Module PackageFormat.

Definition power : Q := inject_Z 1024.

(** [power_labels], a dict whose keys are 0 to 4 *)
Definition power_labels : list string := [""; "K"; "M"; "G"; "T"].

(** The [while] loop; [remaining] is [len(power_labels) - 1 - n]. *)
Fixpoint scale (remaining : nat) (byte_count : Q) (n : nat) : Q * nat :=
  match remaining with
  | O => (byte_count, n)
  | S remaining' =>
      if Qle_bool power byte_count
      then scale remaining' (byte_count / power)%Q (S n)
      else (byte_count, n)
  end.

Definition round_half_even (q : Q) : Z :=
  let f := Qfloor q in
  match Qcompare (q - inject_Z f)%Q (1 # 2)%Q with
  | Lt => f
  | Gt => f + 1
  | Eq => if Z.even f then f else f + 1
  end.

Definition digits (z : Z) : string :=
  NilEmpty.string_of_uint (N.to_uint (Z.to_N z)).

Definition two_digits (z : Z) : string :=
  if z <? 10 then ("0" ++ digits z)%string else digits z.

(** [f'{x:.2f}'] for [x >= 0] *)
Definition format_2f_abs (x : Q) : string :=
  let hundredths := round_half_even (x * inject_Z 100)%Q in
  (digits (hundredths / 100) ++ "." ++ two_digits (hundredths mod 100))
    %string.

(** [f'{x:.2f}'] *)
Definition format_2f (x : Q) : string :=
  match Qcompare x 0%Q with
  | Lt => ("-" ++ format_2f_abs (- x)%Q)%string
  | _ => format_2f_abs x
  end.

Definition format_bytes (byte_count : option Z) : string :=
  match byte_count with
  | None => "0 B"
  | Some b =>
      let '(x, n) :=
        scale (List.length power_labels - 1) (inject_Z b) 0%nat in
      (format_2f x ++ " " ++ nth n power_labels "" ++ "B")%string
  end.

End PackageFormat.

(* ================================================================== *)
(** * [wasabi_downloader.py]: [TqdmProgressCallback]

    The bar [t] is its counter: [t.update(block)] adds [block] to it. *)
(* ================================================================== *)

Module Progress.

Record TqdmProgressCallback := mkCallback {
  t : Z;
  last_block : Z
}.

(** [__init__] *)
Definition init (t : Z) : TqdmProgressCallback := mkCallback t 0.

(** [__call__] *)
Definition call (self : TqdmProgressCallback) (bytes_amount : Z)
  : TqdmProgressCallback :=
  let block := bytes_amount - last_block self in
  mkCallback (t self + block) bytes_amount.

(** The callback after the calls the transfer makes, in order. *)
Definition calls (self : TqdmProgressCallback) (amounts : list Z)
  : TqdmProgressCallback :=
  fold_left call amounts self.

End Progress.

(* ================================================================== *)
(** * [wasabi-downloader/config_loader.py]

    [pd.read_csv] is a collaborator: it raises or returns a frame, of
    which the code reads the column names and the cells of the columns
    [key] and [value].  A cell is a text or, when the field is empty,
    the float [nan]; in a column whose fields are all numbers or all
    booleans the cells are ints, floats or bools.  Of a float other than
    [nan] the code reads its truth value and its [str], which is what
    [Float] keeps.  [records] are the rows whose [key] cell is a text,
    in order: the code looks up text keys only, and a row under another
    key cell is never found by them. *)
(* ================================================================== *)

Inductive value :=
| NaN
| PyNone
| Text (s : string)
| Int (n : Z)
| Bool (b : bool)
| Float (nonzero : bool) (text : string).

Record frame := mkFrame {
  columns : list string;
  records : list (string * value)
}.

Module ConfigLoader.

(** [pd.isna(v)] *)
Definition isna (v : value) : bool :=
  match v with
  | NaN | PyNone => true
  | Text _ | Int _ | Bool _ | Float _ _ => false
  end.

Definition required_keys : list string :=
  ["aws_access_key_id"; "aws_secret_access_key"; "endpoint_url";
   "bucket_name"].

(** [pd.Series(df.value.values, index=df.key).to_dict()]: the dict of
    the pairs in row order, where a later row of a key replaces the
    value of an earlier one. *)
Definition to_dict (rows : list (string * value)) : PyDict.t value :=
  fold_left (fun d row => PyDict.set (fst row) (snd row) d) rows
    PyDict.empty.

(** [key not in config or pd.isna(config[key])] *)
Definition is_missing (config : PyDict.t value) (key : string) : bool :=
  match PyDict.get key config with
  | None => true
  | Some v => isna v
  end.

(** [', '.join(keys)] *)
Fixpoint join_comma (keys : list string) : string :=
  match keys with
  | [] => ""
  | [k] => k
  | k :: rest => (k ++ ", " ++ join_comma rest)%string
  end.

Definition has_column (name : string) (df : frame) : bool :=
  existsb (String.eqb name) (columns df).

Definition load_config (read_csv : string -> exn + frame)
    (config_path : string) : exn + PyDict.t value :=
  match read_csv config_path with
  | inl (FileNotFoundError _) =>
      inl (FileNotFoundError
             ("Error: Configuration file not found at '" ++ config_path
                ++ "'")%string)
  | inl e => inl e
  | inr df =>
      if negb (has_column "key" df) || negb (has_column "value" df)
      then inl (ValueError
                  "Invalid config file: Must contain 'key' and 'value' columns.")
      else
        let config := to_dict (records df) in
        let missing_keys := filter (is_missing config) required_keys in
        match missing_keys with
        | _ :: _ =>
            inl (ValueError
                   ("Missing required configuration keys: "
                      ++ join_comma missing_keys)%string)
        | [] =>
            match PyDict.get "mfa_serial_number" config with
            | Some v =>
                if isna v
                then inr (PyDict.set "mfa_serial_number" PyNone config)
                else inr config
            | None => inr config
            end
        end
  end.

End ConfigLoader.

(* ================================================================== *)
(** * [wasabi-downloader/s3_handler.py]: [get_s3_client]

    [boto3.client] is a collaborator.  The result of [get_s3_client] is
    the keyword arguments of its call [boto3.client('s3', ...)], whose
    outcome is the outcome of the function; the requests to the token
    service are logged beside it. *)
(* ================================================================== *)

Record credentials := mkCredentials {
  AccessKeyId : string;
  SecretAccessKey : string;
  SessionToken : string
}.

Record client_params := mkClientParams {
  endpoint_url : value;
  aws_access_key_id : value;
  aws_secret_access_key : value;
  aws_session_token : option value;
  verify : option value
}.

(** A call of [get_session_token]: [SerialNumber] and [TokenCode]. *)
Definition sts_call : Type := value * string.

Module Session.

Definition MFA_PLACEHOLDER : string :=
  "YOUR_MFA_SERIAL_NUMBER_ARN (optional)".

(** [bool(v)]: [None], the empty text, zero and [False] are falsy, a
    float [nan] is truthy. *)
Definition truthy (v : value) : bool :=
  match v with
  | NaN => true
  | PyNone => false
  | Text s => PyStr.truthy s
  | Int n => negb (n =? 0)
  | Bool b => b
  | Float nonzero _ => nonzero
  end.

(** [v != text]: only a text can equal a text. *)
Definition differs (v : value) (text : string) : bool :=
  match v with
  | Text s => negb (String.eqb s text)
  | _ => true
  end.

(** [config.get('mfa_serial_number') and
    config['mfa_serial_number'] != 'YOUR_MFA_SERIAL_NUMBER_ARN (optional)'] *)
Definition mfa_configured (config : PyDict.t value) : bool :=
  match PyDict.get "mfa_serial_number" config with
  | Some v => truthy v && differs v MFA_PLACEHOLDER
  | None => false
  end.

(** [config[key]] *)
Definition item (config : PyDict.t value) (key : string) : exn + value :=
  match PyDict.get key config with
  | Some v => inr v
  | None => inl (KeyError key)
  end.

(** [not mfa_token] *)
Definition no_token (mfa_token : option string) : bool :=
  match mfa_token with
  | Some token => negb (PyStr.truthy token)
  | None => true
  end.

Definition token_text (mfa_token : option string) : string :=
  match mfa_token with Some token => token | None => "" end.

(** [config.get('ssl_verify_path')] when it is truthy *)
Definition ssl_verify (config : PyDict.t value) : option value :=
  match PyDict.get "ssl_verify_path" config with
  | Some v => if truthy v then Some v else None
  | None => None
  end.

Definition get_s3_client
    (get_session_token : value -> string -> exn + credentials)
    (config : PyDict.t value) (mfa_token : option string)
  : (exn + client_params) * list sts_call :=
  match item config "aws_access_key_id" with
  | inl e => (inl e, [])
  | inr access_key =>
      match item config "aws_secret_access_key" with
      | inl e => (inl e, [])
      | inr secret_key =>
          if mfa_configured config then
            if no_token mfa_token then
              (inl (ValueError "MFA token is required for authentication."),
               [])
            else
              match item config "mfa_serial_number" with
              | inl e => (inl e, [])
              | inr serial =>
                  let request := (serial, token_text mfa_token) in
                  match get_session_token serial (token_text mfa_token) with
                  | inl e => (inl e, [request])
                  | inr c =>
                      match item config "endpoint_url" with
                      | inl e => (inl e, [request])
                      | inr endpoint =>
                          (inr (mkClientParams endpoint
                                  (Text (AccessKeyId c))
                                  (Text (SecretAccessKey c))
                                  (Some (Text (SessionToken c)))
                                  (ssl_verify config)),
                           [request])
                      end
                  end
              end
          else
            match item config "endpoint_url" with
            | inl e => (inl e, [])
            | inr endpoint =>
                (inr (mkClientParams endpoint access_key secret_key None
                        (ssl_verify config)),
                 [])
            end
      end
  end.

End Session.

(* ================================================================== *)
(** * [wasabi-downloader/wasabi_downloader.py]: [main] from its [try]

    [PackageMain] is step 4 of this [main]; steps 1 to 3 load the
    configuration and connect.  The storage client the connection
    yields is the part of [env] the requests go to. *)
(* ================================================================== *)

Record session := mkSession {
  (** [pd.read_csv(path)] *)
  read_csv : string -> exn + frame;
  (** what [getpass.getpass] reads at the prompt *)
  getpass : string;
  (** [sts_client.get_session_token(SerialNumber, TokenCode)] *)
  get_session_token : value -> string -> exn + credentials;
  (** the exception [boto3.client('s3', ...)] raises, if any *)
  boto3_client : client_params -> option exn
}.

Module PackageStartup.
Import PyStr Eff.

(** [str(v)] *)
Definition value_text (v : value) : string :=
  match v with
  | Text s => s
  | NaN => "nan"
  | PyNone => "None"
  | Int n =>
      if n <? 0 then ("-" ++ PackageFormat.digits (- n))%string
      else PackageFormat.digits n
  | Bool b => if b then "True" else "False"
  | Float _ text => text
  end.

(** Steps 1 to 3 and [bucket_name = config['bucket_name']]. *)
Definition connect (s : session) (config_path : string) : M string :=
  config <- lift (ConfigLoader.load_config (read_csv s) config_path) ;;
  let mfa_token :=
    if Session.mfa_configured config then Some (getpass s) else None in
  print "Connecting to Wasabi..." ;;;
  params <-
    lift (fst (Session.get_s3_client (get_session_token s) config
                 mfa_token)) ;;
  match boto3_client s params with
  | Some e => raise e
  | None =>
      print "Connection successful." ;;;
      bucket_name <- lift (Session.item config "bucket_name") ;;
      ret (value_text bucket_name)
  end.

(** The two [except] clauses that close [main]. *)
Definition handler (env : environment) (e : exn) : option (M unit) :=
  match e with
  | FileNotFoundError _ | ValueError _ | ClientError _ =>
      Some (eprint (nl ++ "ERROR: " ++ str env e)%string ;;; sys_exit 1)
  | _ =>
      if is_Exception e
      then Some (eprint (nl ++ "An unexpected error occurred: "
                            ++ str env e)%string ;;;
                 sys_exit 1)
      else None
  end.

Definition main (s : session) (config_path : string) (env : environment)
    (c : command) : M unit :=
  try_except
    (bucket_name <- connect s config_path ;;
     PackageMain.execute env bucket_name c)
    (handler env).

End PackageStartup.

(* ================================================================== *)
(** * Vocabulary of the statements *)
(* ================================================================== *)

(** The input sequence of the resolver: the entries of the pages in the
    order the loops visit them. *)
Definition listing_sequence (pages : list version_page) : list entry :=
  flat_map (fun page => Versions page ++ DeleteMarkers page) pages.

(** An entry is a candidate when it is not later than the target. *)
Definition eligible (timestamp : Z) (e : entry) : Prop :=
  LastModified e <= timestamp.

(** No two different candidates of one key carry the same time. *)
Definition tie_free (timestamp : Z) (l : list entry) : Prop :=
  forall e1 e2,
    In e1 l -> In e2 l -> Key e1 = Key e2 ->
    eligible timestamp e1 -> eligible timestamp e2 ->
    LastModified e1 = LastModified e2 -> e1 = e2.

(** The entries the script lets through to its resolution. *)
Definition is_file_entry (e : entry) : bool :=
  negb (PyStr.endswith_sep (Key e)).

(** What one entry does to the binding of key [k]. *)
Definition pick (timestamp : Z) (k : string) (cur : option entry)
    (e : entry) : option entry :=
  if (LastModified e <=? timestamp) && String.eqb (Key e) k then
    match cur with
    | None => Some e
    | Some c => if LastModified e >? LastModified c then Some e else cur
    end
  else cur.

(** The binding of key [k] after the entries of [l], from no binding. *)
Definition winner (timestamp : Z) (k : string) (l : list entry)
  : option entry :=
  fold_left (pick timestamp k) l None.

(** Every binding of a resolution state files an entry under its own
    key, and no key is bound twice. *)
Definition well_keyed (d : PyDict.t entry) : Prop :=
  NoDup (PyDict.keys d) /\ forall k e, In (k, e) d -> Key e = k.

(** No separator occurs in [s]. *)
Fixpoint sep_free (s : string) : bool :=
  match s with
  | EmptyString => true
  | String c r => negb (Ascii.eqb c PyStr.sep) && sep_free r
  end.

(** A directory name: not empty, not [.] or [..], without separator. *)
Definition plain_component (c : string) : bool :=
  negb (String.eqb c "") && negb (String.eqb c ".")
  && negb (String.eqb c "..") && sep_free c.

(** A working directory as [os.getcwd()] returns it, absolute and
    normalized: a separator, then directory names joined by separators. *)
Definition cwd_of (comps : list string) : string :=
  String PyStr.sep (String.concat "/" comps).

(** The test of line 104 of [s3_handler.py]. *)
Definition handler_keeps (kv : string * entry) : bool :=
  has_VersionId (snd kv) && (get_Size (snd kv) 0 >? 0).

(** The test of line 82 of [s3_handler.py]. *)
Definition has_content (obj : object_summary) : bool := obj_Size obj >? 0.

(** The ['Contents'] of all pages, in order. *)
Definition all_contents (pages : list object_page) : list object_summary :=
  flat_map (fun page =>
              match Contents page with Some c => c | None => [] end) pages.

(** A component that can stay in a normalized path. *)
Definition kept_component (c : string) : bool :=
  PyStr.truthy c && sep_free c.

(** Without [..] the loop of [normpath] only appends. *)
Definition not_dotdot (c : string) : bool := negb (String.eqb c "..").

Definition not_skipped (c : string) : bool :=
  negb (String.eqb c "" || String.eqb c ".").

(** What the storage client answers to the head request and then to the
    transfer of one object: [None] when both succeed. *)
Definition transfer_result (env : environment) (bucket key : string)
    (version : option string) (filename : string) : option exn :=
  match head_object env bucket key version with
  | inl e => Some e
  | inr _ => sdk_download_file env bucket key version filename
  end.

Definition transfer_ok (env : environment) (bucket key : string)
    (version : option string) (filename : string) : bool :=
  match transfer_result env bucket key version filename with
  | None => true
  | Some _ => false
  end.

(** The local directory of [filename] can be created. *)
Definition directory_ready (env : environment) (filename : string) : Prop :=
  PyStr.truthy (PosixPath.dirname filename) = true ->
  makedirs_error env (PosixPath.dirname filename) = None.

(** A target of the script's loop whose local path is defined, whose
    directory can be created and whose transfer fails, if it does, with
    an [Exception]. *)
Definition script_target_ready (env : environment)
    (bucket source_prefix dest_dir : string)
    (local_path : string) (t : string * option string) : Prop :=
  PathMapper.script_local_path (getcwd env) dest_dir source_prefix (fst t)
  = inr local_path
  /\ directory_ready env local_path
  /\ forall e,
      transfer_result env bucket (fst t) (ScriptIO.extra_args (snd t))
        local_path = Some e ->
      Eff.is_Exception e = true.

(** The targets of the script's loop together with their local paths,
    and how many of them transfer. *)
Definition target_ok (env : environment) (bucket : string)
    (pt : string * (string * option string)) : bool :=
  transfer_ok env bucket (fst (snd pt))
    (ScriptIO.extra_args (snd (snd pt))) (fst pt).

Definition successes (env : environment) (bucket : string)
    (pts : list (string * (string * option string))) : nat :=
  List.length (filter (target_ok env bucket) pts).

Definition failures (env : environment) (bucket : string)
    (pts : list (string * (string * option string))) : nat :=
  List.length (filter (fun pt => negb (target_ok env bucket pt)) pts).

(** An object of [download_objects] whose destination is defined and
    whose directory can be created. *)
Definition handler_target_ready (env : environment)
    (destination_dir source_prefix : string)
    (destination_path : string) (obj : string * option string) : Prop :=
  PathMapper.handler_destination_path (getcwd env) destination_dir
    source_prefix (fst obj) = inr destination_path
  /\ PosixPath.dirname destination_path <> ""
  /\ makedirs_error env (PosixPath.dirname destination_path) = None.

Definition handler_warning (env : environment) (obj : string * option string)
    (e : exn) : string :=
  (PyStr.nl ++ "Warning: Could not download " ++ fst obj
     ++ " (Version: " ++ S3HandlerIO.version_text (snd obj)
     ++ "). Error: " ++ Eff.str env e)%string.

(** The directory [download_single_file] creates before its [try]. *)
Definition script_directory_ready (env : environment)
    (destination : option string) : Prop :=
  match destination with
  | None => makedirs_error env Script.DEFAULT_DOWNLOAD_DIR = None
  | Some d => directory_ready env d
  end.

(* ================================================================== *)
(** * Sample listings and environments *)
(* ================================================================== *)

Definition tied_first : entry := mkEntry "a.txt" (Some "v1") 10 (Some 5).

Definition tied_second : entry := mkEntry "a.txt" (Some "v2") 10 (Some 7).

(** Two versions of one key with the same time, in both orders. *)
Definition tied_pages : list version_page :=
  [mkVersionPage [tied_first; tied_second] []].

Definition tied_pages_swapped : list version_page :=
  [mkVersionPage [tied_second; tied_first] []].

Definition early_version : entry := mkEntry "a.txt" (Some "v0") 5 (Some 3).

Definition old_version : entry := mkEntry "doc.txt" (Some "v1") 10 (Some 42).

Definition delete_marker : entry := mkEntry "doc.txt" (Some "v2") 15 None.

Definition empty_version : entry :=
  mkEntry "empty.txt" (Some "v1") 10 (Some 0).

Definition placeholder_with_content : object_summary := mkObject "photos/" 5.

Definition versioned_placeholder : entry :=
  mkEntry "photos/" (Some "v1") 10 (Some 5).

Definition placeholder_version : entry :=
  mkEntry "photos/" (Some "v1") 10 (Some 0).

Definition photo_version : entry :=
  mkEntry "photos/cat.jpg" (Some "v7") 12 (Some 900).

(** The example of the specification: the end of 2024-06-01. *)
Definition last_instant_entry : entry :=
  mkEntry "a.txt" (Some "v1")
    (Datetime.instant (Datetime.mkDatetime 2024 6 1 23 59 59 999999))
    (Some 1).

Definition next_midnight_entry : entry :=
  mkEntry "a.txt" (Some "v2")
    (Datetime.instant (Datetime.mkDatetime 2024 6 2 0 0 0 0)) (Some 1).

(** A version written at noon of the first of June and one written at
    the first instant of the second. *)
Definition noon_entry : entry :=
  mkEntry "b.txt" (Some "v1")
    (Datetime.instant (Datetime.mkDatetime 2024 6 1 12 0 0 0)) (Some 1).

Definition next_day_entry : entry :=
  mkEntry "b.txt" (Some "v2")
    (Datetime.instant (Datetime.mkDatetime 2024 6 2 0 0 0 0)) (Some 1).

Definition noon_pages : list version_page :=
  [mkVersionPage [noon_entry; next_day_entry] []].

Definition three_objects : list object_summary :=
  [mkObject "a.txt" 10; mkObject "b.txt" 20; mkObject "c.txt" 30].

Definition three_versions : list entry :=
  [mkEntry "a.txt" (Some "v1") 10 (Some 10);
   mkEntry "b.txt" (Some "v2") 10 (Some 20);
   mkEntry "c.txt" (Some "v3") 10 (Some 30)].

(** A bucket of three objects where the transfer of the second one is
    refused. *)
Definition second_fails : environment :=
  mkEnv
    (fun _ _ _ => inr 10)
    (fun _ key _ _ =>
       if String.eqb key "b.txt" then Some (ClientError "403") else None)
    (fun _ => None)
    (fun _ _ => inr [mkObjectPage (Some three_objects)])
    (fun _ _ => inr [mkVersionPage three_versions []])
    "/srv/work"
    (fun _ => "Forbidden")
    (fun _ => Some (2024, 6, 1))
    (fun _ => "60.00 B").

(** A bucket without objects: every head request is answered 404. *)
Definition empty_bucket : environment :=
  mkEnv
    (fun _ _ _ => inl (ClientError "404"))
    (fun _ _ _ _ => Some (ClientError "404"))
    (fun _ => None)
    (fun _ _ => inr [])
    (fun _ _ => inr [])
    "/srv/work"
    (fun _ => "Not Found")
    (fun _ => None)
    (fun _ => "0.00 B").

(** The relative path [relpath] spells for a start with the components
    [P] and a path with the components [K]. *)
Definition rel_text (P K : list string) : string :=
  match PosixPath.rel_list P K with
  | [] => "."
  | l => String.concat "/" l
  end.

(** The transfer request [download_objects] sends for an object and its
    destination. *)
Definition handler_request (bucket : string)
    (pt : string * (string * option string)) : sdk_call :=
  DownloadFile bucket (fst (snd pt)) (snd (snd pt)) (fst pt).

(** The transfer of an object of [download_objects] succeeds or fails
    with a [ClientError]. *)
Definition handler_transfer_recoverable (env : environment) (bucket : string)
    (pt : string * (string * option string)) : Prop :=
  sdk_download_file env bucket (fst (snd pt)) (snd (snd pt)) (fst pt) = None
  \/ exists code,
      sdk_download_file env bucket (fst (snd pt)) (snd (snd pt)) (fst pt)
      = Some (ClientError code).

(** A bucket whose second transfer cannot be written to the disk. *)
Definition second_unwritable : environment :=
  mkEnv
    (fun _ _ _ => inr 10)
    (fun _ key _ _ =>
       if String.eqb key "b.txt" then Some PermissionError else None)
    (fun _ => None)
    (fun _ _ => inr [mkObjectPage (Some three_objects)])
    (fun _ _ => inr [mkVersionPage three_versions []])
    "/srv/work"
    (fun _ => "Permission denied")
    (fun _ => Some (2024, 6, 1))
    (fun _ => "60.00 B").

(** A bucket that refuses to be listed and to answer head requests. *)
Definition access_denied : environment :=
  mkEnv
    (fun _ _ _ => inl (ClientError "403"))
    (fun _ _ _ _ => Some (ClientError "403"))
    (fun _ => None)
    (fun _ _ => inl (ClientError "AccessDenied"))
    (fun _ _ => inl (ClientError "InvalidRequest"))
    "/srv/work"
    (fun _ => "Forbidden")
    (fun _ => Some (2024, 6, 1))
    (fun _ => "0.00 B").

(** A bucket with versioning and without objects. *)
Definition empty_versioned_bucket : environment :=
  mkEnv
    (fun _ _ _ => inl (ClientError "404"))
    (fun _ _ _ _ => Some (ClientError "404"))
    (fun _ => None)
    (fun _ _ => inr [mkObjectPage None])
    (fun _ _ => inr [mkVersionPage [] []])
    "/srv/work"
    (fun _ => "Not Found")
    (fun _ => Some (2024, 6, 1))
    (fun _ => "0.00 B").

(** The local file of the single-file command in each client. *)
Definition script_single_destination (source : string)
    (destination : option string) : string :=
  match destination with
  | None =>
      PosixPath.join Script.DEFAULT_DOWNLOAD_DIR (PosixPath.basename source)
  | Some d => d
  end.

Definition package_single_destination (env : environment)
    (source : string) (destination : option string) : string :=
  PackageMain.destination_or destination
    (PosixPath.join (PackageMain.get_default_download_dir env)
       (PosixPath.basename source)).

(** A bucket whose objects exist and cannot be fetched. *)
Definition fetch_refused : environment :=
  mkEnv
    (fun _ _ _ => inr 10)
    (fun _ _ _ _ => Some (ClientError "403"))
    (fun _ => None)
    (fun _ _ => inr [mkObjectPage (Some three_objects)])
    (fun _ _ => inr [mkVersionPage three_versions []])
    "/srv/work"
    (fun _ => "Forbidden")
    (fun _ => Some (2024, 6, 1))
    (fun _ => "10.00 B").

(** A bucket whose objects can all be fetched. *)
Definition all_fetched : environment :=
  mkEnv
    (fun _ _ _ => inr 10)
    (fun _ _ _ _ => None)
    (fun _ => None)
    (fun _ _ => inr [mkObjectPage (Some three_objects)])
    (fun _ _ => inr [mkVersionPage three_versions []])
    "/srv/work"
    (fun _ => "")
    (fun _ => Some (2024, 6, 1))
    (fun _ => "10.00 B").

(** The value of the last row of [key] in the table, if it has one. *)
Fixpoint last_value (rows : list (string * value)) (key : string)
  : option value :=
  match rows with
  | [] => None
  | (k, v) :: rest =>
      match last_value rest key with
      | Some v' => Some v'
      | None => if String.eqb key k then Some v else None
      end
  end.

(** A key of the table whose last row holds a value: its cell is not
    empty. *)
Definition has_value_b (rows : list (string * value)) (key : string)
  : bool :=
  match last_value rows key with
  | Some v => negb (ConfigLoader.isna v)
  | None => false
  end.

(** A configuration read from a table with the two columns. *)
Definition table (rows : list (string * value)) : frame :=
  mkFrame ["key"; "value"] rows.

Definition plain_rows : list (string * value) :=
  [("aws_access_key_id", Text "AKIA");
   ("aws_secret_access_key", Text "secret");
   ("endpoint_url", Text "https://s3.wasabisys.com");
   ("bucket_name", Text "bucket");
   ("mfa_serial_number", NaN)].

Definition mfa_rows : list (string * value) :=
  [("aws_access_key_id", Text "AKIA");
   ("aws_secret_access_key", Text "secret");
   ("endpoint_url", Text "https://s3.wasabisys.com");
   ("bucket_name", Text "bucket");
   ("mfa_serial_number", Text "arn:aws:iam::1:mfa/user")].

Definition incomplete_rows : list (string * value) :=
  [("aws_access_key_id", Text "AKIA");
   ("endpoint_url", Text "https://s3.wasabisys.com");
   ("bucket_name", NaN)].

(** A table whose value column holds numbers only. *)
Definition numeric_rows : list (string * value) :=
  [("aws_access_key_id", Int 1);
   ("aws_secret_access_key", Int 2);
   ("endpoint_url", Int 3);
   ("bucket_name", Int 4)].

Definition temporary : credentials := mkCredentials "ASIA" "temp" "token".

(** Sessions whose configuration file holds the rows above; the token
    service accepts the code 123456. *)
Definition sts_accepts : value -> string -> exn + credentials :=
  fun _ token =>
    if String.eqb token "123456" then inr temporary
    else inl (ClientError "AccessDenied").

Definition plain_session : session :=
  mkSession (fun _ => inr (table plain_rows)) "" sts_accepts (fun _ => None).

Definition mfa_session_without_token : session :=
  mkSession (fun _ => inr (table mfa_rows)) "" sts_accepts (fun _ => None).

Definition unconfigured_session : session :=
  mkSession (fun _ => inl (FileNotFoundError "config.csv")) "" sts_accepts
    (fun _ => None).

Definition numeric_session : session :=
  mkSession (fun _ => inr (table numeric_rows)) "" sts_accepts
    (fun _ => None).



(* ================================================================== *)
(** * Facts about dicts *)
(* ================================================================== *)

Section DictFacts.
Context {V : Type}.
Implicit Types (d : PyDict.t V) (k : string) (v : V).

Lemma get_set_same k v d : PyDict.get k (PyDict.set k v d) = Some v.
Proof.
  induction d as [|[k' v'] d IH]; simpl.
  - now rewrite String.eqb_refl.
  - destruct (String.eqb k k') eqn:E; simpl; rewrite E; auto.
Qed.

Lemma get_set_other k k' v d :
  k <> k' -> PyDict.get k' (PyDict.set k v d) = PyDict.get k' d.
Proof.
  intros Hne. induction d as [|[k0 v0] d IH]; simpl.
  - destruct (String.eqb k' k) eqn:E; auto.
    apply String.eqb_eq in E. congruence.
  - destruct (String.eqb k k0) eqn:E; simpl.
    + apply String.eqb_eq in E. subst k0.
      destruct (String.eqb k' k) eqn:E'; auto.
      apply String.eqb_eq in E'. congruence.
    + now rewrite IH.
Qed.

Lemma keys_set k v d :
  PyDict.keys (PyDict.set k v d)
  = if PyDict.mem k d then PyDict.keys d else PyDict.keys d ++ [k].
Proof.
  unfold PyDict.mem.
  induction d as [|[k0 v0] d IH]; simpl; auto.
  destruct (String.eqb k k0) eqn:E; simpl; auto.
  rewrite IH. now destruct (PyDict.get k d).
Qed.

Lemma get_None_not_key k d :
  PyDict.get k d = None -> ~ In k (PyDict.keys d).
Proof.
  induction d as [|[k0 v0] d IH]; simpl; auto.
  destruct (String.eqb k k0) eqn:E; try discriminate.
  intros H [H0|H0]; [|now apply IH].
  subst k0. now rewrite String.eqb_refl in E.
Qed.

Lemma in_get k v d :
  NoDup (PyDict.keys d) -> In (k, v) d -> PyDict.get k d = Some v.
Proof.
  induction d as [|[k0 v0] d IH]; simpl; [tauto|].
  intros Hnd [H|H]; inversion Hnd as [|? ? Hnotin Hnd']; subst.
  - inversion H; subst. now rewrite String.eqb_refl.
  - destruct (String.eqb k k0) eqn:E; auto.
    apply String.eqb_eq in E. subst k0.
    exfalso. apply Hnotin. unfold PyDict.keys.
    change k with (fst (k, v)). now apply in_map.
Qed.

Lemma get_in k v d : PyDict.get k d = Some v -> In (k, v) d.
Proof.
  induction d as [|[k0 v0] d IH]; simpl; [discriminate|].
  destruct (String.eqb k k0) eqn:E; auto.
  apply String.eqb_eq in E. intros H. inversion H. subst. now left.
Qed.

Lemma in_set k v k' v' d :
  In (k', v') (PyDict.set k v d) -> (k' = k /\ v' = v) \/ In (k', v') d.
Proof.
  induction d as [|[k0 v0] d IH]; simpl.
  - intros [H|[]]. inversion H. auto.
  - destruct (String.eqb k k0) eqn:E; simpl.
    + apply String.eqb_eq in E. subst k0.
      intros [H|H]; [inversion H; auto | auto].
    + intros [H|H]; auto. destruct (IH H); auto.
Qed.

Lemma NoDup_keys_set k v d :
  NoDup (PyDict.keys d) -> NoDup (PyDict.keys (PyDict.set k v d)).
Proof.
  intros Hnd. rewrite keys_set. unfold PyDict.mem.
  destruct (PyDict.get k d) eqn:E; auto.
  apply get_None_not_key in E.
  apply NoDup_rev in Hnd. rewrite <- (rev_involutive (_ ++ _)).
  apply NoDup_rev. rewrite rev_app_distr. simpl. constructor; auto.
  now rewrite <- in_rev.
Qed.
End DictFacts.

(* ================================================================== *)
(** * Facts about the resolution loops *)
(* ================================================================== *)

Section ResolverFacts.
Variable timestamp : Z.

Lemma get_resolve_entry k d e :
  PyDict.get k (S3Handler.resolve_entry timestamp d e)
  = pick timestamp k (PyDict.get k d) e.
Proof.
  unfold S3Handler.resolve_entry, pick.
  destruct (LastModified e <=? timestamp); simpl; auto.
  destruct (String.eqb (Key e) k) eqn:E.
  - apply String.eqb_eq in E. subst k.
    destruct (PyDict.get (Key e) d) as [c|] eqn:G.
    + destruct (LastModified e >? LastModified c); auto using get_set_same.
    + apply get_set_same.
  - apply String.eqb_neq in E.
    destruct (PyDict.get (Key e) d) as [c|] eqn:G.
    + destruct (LastModified e >? LastModified c); auto using get_set_other.
    + now apply get_set_other.
Qed.

Lemma get_resolve_all k l : forall d,
  PyDict.get k (fold_left (S3Handler.resolve_entry timestamp) l d)
  = fold_left (pick timestamp k) l (PyDict.get k d).
Proof.
  induction l as [|e l IH]; intros d; simpl; auto.
  now rewrite IH, get_resolve_entry.
Qed.

Lemma script_resolve_entry d e :
  Script.resolve_entry timestamp d e
  = if is_file_entry e then S3Handler.resolve_entry timestamp d e else d.
Proof.
  unfold Script.resolve_entry, S3Handler.resolve_entry, is_file_entry.
  now destruct (PyStr.endswith_sep (Key e)).
Qed.

Lemma script_resolve_all l : forall d,
  fold_left (Script.resolve_entry timestamp) l d
  = fold_left (S3Handler.resolve_entry timestamp) (filter is_file_entry l) d.
Proof.
  induction l as [|e l IH]; intros d; simpl; auto.
  rewrite script_resolve_entry.
  destruct (is_file_entry e); simpl; apply IH.
Qed.

Lemma handler_pages_as_sequence pages : forall d,
  fold_left (S3Handler.resolve_page timestamp) pages d
  = fold_left (S3Handler.resolve_entry timestamp) (listing_sequence pages) d.
Proof.
  induction pages as [|p pages IH]; intros d; simpl; auto.
  rewrite fold_left_app, IH. reflexivity.
Qed.

Lemma well_keyed_resolve_entry d e :
  well_keyed d -> well_keyed (S3Handler.resolve_entry timestamp d e).
Proof.
  intros [Hnd Hk].
  assert (Hset : well_keyed (PyDict.set (Key e) e d)).
  { split; [now apply NoDup_keys_set|].
    intros k e' Hin. apply in_set in Hin.
    destruct Hin as [[-> ->]|Hin]; auto. }
  unfold S3Handler.resolve_entry.
  destruct (LastModified e <=? timestamp); [|now split].
  destruct (PyDict.get (Key e) d) as [c|]; auto.
  destruct (LastModified e >? LastModified c); auto. now split.
Qed.

Lemma well_keyed_resolve_all l : forall d,
  well_keyed d ->
  well_keyed (fold_left (S3Handler.resolve_entry timestamp) l d).
Proof.
  induction l as [|e l IH]; intros d Hd; simpl; auto.
  apply IH. now apply well_keyed_resolve_entry.
Qed.

(** ** The binding of one key, entry after entry *)

Lemma pick_cases k cur e :
  (pick timestamp k cur e = Some e
   /\ Key e = k /\ eligible timestamp e
   /\ forall c, cur = Some c -> LastModified c < LastModified e)
  \/ (pick timestamp k cur e = cur
      /\ (Key e = k -> eligible timestamp e ->
          exists c, cur = Some c /\ LastModified e <= LastModified c)).
Proof.
  unfold pick, eligible.
  destruct (LastModified e <=? timestamp) eqn:Hle; simpl.
  - apply Z.leb_le in Hle.
    destruct (String.eqb (Key e) k) eqn:E.
    + apply String.eqb_eq in E.
      destruct cur as [c|].
      * destruct (LastModified e >? LastModified c) eqn:Hgt.
        -- left. repeat split; auto. intros c' [= <-]. lia.
        -- right. split; auto. intros _ _. exists c. split; auto. lia.
      * left. repeat split; auto. discriminate.
    + right. split; auto. apply String.eqb_neq in E. tauto.
  - right. split; auto. apply Z.leb_gt in Hle. lia.
Qed.

Lemma winner_sound k l : forall cur e,
  fold_left (pick timestamp k) l cur = Some e ->
  cur = Some e \/ (In e l /\ Key e = k /\ eligible timestamp e).
Proof.
  induction l as [|x l IH]; intros cur e H; simpl in *; auto.
  destruct (IH _ _ H) as [Hc|(Hin & Hk & He)]; [|now right; auto].
  destruct (pick_cases k cur x) as [(Hp & Hk & He & _)|(Hp & _)].
  - rewrite Hp in Hc. inversion Hc; subst. right; auto.
  - left. congruence.
Qed.

Lemma winner_max k l : forall cur e,
  fold_left (pick timestamp k) l cur = Some e ->
  (forall c, cur = Some c -> LastModified c <= LastModified e)
  /\ (forall e', In e' l -> Key e' = k -> eligible timestamp e' ->
                 LastModified e' <= LastModified e).
Proof.
  induction l as [|x l IH]; intros cur e H; simpl in *.
  - split; [|tauto]. intros c Hc. rewrite Hc in H. inversion H. lia.
  - destruct (IH _ _ H) as [Hcur Hall].
    destruct (pick_cases k cur x) as [(Hp & Hk & He & Hlt)|(Hp & Hge)].
    + specialize (Hcur _ Hp). split.
      * intros c Hc. specialize (Hlt _ Hc). lia.
      * intros e' [<-|Hin]; auto.
    + rewrite Hp in Hcur. split; auto.
      intros e' [<-|Hin] Hk He; auto.
      destruct (Hge Hk He) as (c & Hc & Hle).
      specialize (Hcur _ Hc). lia.
Qed.

Lemma winner_keeps k l : forall cur,
  cur <> None -> fold_left (pick timestamp k) l cur <> None.
Proof.
  induction l as [|x l IH]; intros cur H; simpl; auto.
  apply IH.
  destruct (pick_cases k cur x) as [(Hp & _)|(Hp & _)]; congruence.
Qed.

Lemma winner_complete k l : forall cur e,
  In e l -> Key e = k -> eligible timestamp e ->
  fold_left (pick timestamp k) l cur <> None.
Proof.
  induction l as [|x l IH]; intros cur e Hin Hk He; [destruct Hin|].
  destruct Hin as [<-|Hin]; simpl.
  - apply winner_keeps.
    destruct (pick_cases k cur x) as [(Hp & _)|(Hp & Hge)];
      [congruence|].
    destruct (Hge Hk He) as (c & Hc & _). congruence.
  - eapply IH; eauto.
Qed.

(** Entries that are not later than the binding leave it alone. *)
Lemma winner_stays k l : forall c,
  (forall e', In e' l -> Key e' = k -> eligible timestamp e' ->
              LastModified e' <= LastModified c) ->
  fold_left (pick timestamp k) l (Some c) = Some c.
Proof.
  induction l as [|x l IH]; intros c H; simpl; auto.
  destruct (pick_cases k (Some c) x) as [(Hp & Hk & He & Hlt)|(Hp & _)].
  - specialize (Hlt c eq_refl).
    specialize (H x (or_introl eq_refl) Hk He). lia.
  - rewrite Hp. apply IH. intros. apply H; simpl; auto.
Qed.

(** The first of the latest candidates is the one bound. *)
Lemma winner_first k l1 e l2 : forall cur,
  Key e = k -> eligible timestamp e ->
  (forall c, cur = Some c -> LastModified c < LastModified e) ->
  (forall e', In e' l1 -> Key e' = k -> eligible timestamp e' ->
              LastModified e' < LastModified e) ->
  (forall e', In e' l2 -> Key e' = k -> eligible timestamp e' ->
              LastModified e' <= LastModified e) ->
  fold_left (pick timestamp k) (l1 ++ e :: l2) cur = Some e.
Proof.
  induction l1 as [|x l1 IH]; intros cur Hk He Hcur H1 H2; simpl.
  - destruct (pick_cases k cur e) as [(Hp & _)|(Hp & Hge)].
    + rewrite Hp. now apply winner_stays.
    + destruct (Hge Hk He) as (c & Hc & Hle).
      specialize (Hcur _ Hc). lia.
  - apply IH; auto.
    + intros c Hc.
      destruct (pick_cases k cur x) as [(Hp & Hkx & Hex & _)|(Hp & _)].
      * rewrite Hp in Hc. inversion Hc; subst. apply H1; simpl; auto.
      * apply Hcur. congruence.
    + intros. apply H1; simpl; auto.
Qed.

End ResolverFacts.

(* ================================================================== *)
(** * The resolution states, key by key *)
(* ================================================================== *)

Lemma script_all_entries pages :
  Script.all_entries pages = listing_sequence pages.
Proof.
  unfold Script.all_entries.
  enough (H : forall acc,
             fold_left (fun acc page =>
                          (acc ++ Versions page) ++ DeleteMarkers page)
               pages acc = acc ++ listing_sequence pages) by apply (H []).
  induction pages as [|p pages IH]; intros acc; simpl.
  - now rewrite app_nil_r.
  - rewrite IH. now rewrite <- !app_assoc.
Qed.

Lemma handler_state_get pages timestamp k :
  PyDict.get k (S3Handler.latest_valid_versions pages timestamp)
  = winner timestamp k (listing_sequence pages).
Proof.
  unfold S3Handler.latest_valid_versions, winner.
  now rewrite handler_pages_as_sequence, get_resolve_all.
Qed.

Lemma script_state_get pages timestamp k :
  PyDict.get k (Script.latest_versions_in_time pages timestamp)
  = winner timestamp k (filter is_file_entry (listing_sequence pages)).
Proof.
  unfold Script.latest_versions_in_time, winner.
  now rewrite script_all_entries, script_resolve_all, get_resolve_all.
Qed.

Lemma handler_state_well_keyed pages timestamp :
  well_keyed (S3Handler.latest_valid_versions pages timestamp).
Proof.
  unfold S3Handler.latest_valid_versions.
  rewrite handler_pages_as_sequence. apply well_keyed_resolve_all.
  split; [constructor | intros k e []].
Qed.

Lemma script_state_well_keyed pages timestamp :
  well_keyed (Script.latest_versions_in_time pages timestamp).
Proof.
  unfold Script.latest_versions_in_time.
  rewrite script_resolve_all. apply well_keyed_resolve_all.
  split; [constructor | intros k e []].
Qed.

Section Winner.
Variable timestamp : Z.
Variable k : string.

Lemma winner_spec l e :
  winner timestamp k l = Some e ->
  In e l /\ Key e = k /\ eligible timestamp e
  /\ forall e', In e' l -> Key e' = k -> eligible timestamp e' ->
                LastModified e' <= LastModified e.
Proof.
  intros H. destruct (winner_sound _ _ _ _ _ H) as [Hc|(Hin & Hk & He)];
    [discriminate|].
  repeat split; auto. now apply (winner_max _ _ _ _ _ H).
Qed.

Lemma winner_none l e :
  winner timestamp k l = None -> In e l -> Key e = k -> ~ eligible timestamp e.
Proof.
  intros H Hin Hk He.
  now apply (winner_complete timestamp k l None e Hin Hk He).
Qed.

Lemma winner_same_time l l' :
  (forall e, In e l <-> In e l') ->
  option_map LastModified (winner timestamp k l) = option_map LastModified (winner timestamp k l').
Proof.
  intros Hsame.
  destruct (winner timestamp k l) as [e|] eqn:H; destruct (winner timestamp k l') as [e'|] eqn:H';
    simpl; auto.
  - apply winner_spec in H. apply winner_spec in H'.
    destruct H as (Hin & Hk & He & Hmax).
    destruct H' as (Hin' & Hk' & He' & Hmax').
    f_equal. apply Z.le_antisymm.
    + apply Hmax'; auto. now apply Hsame.
    + apply Hmax; auto. now apply Hsame.
  - apply winner_spec in H. destruct H as (Hin & Hk & He & _).
    exfalso. apply (winner_none _ _ H' (proj1 (Hsame e) Hin) Hk He).
  - apply winner_spec in H'. destruct H' as (Hin & Hk & He & _).
    exfalso. apply (winner_none _ _ H (proj2 (Hsame e') Hin) Hk He).
Qed.

Lemma winner_same l l' :
  (forall e, In e l <-> In e l') -> tie_free timestamp l ->
  winner timestamp k l = winner timestamp k l'.
Proof.
  intros Hsame Hfree. pose proof (winner_same_time l l' Hsame) as Ht.
  destruct (winner timestamp k l) as [e|] eqn:H; destruct (winner timestamp k l') as [e'|] eqn:H';
    simpl in Ht; try discriminate; auto.
  apply winner_spec in H. apply winner_spec in H'.
  destruct H as (Hin & Hk & He & _). destruct H' as (Hin' & Hk' & He' & _).
  f_equal. apply Hfree; auto.
  - now apply Hsame.
  - congruence.
  - congruence.
Qed.
End Winner.

Lemma same_elements_filter (f : entry -> bool) l l' :
  (forall e, In e l <-> In e l') ->
  forall e, In e (filter f l) <-> In e (filter f l').
Proof.
  intros H e. rewrite !filter_In. now rewrite H.
Qed.

Lemma tie_free_filter (f : entry -> bool) timestamp l :
  tie_free timestamp l -> tie_free timestamp (filter f l).
Proof.
  intros H e1 e2 H1 H2. apply filter_In in H1, H2.
  apply H; tauto.
Qed.

Lemma Permutation_same_elements (l l' : list entry) :
  Permutation l l' -> forall e, In e l <-> In e l'.
Proof.
  intros H e. split; apply Permutation_in; auto. now apply Permutation_sym.
Qed.

(* ================================================================== *)
(** * Order of arrival (C1, C2) *)
(* ================================================================== *)

(** C1, as stated, fails: two versions of one key with the same
    [LastModified] are both candidates, and swapping them changes the
    entry the state keeps, in the handler and in the script. *)
Lemma C1_counterexample :
  Permutation (listing_sequence tied_pages)
    (listing_sequence tied_pages_swapped)
  /\ PyDict.get "a.txt" (S3Handler.latest_valid_versions tied_pages 20)
     = Some tied_first
  /\ PyDict.get "a.txt"
       (S3Handler.latest_valid_versions tied_pages_swapped 20)
     = Some tied_second
  /\ PyDict.get "a.txt" (Script.latest_versions_in_time tied_pages 20)
     = Some tied_first
  /\ PyDict.get "a.txt"
       (Script.latest_versions_in_time tied_pages_swapped 20)
     = Some tied_second
  /\ tied_first <> tied_second.
Proof.
  split; [apply perm_swap|].
  repeat split; try reflexivity. discriminate.
Qed.

(** C1, amended: whatever the order of arrival, the entry kept for a key
    is a candidate of that key ([LastModified <= timestamp]) and no
    candidate of the key is later; under any permutation of the input the
    same keys are kept with the same [LastModified]; and the kept entries
    themselves are the same when no two different candidates of one key
    share a [LastModified].  This holds for the state of
    [list_object_versions_at_timestamp] and for the state of
    [download_versioned] (which sees the entries whose key does not end
    in a separator). *)
Theorem C1_resolution_order_independent_without_ties :
  forall pages pages' timestamp,
    Permutation (listing_sequence pages) (listing_sequence pages') ->
    (forall k e,
        PyDict.get k (S3Handler.latest_valid_versions pages timestamp) = Some e
        \/ PyDict.get k (Script.latest_versions_in_time pages timestamp)
           = Some e ->
        In e (listing_sequence pages) /\ Key e = k
        /\ LastModified e <= timestamp
        /\ forall e', In e' (listing_sequence pages) -> Key e' = k ->
                      LastModified e' <= timestamp ->
                      LastModified e' <= LastModified e)
    /\ (forall k,
           option_map LastModified
             (PyDict.get k (S3Handler.latest_valid_versions pages timestamp))
           = option_map LastModified
               (PyDict.get k
                  (S3Handler.latest_valid_versions pages' timestamp))
           /\ option_map LastModified
                (PyDict.get k
                   (Script.latest_versions_in_time pages timestamp))
              = option_map LastModified
                  (PyDict.get k
                     (Script.latest_versions_in_time pages' timestamp)))
    /\ (tie_free timestamp (listing_sequence pages) ->
        forall k,
          PyDict.get k (S3Handler.latest_valid_versions pages timestamp)
          = PyDict.get k (S3Handler.latest_valid_versions pages' timestamp)
          /\ PyDict.get k (Script.latest_versions_in_time pages timestamp)
             = PyDict.get k (Script.latest_versions_in_time pages' timestamp)).
Proof.
  intros pages pages' timestamp Hperm.
  pose proof (Permutation_same_elements _ _ Hperm) as Hsame.
  split; [|split].
  - intros k e [H|H].
    + rewrite handler_state_get in H. now apply winner_spec in H.
    + rewrite script_state_get in H. apply winner_spec in H.
      destruct H as (Hin & Hk & He & Hmax).
      apply filter_In in Hin. destruct Hin as [Hin Hfile].
      repeat split; auto.
      intros e' Hin' Hk' He'. apply Hmax; auto.
      apply filter_In. split; auto.
      unfold is_file_entry in *. congruence.
  - intros k. rewrite !handler_state_get, !script_state_get. split.
    + now apply winner_same_time.
    + apply winner_same_time. now apply same_elements_filter.
  - intros Hfree k. rewrite !handler_state_get, !script_state_get. split.
    + now apply winner_same.
    + apply winner_same.
      * now apply same_elements_filter.
      * now apply tie_free_filter.
Qed.

(** C1 on a listing without ties, delivered in one page and then in two
    pages in the other order. *)
Lemma C1_resolution_order_independent_without_ties_witness :
  PyDict.get "a.txt"
    (S3Handler.latest_valid_versions
       [mkVersionPage [early_version; tied_first] []] 20)
  = PyDict.get "a.txt"
      (S3Handler.latest_valid_versions
         [mkVersionPage [tied_first] []; mkVersionPage [early_version] []]
         20)
  /\ PyDict.get "a.txt"
       (Script.latest_versions_in_time
          [mkVersionPage [early_version; tied_first] []] 20)
     = PyDict.get "a.txt"
         (Script.latest_versions_in_time
            [mkVersionPage [tied_first] []; mkVersionPage [early_version] []]
            20).
Proof.
  refine (proj2 (proj2 (C1_resolution_order_independent_without_ties
                   [mkVersionPage [early_version; tied_first] []]
                   [mkVersionPage [tied_first] [];
                    mkVersionPage [early_version] []]
                   20 _)) _ "a.txt").
  - simpl. apply perm_swap.
  - intros e1 e2 H1 H2 _ _ _ Ht. simpl in H1, H2.
    destruct H1 as [<-|[<-|[]]]; destruct H2 as [<-|[<-|[]]];
      try reflexivity; discriminate Ht.
Defined.

(** C2, as stated, fails: of two candidates of one key with the same
    [LastModified], the state keeps the one met first, not the later one
    (the replacement test is a strict [>]). *)
Lemma C2_counterexample :
  listing_sequence tied_pages = [tied_first; tied_second]
  /\ Key tied_first = Key tied_second
  /\ LastModified tied_first = LastModified tied_second
  /\ LastModified tied_second <= 20
  /\ PyDict.get "a.txt" (S3Handler.latest_valid_versions tied_pages 20)
     = Some tied_first
  /\ PyDict.get "a.txt" (Script.latest_versions_in_time tied_pages 20)
     = Some tied_first
  /\ PyDict.get "a.txt" (S3Handler.latest_valid_versions tied_pages 20)
     <> Some tied_second
  /\ PyDict.get "a.txt" (Script.latest_versions_in_time tied_pages 20)
     <> Some tied_second.
Proof.
  repeat split; try reflexivity; try discriminate.
Qed.

(** C2, amended: among the candidates of a key, the state keeps the
    first one in iteration order that carries the latest [LastModified]:
    an entry that is later than every candidate of its key before it and
    not earlier than any after it is the one kept, so of two tied latest
    candidates the earlier one in the input is retained. *)
Theorem C2_first_of_tied_entries_is_kept :
  forall pages timestamp l1 e l2,
    listing_sequence pages = l1 ++ e :: l2 ->
    LastModified e <= timestamp ->
    (forall e', In e' l1 -> Key e' = Key e -> LastModified e' <= timestamp ->
                LastModified e' < LastModified e) ->
    (forall e', In e' l2 -> Key e' = Key e -> LastModified e' <= timestamp ->
                LastModified e' <= LastModified e) ->
    PyDict.get (Key e) (S3Handler.latest_valid_versions pages timestamp)
    = Some e
    /\ (PyStr.endswith_sep (Key e) = false ->
        PyDict.get (Key e) (Script.latest_versions_in_time pages timestamp)
        = Some e).
Proof.
  intros pages timestamp l1 e l2 Hseq He H1 H2. split.
  - rewrite handler_state_get, Hseq. unfold winner.
    apply winner_first; auto. discriminate.
  - intros Hfile. rewrite script_state_get, Hseq. unfold winner.
    rewrite filter_app. simpl. unfold is_file_entry at 2. rewrite Hfile. simpl.
    apply winner_first; auto; try discriminate.
    + intros e' Hin. apply filter_In in Hin. now apply H1.
    + intros e' Hin. apply filter_In in Hin. now apply H2.
Qed.

(** C2 on an older version followed by two tied versions. *)
Lemma C2_first_of_tied_entries_is_kept_witness :
  PyDict.get "a.txt"
    (S3Handler.latest_valid_versions
       [mkVersionPage [early_version; tied_first; tied_second] []] 20)
  = Some tied_first
  /\ (PyStr.endswith_sep "a.txt" = false ->
      PyDict.get "a.txt"
        (Script.latest_versions_in_time
           [mkVersionPage [early_version; tied_first; tied_second] []] 20)
      = Some tied_first).
Proof.
  apply (C2_first_of_tied_entries_is_kept
           [mkVersionPage [early_version; tied_first; tied_second] []] 20
           [early_version] tied_first [tied_second]).
  - reflexivity.
  - simpl. lia.
  - intros e' [<-|[]] _ _. simpl. lia.
  - intros e' [<-|[]] _ _. simpl. lia.
Defined.

(* ================================================================== *)
(** * The selection loops *)
(* ================================================================== *)

Lemma sum_sizes_app l1 l2 : sum_sizes (l1 ++ l2) = sum_sizes l1 + sum_sizes l2.
Proof. induction l1; simpl; lia. Qed.

Lemma sum_obj_sizes_app l1 l2 :
  sum_obj_sizes (l1 ++ l2) = sum_obj_sizes l1 + sum_obj_sizes l2.
Proof. induction l1; simpl; lia. Qed.

Lemma select_entry_step objs total kv :
  S3Handler.select_entry (objs, total) kv
  = if handler_keeps kv
    then (objs ++ [snd kv], total + get_Size (snd kv) 0)
    else (objs, total).
Proof. reflexivity. Qed.

Lemma select_entry_fold items : forall objs total,
  fold_left S3Handler.select_entry items (objs, total)
  = (objs ++ map snd (filter handler_keeps items),
     total + sum_sizes (map snd (filter handler_keeps items))).
Proof.
  induction items as [|kv items IH]; intros objs total;
    cbn [fold_left filter].
  - simpl. now rewrite app_nil_r, Z.add_0_r.
  - rewrite select_entry_step.
    destruct (handler_keeps kv); rewrite IH; auto.
    rewrite <- app_assoc. cbn [map app sum_sizes fold_right].
    f_equal. fold (sum_sizes (map snd (filter handler_keeps items))). lia.
Qed.

Lemma select_entries_eq d :
  S3Handler.select_entries d
  = (map snd (filter handler_keeps d),
     sum_sizes (map snd (filter handler_keeps d))).
Proof.
  unfold S3Handler.select_entries, PyDict.items.
  now rewrite select_entry_fold.
Qed.

Lemma collect_object_step objs total obj :
  S3Handler.collect_object (objs, total) obj
  = if has_content obj
    then (objs ++ [obj], total + obj_Size obj)
    else (objs, total).
Proof. reflexivity. Qed.

Lemma collect_object_fold l : forall objs total,
  fold_left S3Handler.collect_object l (objs, total)
  = (objs ++ filter has_content l,
     total + sum_obj_sizes (filter has_content l)).
Proof.
  induction l as [|o l IH]; intros objs total; cbn [fold_left filter].
  - simpl. now rewrite app_nil_r, Z.add_0_r.
  - rewrite collect_object_step.
    destruct (has_content o); rewrite IH; auto.
    rewrite <- app_assoc. cbn [app sum_obj_sizes fold_right].
    f_equal. fold (sum_obj_sizes (filter has_content l)). lia.
Qed.

Lemma collect_page_fold pages : forall objs total,
  fold_left S3Handler.collect_page pages (objs, total)
  = (objs ++ filter has_content (all_contents pages),
     total + sum_obj_sizes (filter has_content (all_contents pages))).
Proof.
  induction pages as [|p pages IH]; intros objs total; simpl.
  - now rewrite app_nil_r, Z.add_0_r.
  - unfold S3Handler.collect_page at 2.
    destruct (Contents p) as [c|]; simpl.
    + rewrite collect_object_fold, IH, filter_app, sum_obj_sizes_app.
      rewrite <- app_assoc. f_equal. lia.
    + apply IH.
Qed.

Lemma list_objects_in_prefix_eq pages :
  S3Handler.list_objects_in_prefix pages
  = (filter has_content (all_contents pages),
     sum_obj_sizes (filter has_content (all_contents pages))).
Proof.
  unfold S3Handler.list_objects_in_prefix. now rewrite collect_page_fold.
Qed.

(** An entry of the handler's download list is the binding of its own
    key in the resolution state, and passed the test of line 104. *)
Lemma handler_listed pages timestamp e :
  In e (fst (S3Handler.list_object_versions_at_timestamp pages timestamp)) ->
  PyDict.get (Key e) (S3Handler.latest_valid_versions pages timestamp)
  = Some e
  /\ has_VersionId e = true /\ get_Size e 0 > 0.
Proof.
  unfold S3Handler.list_object_versions_at_timestamp.
  rewrite select_entries_eq. simpl. intros H.
  apply in_map_iff in H. destruct H as ([k e'] & He & Hin). simpl in He.
  subst e'. apply filter_In in Hin. destruct Hin as [Hin Hkeep].
  destruct (handler_state_well_keyed pages timestamp) as [Hnd Hkey].
  pose proof (Hkey _ _ Hin) as Hk. subst k.
  unfold handler_keeps in Hkeep. simpl in Hkeep.
  apply andb_true_iff in Hkeep. destruct Hkeep as [Hv Hs].
  repeat split; auto using in_get. now apply Z.gtb_gt.
Qed.

Lemma handler_lists pages timestamp k e :
  PyDict.get k (S3Handler.latest_valid_versions pages timestamp) = Some e ->
  has_VersionId e = true -> get_Size e 0 > 0 ->
  In e (fst (S3Handler.list_object_versions_at_timestamp pages timestamp)).
Proof.
  intros Hget Hv Hs.
  unfold S3Handler.list_object_versions_at_timestamp.
  rewrite select_entries_eq. simpl.
  apply in_map_iff. exists (k, e). split; auto.
  apply filter_In. split; [now apply get_in|].
  unfold handler_keeps. simpl. rewrite Hv. simpl. now apply Z.gtb_gt.
Qed.

(** ** [select_versions] *)

Lemma select_versions_sound items : forall td td',
  Script.select_versions items td = inr td' ->
  forall k v, PyDict.get k td' = Some v ->
    PyDict.get k td = Some v
    \/ exists e, In (k, e) items /\ Size e <> None /\ VersionId e = Some v.
Proof.
  induction items as [|[k0 e0] items IH]; intros td td' H k v Hget;
    simpl in H.
  - inversion H; subst. auto.
  - unfold has_Size in H. destruct (Size e0) as [s|] eqn:Hs.
    + destruct (VersionId e0) as [v0|] eqn:Hv; [|discriminate].
      destruct (IH _ _ H _ _ Hget) as [Hold|(e & Hin & Hse & Hve)].
      * destruct (String.eqb k0 k) eqn:E.
        -- apply String.eqb_eq in E. subst k0.
           rewrite get_set_same in Hold. inversion Hold; subst.
           right. exists e0. simpl. rewrite Hs. repeat split; auto.
           discriminate.
        -- apply String.eqb_neq in E.
           rewrite get_set_other in Hold; auto.
      * right. exists e. simpl. auto.
    + destruct (IH _ _ H _ _ Hget) as [Hold|(e & Hin & Hse & Hve)]; auto.
      right. exists e. simpl. auto.
Qed.

Lemma select_versions_frame items : forall td td' k,
  Script.select_versions items td = inr td' ->
  ~ In k (PyDict.keys items) ->
  PyDict.get k td' = PyDict.get k td.
Proof.
  induction items as [|[k0 e0] items IH]; intros td td' k H Hnot;
    simpl in H.
  - now inversion H.
  - simpl in Hnot.
    assert (k0 <> k) by tauto. assert (~ In k (PyDict.keys items)) by tauto.
    destruct (has_Size e0).
    + destruct (VersionId e0) as [v0|]; [|discriminate].
      rewrite (IH _ _ _ H); auto. now apply get_set_other.
    + now apply (IH _ _ _ H).
Qed.

Lemma select_versions_complete items : forall td td' k e v,
  Script.select_versions items td = inr td' ->
  NoDup (PyDict.keys items) -> In (k, e) items ->
  Size e <> None -> VersionId e = Some v ->
  PyDict.get k td' = Some v.
Proof.
  induction items as [|[k0 e0] items IH]; intros td td' k e v H Hnd Hin Hs Hv;
    [destruct Hin|].
  simpl in H, Hnd. inversion Hnd as [|? ? Hnotin Hnd']; subst.
  destruct Hin as [Heq|Hin].
  - inversion Heq; subst. unfold has_Size in H.
    destruct (Size e) as [s|]; [|congruence]. rewrite Hv in H.
    rewrite (select_versions_frame _ _ _ _ H Hnotin). apply get_set_same.
  - destruct (has_Size e0).
    + destruct (VersionId e0) as [v0|]; [|discriminate]. eauto.
    + eauto.
Qed.

Lemma select_versions_total items : forall td,
  (forall k e, In (k, e) items -> Size e <> None -> VersionId e <> None) ->
  exists td', Script.select_versions items td = inr td'.
Proof.
  induction items as [|[k0 e0] items IH]; intros td H; simpl.
  - now exists td.
  - unfold has_Size. destruct (Size e0) as [s|] eqn:Hs.
    + destruct (VersionId e0) as [v0|] eqn:Hv.
      * apply IH. intros. eapply H; simpl; eauto.
      * exfalso. apply (H k0 e0); simpl; auto. congruence.
    + apply IH. intros. eapply H; simpl; eauto.
Qed.

(** The script's download set binds a key exactly when the state binds
    it to an entry that has a ['Size']. *)
Lemma script_download_set pages timestamp td :
  Script.to_download pages timestamp = inr td ->
  forall k v,
    PyDict.get k td = Some v
    <-> exists e,
        PyDict.get k (Script.latest_versions_in_time pages timestamp) = Some e
        /\ Size e <> None /\ VersionId e = Some v.
Proof.
  unfold Script.to_download, PyDict.items. intros H k v.
  destruct (script_state_well_keyed pages timestamp) as [Hnd Hkey].
  split.
  - intros Hget.
    destruct (select_versions_sound _ _ _ H _ _ Hget)
      as [Hold|(e & Hin & Hs & Hv)]; [discriminate|].
    exists e. auto using in_get.
  - intros (e & Hget & Hs & Hv).
    eapply select_versions_complete; eauto. now apply get_in.
Qed.

(* ================================================================== *)
(** * Delete markers and empty objects (C4, C5) *)
(* ================================================================== *)

(** A key whose binding has no ['Size'] is in neither download set. *)
Lemma unsized_binding_not_downloaded pages timestamp :
  (forall k d,
      PyDict.get k (S3Handler.latest_valid_versions pages timestamp) = Some d ->
      Size d = None ->
      forall e,
        In e (fst (S3Handler.list_object_versions_at_timestamp pages
                     timestamp)) -> Key e <> k)
  /\ (forall k d td,
         PyDict.get k (Script.latest_versions_in_time pages timestamp)
         = Some d ->
         Size d = None ->
         Script.to_download pages timestamp = inr td ->
         PyDict.get k td = None).
Proof.
  split.
  - intros k d Hget Hs e Hin Hk.
    apply handler_listed in Hin. destruct Hin as (Hget' & _ & Hpos).
    rewrite Hk, Hget in Hget'. inversion Hget'; subst.
    unfold get_Size in Hpos. rewrite Hs in Hpos. lia.
  - intros k d td Hget Hs Htd.
    destruct (PyDict.get k td) as [v|] eqn:G; auto.
    apply (script_download_set _ _ _ Htd) in G.
    destruct G as (e & Hget' & Hs' & _). congruence.
Qed.

(** When every candidate of a key that is not older than the delete
    marker [d] is a delete marker too, the entry bound to the key has no
    ['Size']. *)
Lemma latest_delete_marker_wins timestamp l d e :
  In d l -> LastModified d <= timestamp ->
  (forall e', In e' l -> Key e' = Key d -> LastModified e' <= timestamp ->
              LastModified e' < LastModified d \/ Size e' = None) ->
  winner timestamp (Key d) l = Some e -> Size e = None.
Proof.
  intros Hin He Hlatest Hwin. apply winner_spec in Hwin.
  destruct Hwin as (Hine & Hk & Hee & Hmax).
  specialize (Hmax d Hin eq_refl He).
  destruct (Hlatest e Hine Hk Hee) as [Hlt|Hnone]; [lia | exact Hnone].
Qed.

(** C4: a key whose winning entry at the target time is a delete marker
    (an entry without ['Size']) is absent from the download list of
    [list_object_versions_at_timestamp] and from the [to_download] dict
    of [download_versioned]; this is the case whenever the latest
    candidate of the key is a delete marker (every candidate of the key
    is older than it or is a delete marker too), whatever older versions
    of the key the listing holds. *)
Theorem C4_delete_marker_winner_excluded :
  forall pages timestamp,
    (forall k d,
        PyDict.get k (S3Handler.latest_valid_versions pages timestamp)
        = Some d ->
        Size d = None ->
        forall e,
          In e (fst (S3Handler.list_object_versions_at_timestamp pages
                       timestamp)) -> Key e <> k)
    /\ (forall k d td,
           PyDict.get k (Script.latest_versions_in_time pages timestamp)
           = Some d ->
           Size d = None ->
           Script.to_download pages timestamp = inr td ->
           PyDict.get k td = None)
    /\ (forall d,
           In d (listing_sequence pages) ->
           Size d = None ->
           LastModified d <= timestamp ->
           (forall e', In e' (listing_sequence pages) -> Key e' = Key d ->
                       LastModified e' <= timestamp ->
                       LastModified e' < LastModified d \/ Size e' = None) ->
           (forall e,
               In e (fst (S3Handler.list_object_versions_at_timestamp pages
                            timestamp)) -> Key e <> Key d)
           /\ (forall td,
                  Script.to_download pages timestamp = inr td ->
                  PyDict.get (Key d) td = None)).
Proof.
  intros pages timestamp.
  destruct (unsized_binding_not_downloaded pages timestamp)
    as [Hhandler Hscript].
  split; [exact Hhandler|]. split; [exact Hscript|].
  intros d Hin Hs He Hlatest. split.
  - intros e Hlisted Hk.
    destruct (handler_listed _ _ _ Hlisted) as (Hget & _ & Hpos).
    rewrite Hk, handler_state_get in Hget.
    apply (latest_delete_marker_wins _ _ _ _ Hin He Hlatest) in Hget.
    unfold get_Size in Hpos. rewrite Hget in Hpos. lia.
  - intros td Htd.
    destruct (PyDict.get (Key d)
                (Script.latest_versions_in_time pages timestamp))
      as [e|] eqn:Hget.
    + apply (Hscript _ e td Hget); auto.
      rewrite script_state_get in Hget.
      assert (Hfile : is_file_entry d = true).
      { apply winner_spec in Hget. destruct Hget as (Hine & Hk & _).
        apply filter_In in Hine. destruct Hine as [_ Hfile].
        unfold is_file_entry in *. congruence. }
      apply (latest_delete_marker_wins timestamp
               (filter is_file_entry (listing_sequence pages)) d e); auto.
      * apply filter_In. auto.
      * intros e' Hin'. apply filter_In in Hin'. now apply Hlatest.
    + destruct (PyDict.get (Key d) td) as [v|] eqn:G; auto.
      apply (script_download_set _ _ _ Htd) in G.
      destruct G as (e & Hget' & _). congruence.
Qed.

(** C4 on a version of [doc.txt] followed by its delete marker. *)
Lemma C4_delete_marker_winner_excluded_witness :
  (forall e,
      In e (fst (S3Handler.list_object_versions_at_timestamp
                   [mkVersionPage [old_version] [delete_marker]] 20)) ->
      Key e <> "doc.txt")
  /\ (forall td,
         Script.to_download [mkVersionPage [old_version] [delete_marker]] 20
         = inr td ->
         PyDict.get "doc.txt" td = None).
Proof.
  apply (proj2 (proj2 (C4_delete_marker_winner_excluded
                         [mkVersionPage [old_version] [delete_marker]] 20))
           delete_marker).
  - simpl. auto.
  - reflexivity.
  - simpl. lia.
  - intros e' [<-|[<-|[]]] _ _; simpl; [left; lia | right; reflexivity].
Defined.

(** C5, as stated, fails for [download_versioned]: its filter is
    ['Size' in entry], so a version of size 0 that wins its key is put
    into [to_download]. *)
Lemma C5_counterexample :
  PyDict.get "empty.txt"
    (Script.latest_versions_in_time [mkVersionPage [empty_version] []] 20)
  = Some empty_version
  /\ Size empty_version = Some 0
  /\ Script.to_download [mkVersionPage [empty_version] []] 20
     = inr [("empty.txt", "v1")].
Proof. repeat split; reflexivity. Qed.

(** C5, amended: [list_object_versions_at_timestamp] keeps only winning
    entries that have a ['VersionId'] and a ['Size'] strictly greater
    than 0, so a key whose winning entry has size 0 or no size is absent
    from its download list; [download_versioned] keeps exactly the
    winning entries that have a ['Size'] (the delete markers are the
    entries without one), whatever that size is. *)
Theorem C5_size_filter_of_each_client :
  forall pages timestamp,
    (forall e,
        In e (fst (S3Handler.list_object_versions_at_timestamp pages
                     timestamp)) ->
        PyDict.get (Key e) (S3Handler.latest_valid_versions pages timestamp)
        = Some e
        /\ VersionId e <> None
        /\ exists s, Size e = Some s /\ 0 < s)
    /\ (forall k e,
           PyDict.get k (S3Handler.latest_valid_versions pages timestamp)
           = Some e ->
           Size e = Some 0 \/ Size e = None ->
           forall e',
             In e' (fst (S3Handler.list_object_versions_at_timestamp pages
                           timestamp)) -> Key e' <> k)
    /\ (forall td,
           Script.to_download pages timestamp = inr td ->
           forall k v,
             PyDict.get k td = Some v
             <-> exists e,
                 PyDict.get k (Script.latest_versions_in_time pages timestamp)
                 = Some e
                 /\ Size e <> None /\ VersionId e = Some v).
Proof.
  intros pages timestamp. split; [|split].
  - intros e Hin. apply handler_listed in Hin.
    destruct Hin as (Hget & Hv & Hpos). split; auto. split.
    + unfold has_VersionId in Hv. destruct (VersionId e); discriminate.
    + unfold get_Size in Hpos. destruct (Size e) as [s|]; [|lia].
      exists s. split; auto. lia.
  - intros k e Hget Hs e' Hin Hk. apply handler_listed in Hin.
    destruct Hin as (Hget' & _ & Hpos).
    rewrite Hk, Hget in Hget'. inversion Hget'; subst.
    unfold get_Size in Hpos. destruct Hs as [Hs|Hs]; rewrite Hs in Hpos; lia.
  - intros td Htd. now apply script_download_set.
Qed.

(** C5 on a version with content, for the handler, and on an empty
    version, for the script. *)
Lemma C5_size_filter_of_each_client_witness :
  (PyDict.get "doc.txt"
     (S3Handler.latest_valid_versions [mkVersionPage [old_version] []] 20)
   = Some old_version
   /\ VersionId old_version <> None
   /\ exists s, Size old_version = Some s /\ 0 < s)
  /\ (PyDict.get "empty.txt" [("empty.txt", "v1")] = Some "v1"
      <-> exists e,
          PyDict.get "empty.txt"
            (Script.latest_versions_in_time
               [mkVersionPage [empty_version] []] 20) = Some e
          /\ Size e <> None /\ VersionId e = Some "v1").
Proof.
  split.
  - apply (proj1 (C5_size_filter_of_each_client
                    [mkVersionPage [old_version] []] 20) old_version).
    simpl. auto.
  - apply (proj2 (proj2 (C5_size_filter_of_each_client
                           [mkVersionPage [empty_version] []] 20))
             [("empty.txt", "v1")] eq_refl "empty.txt" "v1").
Defined.

(* ================================================================== *)
(** * Directory placeholders (C7) *)
(* ================================================================== *)

(** C7, as stated, fails for [s3_handler.py]: its listings drop records
    by size, not by key, so a record whose key ends in a separator and
    whose size is positive reaches the resolution state and the download
    lists. *)
Lemma C7_counterexample :
  PyStr.endswith_sep "photos/" = true
  /\ S3Handler.list_objects_in_prefix
       [mkObjectPage (Some [placeholder_with_content])]
     = ([placeholder_with_content], 5)
  /\ S3Handler.latest_valid_versions
       [mkVersionPage [versioned_placeholder] []] 20
     = [("photos/", versioned_placeholder)]
  /\ S3Handler.list_object_versions_at_timestamp
       [mkVersionPage [versioned_placeholder] []] 20
     = ([versioned_placeholder], 5).
Proof. repeat split; reflexivity. Qed.

(** C7, amended: the script drops every record whose key ends in a
    separator: no such key is in [all_keys] of [download_dir], in the
    resolution state of [download_versioned] or in its [to_download];
    [s3_handler.py] drops the records whose size is not positive
    instead, so its two download lists hold a record exactly when the
    listing (or the resolution state) holds it with a positive size,
    whatever its key ends in. *)
Theorem C7_placeholder_filter_of_each_client :
  forall pages vpages timestamp,
    (forall k, In k (Script.all_keys pages) -> PyStr.endswith_sep k = false)
    /\ (forall k e,
           PyDict.get k (Script.latest_versions_in_time vpages timestamp)
           = Some e ->
           Key e = k /\ PyStr.endswith_sep k = false)
    /\ (forall td k v,
           Script.to_download vpages timestamp = inr td ->
           PyDict.get k td = Some v -> PyStr.endswith_sep k = false)
    /\ (forall o,
           In o (fst (S3Handler.list_objects_in_prefix pages))
           <-> In o (all_contents pages) /\ 0 < obj_Size o)
    /\ (forall e,
           In e (fst (S3Handler.list_object_versions_at_timestamp vpages
                        timestamp))
           <-> PyDict.get (Key e)
                 (S3Handler.latest_valid_versions vpages timestamp) = Some e
               /\ VersionId e <> None /\ 0 < get_Size e 0).
Proof.
  intros pages vpages timestamp.
  assert (Hstate : forall k e,
             PyDict.get k (Script.latest_versions_in_time vpages timestamp)
             = Some e -> Key e = k /\ PyStr.endswith_sep k = false).
  { intros k e Hget. rewrite script_state_get in Hget.
    apply winner_spec in Hget. destruct Hget as (Hin & Hk & _).
    apply filter_In in Hin. destruct Hin as [_ Hfile].
    unfold is_file_entry in Hfile. apply negb_true_iff in Hfile.
    split; congruence. }
  split; [|split; [|split; [|split]]]; auto.
  - intros k Hin. unfold Script.all_keys in Hin.
    apply in_flat_map in Hin. destruct Hin as (p & _ & Hin).
    destruct (Contents p) as [c|]; [|destruct Hin].
    apply in_map_iff in Hin. destruct Hin as (o & <- & Hin).
    apply filter_In in Hin. destruct Hin as [_ Hfile].
    now apply negb_true_iff in Hfile.
  - intros td k v Htd Hget.
    apply (script_download_set _ _ _ Htd) in Hget.
    destruct Hget as (e & Hget & _). now apply Hstate in Hget.
  - intros o. rewrite list_objects_in_prefix_eq. simpl.
    rewrite filter_In. unfold has_content. rewrite Z.gtb_gt. intuition lia.
  - intros e. split.
    + intros Hin. apply handler_listed in Hin.
      destruct Hin as (Hget & Hv & Hpos). repeat split; auto; [|lia].
      unfold has_VersionId in Hv. destruct (VersionId e); discriminate.
    + intros (Hget & Hv & Hpos). eapply handler_lists; eauto; [|lia].
      unfold has_VersionId. destruct (VersionId e); congruence.
Qed.

(** C7 on a directory placeholder and a file below it. *)
Lemma C7_placeholder_filter_of_each_client_witness :
  PyStr.endswith_sep "photos/cat.jpg" = false
  /\ (Key photo_version = "photos/cat.jpg"
      /\ PyStr.endswith_sep "photos/cat.jpg" = false).
Proof.
  split.
  - apply (proj1 (C7_placeholder_filter_of_each_client
                    [mkObjectPage (Some [mkObject "photos/" 0;
                                         mkObject "photos/cat.jpg" 900])]
                    [mkVersionPage [placeholder_version; photo_version] []]
                    20) "photos/cat.jpg").
    simpl. auto.
  - apply (proj1 (proj2 (C7_placeholder_filter_of_each_client
                           [mkObjectPage (Some [mkObject "photos/" 0;
                                                mkObject "photos/cat.jpg" 900])]
                           [mkVersionPage [placeholder_version; photo_version]
                              []]
                           20)) "photos/cat.jpg" photo_version).
    reflexivity.
Defined.

(* ================================================================== *)
(** * Total sizes (C10) *)
(* ================================================================== *)

(** C10: the total size each listing function of [s3_handler.py]
    returns is the sum of the ['Size'] values of the objects in the list
    it returns with it (each of which has a ['Size']). *)
Theorem C10_total_size_is_sum_of_listed_sizes :
  forall pages vpages timestamp,
    snd (S3Handler.list_objects_in_prefix pages)
    = sum_obj_sizes (fst (S3Handler.list_objects_in_prefix pages))
    /\ snd (S3Handler.list_object_versions_at_timestamp vpages timestamp)
       = sum_sizes
           (fst (S3Handler.list_object_versions_at_timestamp vpages
                   timestamp))
    /\ Forall (fun e => exists s, Size e = Some s /\ get_Size e 0 = s)
         (fst (S3Handler.list_object_versions_at_timestamp vpages timestamp)).
Proof.
  intros pages vpages timestamp. split; [|split].
  - now rewrite list_objects_in_prefix_eq.
  - unfold S3Handler.list_object_versions_at_timestamp.
    now rewrite select_entries_eq.
  - apply Forall_forall. intros e Hin. apply handler_listed in Hin.
    destruct Hin as (_ & _ & Hpos). unfold get_Size in *.
    destruct (Size e) as [s|]; [eauto | lia].
Qed.

(* ================================================================== *)
(** * The end-of-day target (C3) *)
(* ================================================================== *)

Section TargetFacts.
Import Datetime.

Lemma valid_time_bounds h mi s us :
  valid_time h mi s us = true ->
  0 <= h < 24 /\ 0 <= mi < 60 /\ 0 <= s < 60 /\ 0 <= us < 1000000.
Proof.
  unfold valid_time. rewrite !andb_true_iff.
  rewrite !Z.leb_le, !Z.ltb_lt. tauto.
Qed.

Lemma target_is_last_instant_of_day y m d :
  target_timestamp y m d = ymd2ord y m d * MICROS_PER_DAY + 86399999999.
Proof. reflexivity. Qed.

Lemma instant_within_day dt :
  valid_time (hour dt) (minute dt) (second dt) (microsecond dt) = true ->
  toordinal dt * MICROS_PER_DAY <= instant dt
  < (toordinal dt + 1) * MICROS_PER_DAY.
Proof.
  intros H. apply valid_time_bounds in H.
  unfold instant, time_of_day, MICROS_PER_DAY. lia.
Qed.

Lemma late_entry_skipped state e timestamp :
  timestamp < LastModified e ->
  S3Handler.resolve_entry timestamp state e = state
  /\ Script.resolve_entry timestamp state e = state.
Proof.
  intros H. rewrite script_resolve_entry.
  unfold S3Handler.resolve_entry.
  apply Z.leb_gt in H. rewrite H. now destruct (is_file_entry e).
Qed.
End TargetFacts.

(** Whatever the listing, an entry that is not later than the target
    gets its key bound, to itself or to a candidate that is not older;
    in the script when its key does not end in a separator. *)
Lemma candidate_is_bound pages timestamp e :
  In e (listing_sequence pages) ->
  LastModified e <= timestamp ->
  (exists e',
      PyDict.get (Key e) (S3Handler.latest_valid_versions pages timestamp)
      = Some e'
      /\ LastModified e <= LastModified e' <= timestamp)
  /\ (PyStr.endswith_sep (Key e) = false ->
      exists e',
        PyDict.get (Key e) (Script.latest_versions_in_time pages timestamp)
        = Some e'
        /\ LastModified e <= LastModified e' <= timestamp).
Proof.
  intros Hin He. split.
  - rewrite handler_state_get.
    destruct (winner timestamp (Key e) (listing_sequence pages))
      as [e'|] eqn:W.
    + exists e'. split; [reflexivity|].
      apply winner_spec in W. destruct W as (_ & _ & He' & Hmax).
      split; [now apply Hmax | exact He'].
    + exfalso. now apply (winner_none _ _ _ e W Hin).
  - intros Hfile. rewrite script_state_get.
    assert (Hin' : In e (filter is_file_entry (listing_sequence pages))).
    { apply filter_In. split; auto. unfold is_file_entry. now rewrite Hfile. }
    destruct (winner timestamp (Key e)
                (filter is_file_entry (listing_sequence pages)))
      as [e'|] eqn:W.
    + exists e'. split; [reflexivity|].
      apply winner_spec in W. destruct W as (_ & _ & He' & Hmax).
      split; [now apply Hmax | exact He'].
    + exfalso. now apply (winner_none _ _ _ e W Hin').
Qed.

(** Whatever the listing, no state binds an entry later than the
    target. *)
Lemma bound_is_not_later pages timestamp k e :
  PyDict.get k (S3Handler.latest_valid_versions pages timestamp) = Some e
  \/ PyDict.get k (Script.latest_versions_in_time pages timestamp) = Some e ->
  In e (listing_sequence pages) /\ LastModified e <= timestamp.
Proof.
  intros [H|H].
  - rewrite handler_state_get in H. apply winner_spec in H.
    destruct H as (Hin & _ & He & _). auto.
  - rewrite script_state_get in H. apply winner_spec in H.
    destruct H as (Hin & _ & He & _).
    apply filter_In in Hin. split; [apply Hin | exact He].
Qed.

(** C3: the target of a calendar date is the instant 23:59:59.999999 of
    that date.  An entry that is not later than the target, so also one
    modified exactly at the target, passes the test of the resolution
    loop: it is bound on an empty state, and after the loop over any
    listing that holds it its key is bound to a candidate that is not
    older.  An entry one microsecond later, or at any later time, leaves
    every state unchanged, and no state of any listing binds such an
    entry.  Every instant of the date is at or before the target and
    every instant of a later day is after it, so the resolution over any
    listing keeps a candidate for every key modified during the date and
    binds no entry modified on a later day. *)
Theorem C3_end_of_day_boundary :
  forall y m d,
    let target := Datetime.target_timestamp y m d in
    target = Datetime.instant (Datetime.mkDatetime y m d 23 59 59 999999)
    /\ (forall e,
           LastModified e <= target ->
           S3Handler.resolve_entry target PyDict.empty e = [(Key e, e)]
           /\ (PyStr.endswith_sep (Key e) = false ->
               Script.resolve_entry target PyDict.empty e = [(Key e, e)]))
    /\ (forall e state,
           LastModified e = target + 1 \/ target < LastModified e ->
           S3Handler.resolve_entry target state e = state
           /\ Script.resolve_entry target state e = state)
    /\ (forall h mi s us,
           Datetime.valid_time h mi s us = true ->
           Datetime.instant (Datetime.mkDatetime y m d h mi s us) <= target)
    /\ (forall dt,
           Datetime.valid_time (Datetime.hour dt) (Datetime.minute dt)
             (Datetime.second dt) (Datetime.microsecond dt) = true ->
           Datetime.ymd2ord y m d < Datetime.toordinal dt ->
           target < Datetime.instant dt)
    /\ target + 1
       = (Datetime.ymd2ord y m d + 1) * Datetime.MICROS_PER_DAY
    /\ (forall pages e,
           In e (listing_sequence pages) ->
           LastModified e <= target ->
           (exists e',
               PyDict.get (Key e)
                 (S3Handler.latest_valid_versions pages target) = Some e'
               /\ LastModified e <= LastModified e' <= target)
           /\ (PyStr.endswith_sep (Key e) = false ->
               exists e',
                 PyDict.get (Key e)
                   (Script.latest_versions_in_time pages target) = Some e'
                 /\ LastModified e <= LastModified e' <= target))
    /\ (forall pages e h mi s us,
           In e (listing_sequence pages) ->
           Datetime.valid_time h mi s us = true ->
           LastModified e
           = Datetime.instant (Datetime.mkDatetime y m d h mi s us) ->
           (exists e',
               PyDict.get (Key e)
                 (S3Handler.latest_valid_versions pages target) = Some e'
               /\ LastModified e <= LastModified e' <= target)
           /\ (PyStr.endswith_sep (Key e) = false ->
               exists e',
                 PyDict.get (Key e)
                   (Script.latest_versions_in_time pages target) = Some e'
                 /\ LastModified e <= LastModified e' <= target))
    /\ (forall pages k e,
           PyDict.get k (S3Handler.latest_valid_versions pages target)
           = Some e
           \/ PyDict.get k (Script.latest_versions_in_time pages target)
              = Some e ->
           LastModified e <= target
           /\ forall dt,
               Datetime.valid_time (Datetime.hour dt) (Datetime.minute dt)
                 (Datetime.second dt) (Datetime.microsecond dt) = true ->
               Datetime.ymd2ord y m d < Datetime.toordinal dt ->
               LastModified e <> Datetime.instant dt).
Proof.
  intros y m d target.
  pose proof (target_is_last_instant_of_day y m d) as Ht.
  fold target in Ht.
  assert (Hday : forall h mi s us,
             Datetime.valid_time h mi s us = true ->
             Datetime.instant (Datetime.mkDatetime y m d h mi s us)
             <= target).
  { intros h mi s us Hv.
    pose proof (instant_within_day (Datetime.mkDatetime y m d h mi s us) Hv)
      as Hin.
    unfold Datetime.toordinal in Hin. simpl in Hin.
    rewrite Ht. unfold Datetime.MICROS_PER_DAY in *. lia. }
  assert (Hlater : forall dt,
             Datetime.valid_time (Datetime.hour dt) (Datetime.minute dt)
               (Datetime.second dt) (Datetime.microsecond dt) = true ->
             Datetime.ymd2ord y m d < Datetime.toordinal dt ->
             target < Datetime.instant dt).
  { intros dt Hv Hord. pose proof (instant_within_day dt Hv) as Hin.
    rewrite Ht. unfold Datetime.MICROS_PER_DAY in *. lia. }
  split; [reflexivity|].
  split; [|split; [|split; [|split; [|split; [|split; [|split]]]]]].
  - intros e He.
    assert (Hin : S3Handler.resolve_entry target PyDict.empty e
                  = [(Key e, e)]).
    { unfold S3Handler.resolve_entry.
      apply Z.leb_le in He. rewrite He. reflexivity. }
    split; auto. intros Hfile. rewrite script_resolve_entry.
    unfold is_file_entry. now rewrite Hfile.
  - intros e state He. apply late_entry_skipped. lia.
  - exact Hday.
  - exact Hlater.
  - rewrite Ht. unfold Datetime.MICROS_PER_DAY. lia.
  - intros pages e Hin He. now apply candidate_is_bound.
  - intros pages e h mi s us Hin Hv He.
    apply candidate_is_bound; auto. rewrite He. now apply Hday.
  - intros pages k e Hget.
    destruct (bound_is_not_later pages target k e Hget) as [_ He].
    split; [exact He|].
    intros dt Hv Hord Heq. specialize (Hlater dt Hv Hord). lia.
Qed.

(** C3 on the two entries of the specification's example, and on a
    listing with a version written at noon of the date and one written
    on the next day. *)
Lemma C3_end_of_day_boundary_witness :
  (S3Handler.resolve_entry (Datetime.target_timestamp 2024 6 1) PyDict.empty
     last_instant_entry = [("a.txt", last_instant_entry)]
   /\ (PyStr.endswith_sep "a.txt" = false ->
       Script.resolve_entry (Datetime.target_timestamp 2024 6 1) PyDict.empty
         last_instant_entry = [("a.txt", last_instant_entry)]))
  /\ (S3Handler.resolve_entry (Datetime.target_timestamp 2024 6 1)
        [("a.txt", last_instant_entry)] next_midnight_entry
      = [("a.txt", last_instant_entry)]
      /\ Script.resolve_entry (Datetime.target_timestamp 2024 6 1)
           [("a.txt", last_instant_entry)] next_midnight_entry
         = [("a.txt", last_instant_entry)])
  /\ ((exists e',
          PyDict.get (Key noon_entry)
            (S3Handler.latest_valid_versions noon_pages
               (Datetime.target_timestamp 2024 6 1)) = Some e'
          /\ LastModified noon_entry <= LastModified e'
             <= Datetime.target_timestamp 2024 6 1)
      /\ (PyStr.endswith_sep (Key noon_entry) = false ->
          exists e',
            PyDict.get (Key noon_entry)
              (Script.latest_versions_in_time noon_pages
                 (Datetime.target_timestamp 2024 6 1)) = Some e'
            /\ LastModified noon_entry <= LastModified e'
               <= Datetime.target_timestamp 2024 6 1)).
Proof.
  destruct (C3_end_of_day_boundary 2024 6 1)
    as (_ & Hin & Hout & _ & _ & _ & _ & Hday & _).
  split; [|split].
  - apply (Hin last_instant_entry). vm_compute. discriminate.
  - apply (Hout next_midnight_entry [("a.txt", last_instant_entry)]).
    left. reflexivity.
  - apply (Hday noon_pages noon_entry 12 0 0 0).
    + left. reflexivity.
    + reflexivity.
    + reflexivity.
Defined.

(* ================================================================== *)
(** * Facts about [os.path] *)
(* ================================================================== *)

Section PathFacts.
Import PyStr PosixPath.

Lemma string_app_assoc (a b c : string) :
  ((a ++ b) ++ c = a ++ (b ++ c))%string.
Proof. induction a; simpl; congruence. Qed.

Lemma sep_eqb_refl : Ascii.eqb sep sep = true.
Proof. reflexivity. Qed.

Lemma plain_is_kept c : plain_component c = true -> kept_component c = true.
Proof.
  unfold plain_component, kept_component, truthy.
  rewrite !andb_true_iff. tauto.
Qed.

Lemma split_sep_sep_free s : sep_free s = true -> split_sep s = [s].
Proof.
  induction s as [|c r IH]; simpl; auto.
  rewrite andb_true_iff, negb_true_iff. intros [Hc Hr].
  now rewrite Hc, IH.
Qed.

Lemma split_sep_app a b :
  sep_free a = true ->
  split_sep (a ++ String sep b) = a :: split_sep b.
Proof.
  induction a as [|c r IH]; simpl.
  - reflexivity.
  - rewrite andb_true_iff, negb_true_iff. intros [Hc Hr].
    now rewrite Hc, IH.
Qed.

Lemma split_sep_all_sep_free s : Forall (fun c => sep_free c = true) (split_sep s).
Proof.
  induction s as [|c r IH]; simpl.
  - now repeat constructor.
  - destruct (Ascii.eqb c sep) eqn:E.
    + now constructor.
    + destruct (split_sep r) as [|h t]; inversion IH; subst;
        constructor; auto; simpl; now rewrite E.
Qed.

Lemma concat_cons x y l :
  String.concat "/" (x :: y :: l)
  = (x ++ String sep (String.concat "/" (y :: l)))%string.
Proof. reflexivity. Qed.

Lemma concat_snoc comps p :
  comps <> [] ->
  String.concat "/" (comps ++ [p])
  = (String.concat "/" comps ++ String sep p)%string.
Proof.
  induction comps as [|x comps IH]; [congruence|]. intros _.
  destruct comps as [|y comps]; [reflexivity|].
  change ((x :: y :: comps) ++ [p]) with (x :: y :: (comps ++ [p])).
  rewrite !concat_cons.
  change (y :: comps ++ [p]) with ((y :: comps) ++ [p]).
  rewrite IH by discriminate.
  rewrite string_app_assoc. reflexivity.
Qed.

Lemma split_sep_concat comps :
  comps <> [] -> Forall (fun c => sep_free c = true) comps ->
  split_sep (String.concat "/" comps) = comps.
Proof.
  induction comps as [|x comps IH]; [congruence|]. intros _ H.
  inversion H as [|? ? Hx Hrest]; subst.
  destruct comps as [|y comps].
  - simpl. now apply split_sep_sep_free.
  - rewrite concat_cons, split_sep_app by assumption.
    f_equal. apply IH; auto. discriminate.
Qed.

Lemma split_sep_concat_snoc comps p :
  Forall (fun c => sep_free c = true) comps ->
  split_sep (String.concat "/" (comps ++ [p])) = comps ++ split_sep p.
Proof.
  intros H. destruct comps as [|x comps]; [reflexivity|].
  rewrite concat_snoc by discriminate.
  revert H. generalize (x :: comps) (@nil_cons _ x comps).
  intros l Hne H. clear x comps.
  induction l as [|x l IH]; [congruence|].
  inversion H as [|? ? Hx Hrest]; subst.
  destruct l as [|y l].
  - simpl. now rewrite split_sep_app.
  - rewrite concat_cons. rewrite string_app_assoc.
    change (String sep (String.concat "/" (y :: l)) ++ String sep p)%string
      with (String sep (String.concat "/" (y :: l) ++ String sep p)).
    rewrite split_sep_app by assumption.
    simpl. f_equal. apply IH; auto. discriminate.
Qed.

(** ** The loop of [normpath] *)

Lemma normpath_step_plain n acc c :
  plain_component c = true -> normpath_step n acc c = acc ++ [c].
Proof.
  unfold plain_component, normpath_step.
  rewrite !andb_true_iff, !negb_true_iff. intros [[[H1 H2] H3] _].
  now rewrite H1, H2, H3.
Qed.

Lemma normpath_fold_plain n comps : forall acc,
  forallb plain_component comps = true ->
  fold_left (normpath_step n) comps acc = acc ++ comps.
Proof.
  induction comps as [|c comps IH]; intros acc H; simpl.
  - now rewrite app_nil_r.
  - simpl in H. apply andb_true_iff in H. destruct H as [Hc H].
    rewrite normpath_step_plain, IH by assumption.
    now rewrite <- app_assoc.
Qed.

Lemma Forall_removelast {A} (P : A -> Prop) l :
  Forall P l -> Forall P (removelast l).
Proof.
  induction l as [|x l IH]; simpl; auto.
  intros H. inversion H; subst. destruct l; auto.
Qed.

Lemma normpath_step_kept n acc c :
  Forall (fun x => kept_component x = true) acc ->
  sep_free c = true ->
  Forall (fun x => kept_component x = true) (normpath_step n acc c).
Proof.
  intros Hacc Hc. unfold normpath_step.
  destruct (String.eqb c "") eqn:E; simpl; auto.
  destruct (String.eqb c "."); simpl; auto.
  match goal with |- context [if ?b then _ else _] => destruct b end.
  - apply Forall_app. split; auto. constructor; auto.
    unfold kept_component, truthy. now rewrite E, Hc.
  - destruct (negb (is_nil acc)); auto using Forall_removelast.
Qed.

Lemma normpath_fold_kept n l : forall acc,
  Forall (fun x => kept_component x = true) acc ->
  Forall (fun c => sep_free c = true) l ->
  Forall (fun x => kept_component x = true)
    (fold_left (normpath_step n) l acc).
Proof.
  induction l as [|c l IH]; intros acc Hacc Hl; simpl; auto.
  inversion Hl; subst. apply IH; auto. now apply normpath_step_kept.
Qed.

Lemma components_of_absolute comps :
  Forall (fun x => kept_component x = true) comps ->
  components (String sep (String.concat "/" comps)) = comps.
Proof.
  intros H. unfold components.
  change (split_sep (String sep (String.concat "/" comps)))
    with ("" :: split_sep (String.concat "/" comps)).
  cbn [filter truthy String.eqb negb].
  destruct comps as [|x comps]; [reflexivity|].
  rewrite split_sep_concat.
  - apply forallb_filter_id. apply forallb_forall.
    intros c Hin. rewrite Forall_forall in H. specialize (H c Hin).
    unfold kept_component in H. now apply andb_true_iff in H.
  - discriminate.
  - eapply Forall_impl; [|exact H]. intros c Hc.
    unfold kept_component in Hc. now apply andb_true_iff in Hc.
Qed.

(** ** [join] on a working directory *)

Lemma plain_nonempty c : plain_component c = true -> c <> "".
Proof.
  unfold plain_component. rewrite !andb_true_iff, !negb_true_iff.
  intros [[[H _] _] _]. now apply String.eqb_neq.
Qed.

Lemma plain_sep_free c : plain_component c = true -> sep_free c = true.
Proof. unfold plain_component. rewrite !andb_true_iff. tauto. Qed.

Lemma endswith_sep_cons c s :
  s <> "" -> endswith_sep (String c s) = endswith_sep s.
Proof. destruct s; [congruence | reflexivity]. Qed.

Lemma endswith_sep_free x : sep_free x = true -> endswith_sep x = false.
Proof.
  induction x as [|c r IH]; auto. simpl sep_free.
  rewrite andb_true_iff, negb_true_iff. intros [Hc Hr].
  destruct r; [exact Hc | now apply IH].
Qed.

Lemma endswith_sep_app pre x :
  x <> "" -> endswith_sep (pre ++ x) = endswith_sep x.
Proof.
  intros Hx. induction pre as [|c pre IH]; auto.
  change (String c pre ++ x)%string with (String c (pre ++ x)).
  rewrite endswith_sep_cons; auto.
  destruct pre; simpl; auto. discriminate.
Qed.

Lemma concat_nonempty x comps :
  x <> "" -> String.concat "/" (x :: comps) <> "".
Proof.
  intros Hx. destruct comps; simpl; auto.
  destruct x; [congruence | discriminate].
Qed.

Lemma endswith_sep_concat comps :
  comps <> [] -> forallb plain_component comps = true ->
  endswith_sep (String.concat "/" comps) = false.
Proof.
  induction comps as [|x comps IH]; [congruence|]. intros _ H.
  simpl in H. apply andb_true_iff in H. destruct H as [Hx H].
  destruct comps as [|y comps].
  - simpl. now apply endswith_sep_free, plain_sep_free.
  - rewrite concat_cons.
    change (String sep (String.concat "/" (y :: comps)))
      with ("/" ++ String.concat "/" (y :: comps))%string.
    rewrite <- string_app_assoc, endswith_sep_app.
    + apply IH; auto. discriminate.
    + apply concat_nonempty. simpl in H. apply andb_true_iff in H.
      now apply plain_nonempty.
Qed.

Lemma startswith_sep_concat comps p :
  forallb plain_component comps = true -> startswith_sep p = false ->
  startswith_sep (String.concat "/" (comps ++ [p])) = false.
Proof.
  intros H Hp. destruct comps as [|x comps]; [exact Hp|].
  simpl in H. apply andb_true_iff in H. destruct H as [Hx _].
  pose proof (plain_nonempty _ Hx) as Hne.
  apply plain_sep_free in Hx.
  destruct x as [|c x]; [congruence|].
  simpl in Hx. apply andb_true_iff in Hx. destruct Hx as [Hc _].
  apply negb_true_iff in Hc.
  change ((String c x :: comps) ++ [p]) with (String c x :: (comps ++ [p])).
  destruct (comps ++ [p]); simpl; exact Hc.
Qed.

Lemma join_cwd comps p :
  forallb plain_component comps = true -> startswith_sep p = false ->
  join (cwd_of comps) p = String sep (String.concat "/" (comps ++ [p])).
Proof.
  intros H Hp. unfold join, cwd_of. rewrite Hp.
  cbn [String.eqb orb].
  destruct comps as [|x comps]; [reflexivity|].
  rewrite endswith_sep_cons.
  - rewrite endswith_sep_concat by (auto; discriminate).
    rewrite concat_snoc by discriminate. reflexivity.
  - apply concat_nonempty. simpl in H. apply andb_true_iff in H.
    now apply plain_nonempty.
Qed.

Lemma initial_slashes_one s :
  startswith_sep s = false -> initial_slashes (String sep s) = 1%nat.
Proof.
  destruct s as [|c2 [|c3 s]]; simpl; auto; intros ->; reflexivity.
Qed.

(** [abspath] of a relative path: the loop of [normpath] runs on from
    the components of the working directory. *)
Lemma abspath_relative comps p :
  forallb plain_component comps = true -> startswith_sep p = false ->
  abspath (cwd_of comps) p
  = String sep
      (String.concat "/" (fold_left (normpath_step 1) (split_sep p) comps)).
Proof.
  intros H Hp. unfold abspath. rewrite Hp, join_cwd by assumption.
  assert (Hfold :
            fold_left (normpath_step 1)
              (split_sep (String sep (String.concat "/" (comps ++ [p]))))
              []
            = fold_left (normpath_step 1) (split_sep p) comps).
  { change (split_sep (String sep (String.concat "/" (comps ++ [p]))))
      with ("" :: split_sep (String.concat "/" (comps ++ [p]))).
    rewrite split_sep_concat_snoc.
    - change (fold_left (normpath_step 1) ("" :: comps ++ split_sep p) [])
        with (fold_left (normpath_step 1) (comps ++ split_sep p) []).
      now rewrite fold_left_app, (normpath_fold_plain 1%nat comps [] H).
    - apply Forall_forall. intros c Hin.
      rewrite forallb_forall in H. now apply plain_sep_free, H. }
  unfold normpath. cbn [String.eqb].
  rewrite initial_slashes_one by now apply startswith_sep_concat.
  rewrite Hfold. reflexivity.
Qed.

Lemma components_abspath comps p :
  forallb plain_component comps = true -> startswith_sep p = false ->
  components (abspath (cwd_of comps) p)
  = fold_left (normpath_step 1) (split_sep p) comps.
Proof.
  intros H Hp. rewrite abspath_relative by assumption.
  apply components_of_absolute. apply normpath_fold_kept.
  - apply Forall_forall. intros c Hin.
    rewrite forallb_forall in H. now apply plain_is_kept, H.
  - apply split_sep_all_sep_free.
Qed.

(** ** [relpath] *)

Lemma rel_list_common_base base x y :
  rel_list (base ++ x) (base ++ y) = rel_list x y.
Proof.
  unfold rel_list. induction base as [|c base IH]; auto.
  simpl. rewrite String.eqb_refl. simpl. exact IH.
Qed.

Lemma relpath_relative comps path start :
  forallb plain_component comps = true ->
  truthy path = true ->
  startswith_sep path = false -> startswith_sep start = false ->
  relpath (cwd_of comps) path start
  = match rel_list (fold_left (normpath_step 1) (split_sep start) comps)
            (fold_left (normpath_step 1) (split_sep path) comps) with
    | [] => inr "."
    | a :: p => inr (join_all a p)
    end.
Proof.
  intros H Ht Hp Hs. unfold relpath. rewrite Ht. cbn [negb].
  now rewrite !components_abspath by assumption.
Qed.

Lemma normpath_fold_no_dotdot n l : forall acc,
  forallb not_dotdot l = true ->
  fold_left (normpath_step n) l acc = acc ++ filter not_skipped l.
Proof.
  induction l as [|c l IH]; intros acc H; cbn [fold_left filter forallb].
  - now rewrite app_nil_r.
  - cbn [forallb] in H. apply andb_true_iff in H. destruct H as [Hc H].
    rewrite IH by assumption. unfold normpath_step, not_skipped.
    unfold not_dotdot in Hc. rewrite Hc.
    destruct (String.eqb c "" || String.eqb c "."); cbn [negb orb]; auto.
    now rewrite <- app_assoc.
Qed.

(** For a relative [path] and a relative [start] without [..], the
    result of [relpath] does not depend on the working directory. *)
Lemma relpath_no_dotdot comps path start :
  forallb plain_component comps = true ->
  truthy path = true ->
  startswith_sep path = false -> startswith_sep start = false ->
  forallb not_dotdot (split_sep path) = true ->
  forallb not_dotdot (split_sep start) = true ->
  relpath (cwd_of comps) path start
  = match rel_list (filter not_skipped (split_sep start))
            (filter not_skipped (split_sep path)) with
    | [] => inr "."
    | a :: p => inr (join_all a p)
    end.
Proof.
  intros H Ht Hp Hs Hdp Hds.
  rewrite relpath_relative by assumption.
  rewrite !normpath_fold_no_dotdot by assumption.
  now rewrite rel_list_common_base.
Qed.

End PathFacts.

(* ================================================================== *)
(** * Path mapping (C6) *)
(* ================================================================== *)

(** C6, as stated, fails for the script: [download_dir] and
    [download_versioned] take the key relative to the prefix itself, so
    for the prefix [a/b] the last segment of the prefix is not kept. *)
Lemma C6_counterexample :
  PathMapper.script_local_path "/srv/work" "Download" "a/b" "a/b/c/d.txt"
  = inr "Download/c/d.txt"
  /\ PathMapper.script_local_path "/srv/work" "Download" "a/b" "a/b/c/d.txt"
     <> inr "Download/b/c/d.txt".
Proof. split; [reflexivity | discriminate]. Qed.

(** C6, amended: in every working directory, both mappers send the key
    [a/b/c/d.txt] to [Download/c/d.txt] for the prefix [a/b/] and to
    [Download/a/b/c/d.txt] for the empty prefix; for the prefix [a/b]
    without a trailing separator the mapper of [download_objects] gives
    [Download/b/c/d.txt] (the base is the parent directory of the
    prefix), and the mapper of the script gives [Download/c/d.txt]. *)
Theorem C6_path_mapping_of_each_client :
  forall comps,
    forallb plain_component comps = true ->
    let cwd := cwd_of comps in
    let key := "a/b/c/d.txt" in
    PathMapper.handler_destination_path cwd "Download" "a/b/" key
    = inr "Download/c/d.txt"
    /\ PathMapper.handler_destination_path cwd "Download" "" key
       = inr "Download/a/b/c/d.txt"
    /\ PathMapper.handler_destination_path cwd "Download" "a/b" key
       = inr "Download/b/c/d.txt"
    /\ PathMapper.script_local_path cwd "Download" "a/b/" key
       = inr "Download/c/d.txt"
    /\ PathMapper.script_local_path cwd "Download" "" key
       = inr "Download/a/b/c/d.txt"
    /\ PathMapper.script_local_path cwd "Download" "a/b" key
       = inr "Download/c/d.txt".
Proof.
  intros comps H cwd key. subst cwd key.
  unfold PathMapper.handler_destination_path, PathMapper.script_local_path.
  change (PathMapper.prefix_dir "a/b/") with "a/b/".
  change (PathMapper.prefix_dir "") with "".
  change (PathMapper.prefix_dir "a/b") with "a".
  cbn [PyStr.truthy String.eqb Ascii.eqb Bool.eqb negb].
  repeat split;
    rewrite (relpath_no_dotdot comps) by (assumption || reflexivity);
    reflexivity.
Qed.

(** C6 in the working directory [/srv/work]. *)
Lemma C6_path_mapping_of_each_client_witness :
  PathMapper.handler_destination_path "/srv/work" "Download" "a/b"
    "a/b/c/d.txt" = inr "Download/b/c/d.txt".
Proof.
  apply (proj1 (proj2 (proj2 (C6_path_mapping_of_each_client
                                ["srv"; "work"] eq_refl)))).
Defined.

(* ================================================================== *)
(** * Facts about the transfers of the script *)
(* ================================================================== *)

Section ScriptTransferFacts.
Import Eff.
Variable env : environment.
Variables bucket source_prefix dest_dir : string.

Lemma prepare_destination_ready source p w :
  directory_ready env p ->
  exists w',
    ScriptIO.prepare_destination env source (Some p) w = (inr p, w')
    /\ files w' = files w /\ stdout w' = stdout w
    /\ stderr w' = stderr w /\ sdk_log w' = sdk_log w.
Proof.
  intros Hready. unfold ScriptIO.prepare_destination, directory_ready in *.
  destruct (PyStr.truthy (PosixPath.dirname p)) eqn:Ht.
  - unfold bind, makedirs. unfold PyStr.truthy in Ht.
    apply negb_true_iff in Ht. rewrite Ht, (Hready eq_refl).
    eexists. split; [reflexivity|]. simpl. auto.
  - exists w. auto.
Qed.

(** One call of [download_single_file] from the loop: it returns, its
    flag tells whether head request and transfer both succeeded, the
    head request is logged, standard output is untouched, and the
    local file is new exactly on success. *)
Lemma download_single_file_outcome key version p w :
  directory_ready env p ->
  (forall e,
      transfer_result env bucket key (ScriptIO.extra_args version) p
      = Some e -> is_Exception e = true) ->
  exists w' calls,
    ScriptIO.download_single_file env bucket key (Some p) version w
    = (inr (transfer_ok env bucket key (ScriptIO.extra_args version) p,
            if transfer_ok env bucket key (ScriptIO.extra_args version) p
            then Some p else None), w')
    /\ stdout w' = stdout w
    /\ sdk_log w'
       = sdk_log w
           ++ HeadObject bucket key (ScriptIO.extra_args version) :: calls
    /\ files w'
       = if transfer_ok env bucket key (ScriptIO.extra_args version) p
         then p :: files w else files w.
Proof.
  intros Hready Hexn.
  destruct (prepare_destination_ready key p w Hready)
    as (w1 & Hprep & Hf & Ho & He & Hl).
  unfold ScriptIO.download_single_file, bind at 1. rewrite Hprep.
  unfold transfer_ok, transfer_result in *.
  unfold try_except, bind, client_head_object, client_download_file.
  destruct (head_object env bucket key (ScriptIO.extra_args version))
    as [e|n] eqn:Hhead.
  - specialize (Hexn e eq_refl).
    destruct e; try discriminate Hexn;
      try (destruct (String.eqb code "404"));
      eexists; exists []; (split; [reflexivity|]); simpl;
      rewrite ?Ho, ?Hl, ?Hf; auto.
  - destruct (sdk_download_file env bucket key
                (ScriptIO.extra_args version) p) as [e|] eqn:Hget.
    + specialize (Hexn e eq_refl).
      destruct e; try discriminate Hexn;
        try (destruct (String.eqb code "404"));
        eexists; eexists; (split; [reflexivity|]); simpl;
        rewrite ?Ho, ?Hl, ?Hf, <- ?app_assoc; simpl; auto.
    + eexists; eexists; (split; [reflexivity|]); simpl;
        rewrite ?Ho, ?Hl, ?Hf, <- ?app_assoc; simpl; auto.
Qed.

Lemma successes_failures pts :
  (successes env bucket pts + failures env bucket pts = List.length pts)%nat.
Proof.
  unfold successes, failures.
  induction pts as [|pt pts IH]; simpl; auto.
  destruct (target_ok env bucket pt); simpl; lia.
Qed.

(** The loop visits every target: no failed transfer ends it, each
    target's head request is sent, and the two counters add up the
    successes and the failures. *)
Lemma download_each_visits_all paths targets :
  Forall2 (script_target_ready env bucket source_prefix dest_dir)
    paths targets ->
  forall s f w,
  exists w',
    ScriptIO.download_each env bucket source_prefix dest_dir targets s f w
    = (inr ((s + successes env bucket (combine paths targets))%nat,
            (f + failures env bucket (combine paths targets))%nat), w')
    /\ stdout w' = stdout w
    /\ (forall c, In c (sdk_log w) -> In c (sdk_log w'))
    /\ (forall x, In x (files w) -> In x (files w'))
    /\ (forall t, In t targets ->
          In (HeadObject bucket (fst t) (ScriptIO.extra_args (snd t)))
            (sdk_log w'))
    /\ (forall p t, In (p, t) (combine paths targets) ->
          target_ok env bucket (p, t) = true -> In p (files w')).
Proof.
  induction 1 as [|p [key version] paths targets Hready Hrest IH];
    intros s f w.
  - exists w. simpl. unfold successes, failures. simpl.
    rewrite !Nat.add_0_r. repeat split; auto; intros; contradiction.
  - destruct Hready as (Hpath & Hdir & Hexn). simpl in Hpath, Hexn.
    destruct (download_single_file_outcome key version p w Hdir Hexn)
      as (w1 & calls & Hrun & Hout & Hlog & Hfiles).
    cbn [ScriptIO.download_each]. unfold bind at 1, lift.
    rewrite Hpath. unfold bind at 1. rewrite Hrun. cbn [fst].
    assert (Hok : target_ok env bucket (p, (key, version))
                  = transfer_ok env bucket key
                      (ScriptIO.extra_args version) p) by reflexivity.
    assert (Hhead : In (HeadObject bucket key (ScriptIO.extra_args version))
                      (sdk_log w1)).
    { rewrite Hlog. apply in_or_app. right. now left. }
    assert (Hlogs : forall c, In c (sdk_log w) -> In c (sdk_log w1)).
    { intros c Hc. rewrite Hlog. apply in_or_app. auto. }
    destruct (transfer_ok env bucket key (ScriptIO.extra_args version) p)
      eqn:Hres.
    + destruct (IH (S s) f w1)
        as (w' & Hrun' & Hout' & Hmono & Hkeep & Hall & Hnew).
      exists w'. rewrite Hrun'.
      unfold successes, failures. cbn [combine filter].
      rewrite Hok. cbn [negb List.length].
      split; [f_equal; f_equal; f_equal; lia|].
      split; [congruence|].
      split; [auto|].
      split; [intros x Hx; apply Hkeep; rewrite Hfiles; now right|].
      split.
      * intros t [<-|Hin]; auto.
      * intros p' t' [Heq|Hin] Hgood; [|now apply (Hnew p' t')].
        inversion Heq; subst p' t'.
        apply Hkeep. rewrite Hfiles. now left.
    + destruct (IH s (S f) w1)
        as (w' & Hrun' & Hout' & Hmono & Hkeep & Hall & Hnew).
      exists w'. rewrite Hrun'.
      unfold successes, failures. cbn [combine filter].
      rewrite Hok. cbn [negb List.length].
      split; [f_equal; f_equal; f_equal; lia|].
      split; [congruence|].
      split; [auto|].
      split; [intros x Hx; apply Hkeep; now rewrite Hfiles|].
      split.
      * intros t [<-|Hin]; auto.
      * intros p' t' [Heq|Hin] Hgood; [|now apply (Hnew p' t')].
        inversion Heq; subst p' t'. congruence.
Qed.

End ScriptTransferFacts.

(* ================================================================== *)
(** * Facts about the transfers of the package *)
(* ================================================================== *)

Section HandlerTransferFacts.
Import Eff.
Variable env : environment.
Variables bucket destination_dir source_prefix : string.

Lemma download_object_success p obj w :
  handler_target_ready env destination_dir source_prefix p obj ->
  sdk_download_file env bucket (fst obj) (snd obj) p = None ->
  S3HandlerIO.download_object env bucket destination_dir source_prefix obj w
  = (inr tt,
     mkWorld (p :: files w) (PosixPath.dirname p :: dirs w) (stdout w)
       (stderr w) (sdk_log w ++ [DownloadFile bucket (fst obj) (snd obj) p])).
Proof.
  intros (Hpath & Hne & Hdir) Hget.
  unfold S3HandlerIO.download_object, bind, lift, makedirs, try_except,
    client_download_file.
  rewrite Hpath. apply String.eqb_neq in Hne. rewrite Hne, Hdir.
  simpl. now rewrite Hget.
Qed.

Lemma download_object_client_error p obj code w :
  handler_target_ready env destination_dir source_prefix p obj ->
  sdk_download_file env bucket (fst obj) (snd obj) p
  = Some (ClientError code) ->
  S3HandlerIO.download_object env bucket destination_dir source_prefix obj w
  = (inr tt,
     mkWorld (files w) (PosixPath.dirname p :: dirs w)
       (stdout w ++ [handler_warning env obj (ClientError code)])
       (stderr w) (sdk_log w ++ [DownloadFile bucket (fst obj) (snd obj) p])).
Proof.
  intros (Hpath & Hne & Hdir) Hget.
  unfold S3HandlerIO.download_object, bind, lift, makedirs, try_except,
    client_download_file.
  rewrite Hpath. apply String.eqb_neq in Hne. rewrite Hne, Hdir.
  simpl. now rewrite Hget.
Qed.

(** Any other exception of the transfer leaves [download_objects]: the
    objects after it are not requested. *)
Lemma download_objects_other_exception p obj rest e w :
  handler_target_ready env destination_dir source_prefix p obj ->
  sdk_download_file env bucket (fst obj) (snd obj) p = Some e ->
  (forall code, e <> ClientError code) ->
  S3HandlerIO.download_objects env bucket destination_dir source_prefix
    (obj :: rest) w
  = (inl e,
     mkWorld (files w) (PosixPath.dirname p :: dirs w) (stdout w)
       (stderr w) (sdk_log w ++ [DownloadFile bucket (fst obj) (snd obj) p])).
Proof.
  intros (Hpath & Hne & Hdir) Hget Hother.
  cbn [S3HandlerIO.download_objects].
  unfold S3HandlerIO.download_object, bind, lift, makedirs, try_except,
    client_download_file.
  rewrite Hpath. apply String.eqb_neq in Hne. rewrite Hne, Hdir.
  simpl. rewrite Hget.
  destruct e; try reflexivity. now elim (Hother code).
Qed.

Lemma list_batch_of_directory source destination pages w :
  list_objects_v2 env bucket source = inr pages ->
  PackageMain.list_batch env bucket (download_dir_cmd source destination) w
  = (inr (map (fun o => (obj_Key o, @None string))
            (filter has_content (all_contents pages)),
          sum_obj_sizes (filter has_content (all_contents pages))), w).
Proof.
  intros H. unfold PackageMain.list_batch, bind, lift.
  now rewrite H, list_objects_in_prefix_eq.
Qed.

End HandlerTransferFacts.

(* ================================================================== *)
(** * A failed transfer inside a batch (C8) *)
(* ================================================================== *)

(** C8, as stated, fails for the package: [download_objects] goes on
    after the refused transfer, but it returns no outcome and counts
    nothing; with two files written out of three, [main] ends with the
    number of listed files as the number downloaded, and exits with
    status 0. *)
Lemma C8_counterexample :
  PackageMain.main second_fails "bucket" (download_dir_cmd "" None)
    initial_world
  = (inr tt,
     mkWorld
       ["/srv/work/Download/c.txt"; "/srv/work/Download/a.txt"]
       ["/srv/work/Download"; "/srv/work/Download"; "/srv/work/Download"]
       ["Analyzing files in 'bucket root'...";
        "Found 3 files to download with a total size of 60.00 B.";
        "Downloading to '/srv/work/Download'...";
        (PyStr.nl ++ "Warning: Could not download b.txt (Version: N/A). "
           ++ "Error: Forbidden")%string;
        (PyStr.nl ++ "Successfully downloaded 3 files.")%string]
       []
       [DownloadFile "bucket" "a.txt" None "/srv/work/Download/a.txt";
        DownloadFile "bucket" "b.txt" None "/srv/work/Download/b.txt";
        DownloadFile "bucket" "c.txt" None "/srv/work/Download/c.txt"]).
Proof. vm_compute. reflexivity. Qed.

(** C8, amended: in the loop of [download_versioned], when the transfer
    of the second of three targets fails with any exception, the third
    is still requested and written, and the final line reports 2
    succeeded and 1 failed; in the package, when the transfer of the
    second of three listed objects fails with a [ClientError],
    [download_objects] prints a warning for it and still requests the
    third, and [main] then reports the three listed files as downloaded,
    without any count of failures. *)
Theorem C8_batch_continues_after_failed_transfer :
  forall env bucket source_prefix,
    (forall dest_dir w k1 v1 k2 v2 k3 v3 p1 p2 p3,
        Forall2 (script_target_ready env bucket source_prefix dest_dir)
          [p1; p2; p3] [(k1, Some v1); (k2, Some v2); (k3, Some v3)] ->
        transfer_ok env bucket k1 (ScriptIO.extra_args (Some v1)) p1 = true ->
        transfer_ok env bucket k2 (ScriptIO.extra_args (Some v2)) p2 = false ->
        transfer_ok env bucket k3 (ScriptIO.extra_args (Some v3)) p3 = true ->
        exists w',
          ScriptIO.download_versioned_batch env bucket source_prefix dest_dir
            [(k1, v1); (k2, v2); (k3, v3)] w = (inr tt, w')
          /\ In (HeadObject bucket k3 (ScriptIO.extra_args (Some v3)))
               (sdk_log w')
          /\ In p3 (files w')
          /\ stdout w'
             = stdout w
                 ++ [(PyStr.nl ++ "Versioned download complete. "
                        ++ "2 file(s) succeeded, 1 file(s) failed.")%string])
    /\ (forall destination w o1 o2 o3 p1 p2 p3 code,
           let destination_dir :=
             PackageMain.destination_or destination
               (PackageMain.get_default_download_dir env) in
           list_objects_v2 env bucket source_prefix
           = inr [mkObjectPage (Some [o1; o2; o3])] ->
           Forall (fun o => 0 < obj_Size o) [o1; o2; o3] ->
           Forall2
             (fun p o =>
                handler_target_ready env destination_dir source_prefix p
                  (obj_Key o, None))
             [p1; p2; p3] [o1; o2; o3] ->
           sdk_download_file env bucket (obj_Key o1) None p1 = None ->
           sdk_download_file env bucket (obj_Key o2) None p2
           = Some (ClientError code) ->
           sdk_download_file env bucket (obj_Key o3) None p3 = None ->
           exists w',
             PackageMain.main env bucket
               (download_dir_cmd source_prefix destination) w = (inr tt, w')
             /\ sdk_log w'
                = sdk_log w
                    ++ [DownloadFile bucket (obj_Key o1) None p1;
                        DownloadFile bucket (obj_Key o2) None p2;
                        DownloadFile bucket (obj_Key o3) None p3]
             /\ files w' = p3 :: p1 :: files w
             /\ exists report,
                 stdout w'
                 = stdout w
                     ++ report
                     ++ [handler_warning env (obj_Key o2, None)
                           (ClientError code);
                         (PyStr.nl ++ "Successfully downloaded 3 files.")
                           %string]).
Proof.
  intros env bucket source_prefix. split.
  - intros dest_dir w k1 v1 k2 v2 k3 v3 p1 p2 p3 Hready H1 H2 H3.
    destruct (download_each_visits_all env bucket source_prefix dest_dir
                _ _ Hready 0%nat 0%nat w)
      as (w1 & Hrun & Hout & _ & _ & Hall & Hnew).
    unfold ScriptIO.download_versioned_batch, PyDict.items, Eff.bind.
    cbn [map fst snd]. rewrite Hrun.
    unfold successes, failures, target_ok. cbn [combine filter fst snd].
    rewrite H1, H2, H3. cbn [negb filter List.length Nat.add fst snd].
    eexists. split; [reflexivity|]. cbn [sdk_log files stdout].
    split; [apply (Hall (k3, Some v3)); simpl; auto|].
    split.
    + apply (Hnew p3 (k3, Some v3)); [simpl; auto|].
      unfold target_ok. exact H3.
    + now rewrite Hout.
  - intros destination w o1 o2 o3 p1 p2 p3 code destination_dir
      Hlist Hsizes Hready Hg1 Hg2 Hg3.
    inversion Hready as [|? ? ? ? Hr1 Hready1]; subst.
    inversion Hready1 as [|? ? ? ? Hr2 Hready2]; subst.
    inversion Hready2 as [|? ? ? ? Hr3 _]; subst.
    inversion Hsizes as [|? ? Hs1 Hsizes1]; subst.
    inversion Hsizes1 as [|? ? Hs2 Hsizes2]; subst.
    inversion Hsizes2 as [|? ? Hs3 _]; subst.
    unfold PackageMain.main, PackageMain.execute, PackageMain.run_batch.
    fold destination_dir.
    unfold Eff.try_except, Eff.bind at 1 2, Eff.print at 1.
    rewrite (list_batch_of_directory env bucket source_prefix destination
               _ _ Hlist).
    cbn [all_contents flat_map Contents app filter].
    unfold has_content.
    apply Z.gtb_lt in Hs1, Hs2, Hs3. rewrite Hs1, Hs2, Hs3.
    unfold Eff.bind, Eff.ret, Eff.print.
    cbn [map List.length Nat.eqb S3HandlerIO.download_objects].
    unfold Eff.bind.
    rewrite (download_object_success env bucket destination_dir
               source_prefix p1 (obj_Key o1, None) _ Hr1 Hg1).
    rewrite (download_object_client_error env bucket destination_dir
               source_prefix p2 (obj_Key o2, None) code _ Hr2 Hg2).
    rewrite (download_object_success env bucket destination_dir
               source_prefix p3 (obj_Key o3, None) _ Hr3 Hg3).
    unfold Eff.ret. cbn [files dirs stdout stderr sdk_log fst snd].
    change (PyStr.str_of_nat 3) with "3".
    eexists. split; [reflexivity|].
    cbn [files stdout sdk_log].
    split; [now rewrite <- !app_assoc|]. split; [reflexivity|].
    eexists [_; _; _]. rewrite <- !app_assoc. reflexivity.
Qed.

(** C8 on the bucket whose second transfer is refused. *)
Lemma C8_batch_continues_after_failed_transfer_witness :
  (exists w',
      ScriptIO.download_versioned_batch second_fails "bucket" "" "Download"
        [("a.txt", "v1"); ("b.txt", "v2"); ("c.txt", "v3")] initial_world
      = (inr tt, w')
      /\ In (HeadObject "bucket" "c.txt" (ScriptIO.extra_args (Some "v3")))
           (sdk_log w')
      /\ In "Download/c.txt" (files w')
      /\ stdout w'
         = stdout initial_world
             ++ [(PyStr.nl ++ "Versioned download complete. "
                    ++ "2 file(s) succeeded, 1 file(s) failed.")%string])
  /\ (exists w',
         PackageMain.main second_fails "bucket" (download_dir_cmd "" None)
           initial_world = (inr tt, w')
         /\ sdk_log w'
            = sdk_log initial_world
                ++ [DownloadFile "bucket" "a.txt" None
                      "/srv/work/Download/a.txt";
                    DownloadFile "bucket" "b.txt" None
                      "/srv/work/Download/b.txt";
                    DownloadFile "bucket" "c.txt" None
                      "/srv/work/Download/c.txt"]
         /\ files w'
            = "/srv/work/Download/c.txt" :: "/srv/work/Download/a.txt"
              :: files initial_world
         /\ exists report,
             stdout w'
             = stdout initial_world
                 ++ report
                 ++ [handler_warning second_fails ("b.txt", None)
                       (ClientError "403");
                     (PyStr.nl ++ "Successfully downloaded 3 files.")%string]).
Proof.
  split.
  - apply (proj1 (C8_batch_continues_after_failed_transfer
                    second_fails "bucket" "")
             "Download" initial_world "a.txt" "v1" "b.txt" "v2" "c.txt" "v3"
             "Download/a.txt" "Download/b.txt" "Download/c.txt");
      try reflexivity.
    repeat constructor; try (intros _; reflexivity);
      intros e He; vm_compute in He; inversion He; reflexivity.
  - apply (proj2 (C8_batch_continues_after_failed_transfer
                    second_fails "bucket" "")
             None initial_world (mkObject "a.txt" 10) (mkObject "b.txt" 20)
             (mkObject "c.txt" 30) "/srv/work/Download/a.txt"
             "/srv/work/Download/b.txt" "/srv/work/Download/c.txt" "403");
      try reflexivity.
    + repeat constructor.
    + repeat constructor; discriminate.
Defined.

(* ================================================================== *)
(** * A missing key in single-file mode (C9) *)
(* ================================================================== *)

Section MissingKeyFacts.
Import Eff.
Variable env : environment.
Variables bucket source : string.
Hypothesis missing :
  head_object env bucket source None = inl (ClientError "404").

Lemma get_object_info_missing w :
  S3HandlerIO.get_object_info env bucket source w
  = (inl (FileNotFoundError (S3HandlerIO.not_found_message source bucket)),
     log_call (HeadObject bucket source None) w).
Proof.
  unfold S3HandlerIO.get_object_info, try_except, client_head_object.
  now rewrite missing.
Qed.

Lemma package_main_missing destination w :
  PackageMain.main env bucket (download_file_cmd source destination) w
  = (inl (SystemExit 1),
     mkWorld (files w) (dirs w)
       (stdout w ++ [("Analyzing file '" ++ source ++ "'...")%string])
       (stderr w
          ++ [(PyStr.nl ++ "ERROR: "
                 ++ S3HandlerIO.not_found_message source bucket)%string])
       (sdk_log w ++ [HeadObject bucket source None])).
Proof.
  unfold PackageMain.main, PackageMain.execute,
    PackageMain.run_download_file.
  unfold try_except, bind at 1, print at 1, bind at 1.
  rewrite get_object_info_missing. reflexivity.
Qed.

(** After the directory step, the script reports the missing key and
    returns [(False, None)]. *)
Lemma download_single_file_missing destination dest' w w1 :
  ScriptIO.prepare_destination env source destination w = (inr dest', w1) ->
  ScriptIO.download_single_file env bucket source destination None w
  = (inr (false, None),
     mkWorld (files w1) (dirs w1) (stdout w1)
       (stderr w1 ++ [ScriptIO.not_found_message source bucket])
       (sdk_log w1 ++ [HeadObject bucket source None])).
Proof.
  intros Hprep. unfold ScriptIO.download_single_file, bind at 1.
  rewrite Hprep.
  unfold try_except, bind at 1, client_head_object.
  cbn [ScriptIO.extra_args]. now rewrite missing.
Qed.

Lemma prepare_destination_effects destination w :
  exists r w1,
    ScriptIO.prepare_destination env source destination w = (r, w1)
    /\ files w1 = files w /\ stdout w1 = stdout w
    /\ stderr w1 = stderr w /\ sdk_log w1 = sdk_log w.
Proof.
  unfold ScriptIO.prepare_destination, bind, makedirs, ret.
  destruct destination as [d|].
  - destruct (PyStr.truthy (PosixPath.dirname d)).
    + destruct (String.eqb (PosixPath.dirname d) "");
        [|destruct (makedirs_error env (PosixPath.dirname d))];
        eexists; eexists; (split; [reflexivity|]); auto.
    + eexists; eexists; (split; [reflexivity|]); auto.
  - change Script.DEFAULT_DOWNLOAD_DIR with "Download".
    cbn [String.eqb Ascii.eqb Bool.eqb].
    destruct (makedirs_error env "Download");
      eexists; eexists; (split; [reflexivity|]); auto.
Qed.

Lemma prepare_destination_when_ready destination w :
  script_directory_ready env destination ->
  exists dest' w1,
    ScriptIO.prepare_destination env source destination w = (inr dest', w1)
    /\ stderr w1 = stderr w /\ sdk_log w1 = sdk_log w.
Proof.
  unfold script_directory_ready. destruct destination as [d|]; intros H.
  - destruct (prepare_destination_ready env source d w H)
      as (w1 & Hp & _ & _ & He & Hl).
    exists d, w1. auto.
  - unfold ScriptIO.prepare_destination, bind, makedirs, ret.
    change Script.DEFAULT_DOWNLOAD_DIR with "Download" in *.
    cbn [String.eqb Ascii.eqb Bool.eqb].
    rewrite H. eexists; eexists; (split; [reflexivity|]); auto.
Qed.

(** Whatever the directory step does, [download_single_file] writes no
    file and sends at most the head request. *)
Lemma download_single_file_missing_effects destination w :
  exists r w2,
    ScriptIO.download_single_file env bucket source destination None w
    = (r, w2)
    /\ (r = inr (false, None) \/ exists e, r = inl e)
    /\ files w2 = files w
    /\ (sdk_log w2 = sdk_log w
        \/ sdk_log w2 = sdk_log w ++ [HeadObject bucket source None]).
Proof.
  destruct (prepare_destination_effects destination w)
    as (r & w1 & Hprep & Hf & _ & _ & Hl).
  destruct r as [e|dest'].
  - unfold ScriptIO.download_single_file, bind at 1. rewrite Hprep.
    exists (inl e), w1. repeat split; eauto.
  - rewrite (download_single_file_missing _ _ _ _ Hprep).
    eexists; eexists. split; [reflexivity|]. cbn [files sdk_log].
    rewrite Hf, Hl. auto.
Qed.

Lemma script_main_missing_no_file destination w :
  let run :=
    ScriptIO.main env bucket (download_file_cmd source destination) w in
  files (snd run) = files w
  /\ forall c, In c (sdk_log (snd run)) ->
               In c (sdk_log w) \/ c = HeadObject bucket source None.
Proof.
  intros run.
  assert (H : exists r' w',
             run = (r', w') /\ files w' = files w
             /\ forall c, In c (sdk_log w') ->
                  In c (sdk_log w) \/ c = HeadObject bucket source None).
  { subst run. unfold ScriptIO.main, ScriptIO.execute.
    unfold try_except, bind at 1, print at 1, bind at 1.
    match goal with
    | |- context [ScriptIO.download_single_file env bucket source
                    destination None ?w0] =>
        destruct (download_single_file_missing_effects destination w0)
          as (r & w2 & Hrun & Hr & Hf & Hl)
    end.
    rewrite Hrun. cbn [files sdk_log] in Hf, Hl.
    assert (Hlog : forall c, In c (sdk_log w2) ->
                     In c (sdk_log w) \/ c = HeadObject bucket source None).
    { intros c Hc. destruct Hl as [Hl|Hl]; rewrite Hl in Hc; auto.
      apply in_app_or in Hc. destruct Hc as [Hc|[Hc|[]]]; auto. }
    destruct Hr as [->|(e & ->)].
    - eexists; eexists. split; [reflexivity|]. simpl. auto.
    - destruct e; eexists; eexists; (split; [reflexivity|]); simpl; auto. }
  destruct H as (r' & w' & -> & Hf & Hl). auto.
Qed.

Lemma script_main_missing destination w :
  script_directory_ready env destination ->
  exists w',
    ScriptIO.main env bucket (download_file_cmd source destination) w
    = (inl (SystemExit 1), w')
    /\ stderr w'
       = stderr w
           ++ [ScriptIO.not_found_message source bucket;
               (PyStr.nl ++ "Download failed for '" ++ source ++ "'")
                 %string]
    /\ sdk_log w' = sdk_log w ++ [HeadObject bucket source None].
Proof.
  intros Hready.
  unfold ScriptIO.main, ScriptIO.execute.
  unfold try_except, bind at 1, print at 1, bind at 1.
  match goal with
  | |- context [ScriptIO.download_single_file env bucket source
                  destination None ?w0] =>
      destruct (prepare_destination_when_ready destination w0 Hready)
        as (dest' & w1 & Hprep & He & Hl)
  end.
  rewrite (download_single_file_missing _ _ _ _ Hprep).
  cbn [stderr sdk_log] in He, Hl.
  eexists. split; [reflexivity|]. simpl.
  now rewrite He, Hl, <- app_assoc.
Qed.

End MissingKeyFacts.

(** C9: when the storage answers the head request for the key with a
    404, [get_object_info] raises [FileNotFoundError] with the message
    that names the key and the bucket; the package's [main] prints that
    message on standard error and exits with status 1; the script's
    [main], once the destination directory is there, prints the message
    that names the key and the bucket on standard error and exits with
    status 1; in both clients no local file is created and no transfer
    is requested. *)
Theorem C9_missing_key_is_fatal_in_single_file_mode :
  forall env bucket source destination w,
    head_object env bucket source None = inl (ClientError "404") ->
    let package :=
      PackageMain.main env bucket (download_file_cmd source destination) w in
    let script :=
      ScriptIO.main env bucket (download_file_cmd source destination) w in
    fst (S3HandlerIO.get_object_info env bucket source w)
    = inl (FileNotFoundError (S3HandlerIO.not_found_message source bucket))
    /\ Eff.exit_status (fst package) = 1
    /\ stderr (snd package)
       = stderr w
           ++ [(PyStr.nl ++ "ERROR: Error: Source file '" ++ source
                  ++ "' not found in bucket '" ++ bucket ++ "'.")%string]
    /\ files (snd package) = files w
    /\ sdk_log (snd package) = sdk_log w ++ [HeadObject bucket source None]
    /\ files (snd script) = files w
    /\ (forall c, In c (sdk_log (snd script)) ->
                  In c (sdk_log w) \/ c = HeadObject bucket source None)
    /\ (script_directory_ready env destination ->
        Eff.exit_status (fst script) = 1
        /\ stderr (snd script)
           = stderr w
               ++ [("Error: Source file '" ++ source
                      ++ "' not found in bucket '" ++ bucket ++ "'.")%string;
                   (PyStr.nl ++ "Download failed for '" ++ source ++ "'")
                     %string]).
Proof.
  intros env bucket source destination w Hmissing package script.
  subst package script.
  rewrite get_object_info_missing, package_main_missing by assumption.
  cbn [fst snd Eff.exit_status files stderr sdk_log].
  destruct (script_main_missing_no_file env bucket source Hmissing
              destination w) as [Hfiles Hlog].
  repeat split; auto.
  - destruct (script_main_missing env bucket source Hmissing
                destination w H) as (w' & -> & _). reflexivity.
  - destruct (script_main_missing env bucket source Hmissing
                destination w H) as (w' & -> & Herr & _). exact Herr.
Qed.

(** C9 on the bucket without objects. *)
Lemma C9_missing_key_is_fatal_in_single_file_mode_witness :
  Eff.exit_status
    (fst (PackageMain.main empty_bucket "bucket"
            (download_file_cmd "docs/missing.txt" None) initial_world)) = 1
  /\ files
       (snd (ScriptIO.main empty_bucket "bucket"
               (download_file_cmd "docs/missing.txt" None) initial_world))
     = [].
Proof.
  pose proof (C9_missing_key_is_fatal_in_single_file_mode empty_bucket
                "bucket" "docs/missing.txt" None initial_world eq_refl) as H.
  cbv zeta in H. split.
  - exact (proj1 (proj2 H)).
  - exact (proj1 (proj2 (proj2 (proj2 (proj2 (proj2 H)))))).
Defined.

(* ================================================================== *)
(** * The embedding on known values *)
(* ================================================================== *)

(** [os.path] on the values of the Python documentation and shell. *)
Example posixpath_known_values :
  PosixPath.dirname "a/b" = "a"
  /\ PosixPath.dirname "/a" = "/"
  /\ PosixPath.dirname "a" = ""
  /\ PosixPath.dirname "a//b/c" = "a//b"
  /\ PosixPath.basename "a/b/c.txt" = "c.txt"
  /\ PosixPath.basename "a/" = ""
  /\ PyStr.split_sep "a//b/" = ["a"; ""; "b"; ""]
  /\ PosixPath.normpath "/srv//work/./x/../y/" = "/srv/work/y"
  /\ PosixPath.normpath "//srv" = "//srv"
  /\ PosixPath.normpath "../a" = "../a"
  /\ PosixPath.relpath "/srv/work" "a/bc/x.txt" "a/b" = inr "../bc/x.txt"
  /\ PosixPath.relpath "/srv/work" "" "a" = inl (ValueError "no path specified").
Proof. repeat split; reflexivity. Qed.

(** [date.toordinal()] and the target of the specification's example. *)
Example datetime_known_values :
  Datetime.ymd2ord 1 1 1 = 1
  /\ Datetime.ymd2ord 1970 1 1 = 719163
  /\ Datetime.ymd2ord 2024 3 1 = 738946
  /\ Datetime.days_in_month 2024 2 = 29
  /\ Datetime.days_in_month 1900 2 = 28
  /\ Datetime.isoformat_date 2024 6 1 = "2024-06-01"
  /\ Datetime.target_timestamp 2024 6 1 + 1
     = Datetime.instant (Datetime.mkDatetime 2024 6 2 0 0 0 0).
Proof. repeat split; reflexivity. Qed.

(** The script on the bucket whose second transfer is refused. *)
Example script_run_with_refused_transfer :
  ScriptIO.main second_fails "bucket" (download_dir_cmd "" None) initial_world
  = (inr tt,
     mkWorld
       ["Download/c.txt"; "Download/a.txt"]
       ["Download"; "Download"; "Download"]
       ["Found 3 files to download from 'bucket root'.";
        (PyStr.nl ++ "Directory download complete. "
           ++ "2 files succeeded, 1 files failed.")%string]
       ["An unexpected error occurred for 'b.txt': Forbidden"]
       [HeadObject "bucket" "a.txt" None;
        DownloadFile "bucket" "a.txt" None "Download/a.txt";
        HeadObject "bucket" "b.txt" None;
        DownloadFile "bucket" "b.txt" None "Download/b.txt";
        HeadObject "bucket" "c.txt" None;
        DownloadFile "bucket" "c.txt" None "Download/c.txt"]).
Proof. vm_compute. reflexivity. Qed.

(* ================================================================== *)
(** * Further properties of the resolution and selection loops *)
(* ================================================================== *)

(** A key is bound in the resolution state exactly when the listing has
    a candidate for it: an entry of that key not later than the target
    (and, in the script, a key that does not end in a separator). *)
Theorem retained_keys_are_the_candidate_keys :
  forall pages timestamp k,
    (PyDict.get k (S3Handler.latest_valid_versions pages timestamp) <> None
     <-> exists e,
         In e (listing_sequence pages) /\ Key e = k
         /\ LastModified e <= timestamp)
    /\ (PyDict.get k (Script.latest_versions_in_time pages timestamp) <> None
        <-> exists e,
            In e (listing_sequence pages) /\ Key e = k
            /\ LastModified e <= timestamp
            /\ PyStr.endswith_sep k = false).
Proof.
  intros pages timestamp k.
  rewrite handler_state_get, script_state_get. split; split.
  - intros H. destruct (winner timestamp k (listing_sequence pages))
      as [e|] eqn:W; [|congruence].
    apply winner_spec in W. destruct W as (Hin & Hk & He & _).
    exists e. auto.
  - intros (e & Hin & Hk & He). now apply (winner_complete _ _ _ None e).
  - intros H.
    destruct (winner timestamp k
                (filter is_file_entry (listing_sequence pages)))
      as [e|] eqn:W; [|congruence].
    apply winner_spec in W. destruct W as (Hin & Hk & He & _).
    apply filter_In in Hin. destruct Hin as [Hin Hfile].
    exists e. repeat split; auto.
    unfold is_file_entry in Hfile. apply negb_true_iff in Hfile. congruence.
  - intros (e & Hin & Hk & He & Hfile).
    apply (winner_complete _ _ _ None e); auto.
    apply filter_In. split; auto.
    unfold is_file_entry. rewrite Hk, Hfile. reflexivity.
Qed.

Lemma NoDup_map_fst_filter {V} (f : string * V -> bool) (d : PyDict.t V) :
  NoDup (PyDict.keys d) -> NoDup (map fst (filter f d)).
Proof.
  unfold PyDict.keys. induction d as [|kv d IH]; simpl; intros H.
  - constructor.
  - inversion H as [|? ? Hnot Hnd]; subst.
    destruct (f kv); simpl; auto. constructor; auto.
    intros Hin. apply Hnot. apply in_map_iff in Hin.
    destruct Hin as (x & Hx & Hin). apply filter_In in Hin.
    apply in_map_iff. exists x. tauto.
Qed.

Lemma select_versions_keys items : forall td td',
  Script.select_versions items td = inr td' ->
  NoDup (PyDict.keys td) -> NoDup (PyDict.keys td').
Proof.
  induction items as [|[k e] items IH]; intros td td' H Hnd; simpl in H.
  - now inversion H; subst.
  - destruct (has_Size e).
    + destruct (VersionId e) as [v|]; [|discriminate].
      apply (IH _ _ H). now apply NoDup_keys_set.
    + now apply (IH _ _ H).
Qed.

(** No key is downloaded twice: the keys of the download list of
    [list_object_versions_at_timestamp] are pairwise different, and so
    are the keys of [to_download]. *)
Theorem download_sets_hold_each_key_once :
  forall pages timestamp,
    NoDup (map Key
             (fst (S3Handler.list_object_versions_at_timestamp pages
                     timestamp)))
    /\ forall td,
        Script.to_download pages timestamp = inr td ->
        NoDup (PyDict.keys td).
Proof.
  intros pages timestamp. split.
  - unfold S3Handler.list_object_versions_at_timestamp.
    rewrite select_entries_eq. cbn [fst].
    destruct (handler_state_well_keyed pages timestamp) as [Hnd Hkey].
    rewrite map_map.
    rewrite (map_ext_in _ fst).
    + now apply NoDup_map_fst_filter.
    + intros [k e] Hin. apply filter_In in Hin. simpl.
      now apply Hkey.
  - intros td Htd. unfold Script.to_download in Htd.
    apply (select_versions_keys _ _ _ Htd). constructor.
Qed.





Lemma pick_le_monotone t t' k cur cur' e :
  t <= t' ->
  (forall c, cur = Some c ->
             exists c', cur' = Some c' /\ LastModified c <= LastModified c') ->
  forall c, pick t k cur e = Some c ->
    exists c', pick t' k cur' e = Some c'
               /\ LastModified c <= LastModified c'.
Proof.
  intros Hle Hcur c Hp.
  destruct (pick_cases t k cur e) as [(H1 & Hk & He & _)|(H1 & _)];
    destruct (pick_cases t' k cur' e) as [(H2 & _ & _ & Hlt)|(H2 & Hge)];
    rewrite H1 in Hp; rewrite H2.
  - inversion Hp; subst. exists c. split; auto. lia.
  - inversion Hp; subst. unfold eligible in *.
    destruct (Hge eq_refl ltac:(lia)) as (c' & Hc' & Hle').
    exists c'. auto.
  - destruct (Hcur _ Hp) as (c' & Hc' & Hle').
    exists e. split; auto. specialize (Hlt _ Hc'). lia.
  - now apply Hcur.
Qed.

Lemma winner_le_monotone t t' k l : forall cur cur',
  t <= t' ->
  (forall c, cur = Some c ->
             exists c', cur' = Some c' /\ LastModified c <= LastModified c') ->
  forall c, fold_left (pick t k) l cur = Some c ->
    exists c', fold_left (pick t' k) l cur' = Some c'
               /\ LastModified c <= LastModified c'.
Proof.
  induction l as [|e l IH]; intros cur cur' Hle Hcur c H; simpl in *.
  - now apply Hcur.
  - apply (IH (pick t k cur e) (pick t' k cur' e)); auto.
    intros c0. now apply pick_le_monotone.
Qed.

(** A later target keeps every key an earlier target keeps, with an
    entry that is not older. *)
Theorem later_target_keeps_the_keys :
  forall pages t t' k e,
    t <= t' ->
    (PyDict.get k (S3Handler.latest_valid_versions pages t) = Some e ->
     exists e',
       PyDict.get k (S3Handler.latest_valid_versions pages t') = Some e'
       /\ LastModified e <= LastModified e')
    /\ (PyDict.get k (Script.latest_versions_in_time pages t) = Some e ->
        exists e',
          PyDict.get k (Script.latest_versions_in_time pages t') = Some e'
          /\ LastModified e <= LastModified e').
Proof.
  intros pages t t' k e Hle. split; intros H.
  - rewrite handler_state_get in *. unfold winner in *.
    apply (winner_le_monotone t t' k _ None None Hle); auto. discriminate.
  - rewrite script_state_get in *. unfold winner in *.
    apply (winner_le_monotone t t' k _ None None Hle); auto. discriminate.
Qed.

(** The later target on a version and its later delete marker. *)
Lemma later_target_keeps_the_keys_witness :
  exists e',
    PyDict.get "doc.txt"
      (S3Handler.latest_valid_versions
         [mkVersionPage [old_version] [delete_marker]] 20) = Some e'
    /\ LastModified old_version <= LastModified e'.
Proof.
  apply (proj1 (later_target_keeps_the_keys
                  [mkVersionPage [old_version] [delete_marker]] 12 20
                  "doc.txt" old_version ltac:(lia))).
  reflexivity.
Defined.

Lemma sum_obj_sizes_lower_bound l :
  Z.of_nat (List.length (filter has_content l))
  <= sum_obj_sizes (filter has_content l).
Proof.
  induction l as [|o l IH]; cbn [filter]; [simpl; lia|].
  destruct (has_content o) eqn:E; auto.
  unfold has_content in E. apply Z.gtb_lt in E.
  cbn [List.length sum_obj_sizes fold_right].
  fold (sum_obj_sizes (filter has_content l)). lia.
Qed.

(** [list_objects_in_prefix] returns the listed objects of positive
    size in listing order; its total is at least the number of returned
    objects, so it is 0 exactly when nothing is returned. *)
Theorem list_objects_in_prefix_order_and_total :
  forall pages,
    fst (S3Handler.list_objects_in_prefix pages)
    = filter has_content (all_contents pages)
    /\ Z.of_nat (List.length (fst (S3Handler.list_objects_in_prefix pages)))
       <= snd (S3Handler.list_objects_in_prefix pages)
    /\ (snd (S3Handler.list_objects_in_prefix pages) = 0
        <-> fst (S3Handler.list_objects_in_prefix pages) = []).
Proof.
  intros pages. rewrite list_objects_in_prefix_eq. cbn [fst snd].
  pose proof (sum_obj_sizes_lower_bound (all_contents pages)) as Hle.
  split; [reflexivity|]. split; [exact Hle|]. split.
  - intros H0. rewrite H0 in Hle.
    destruct (filter has_content (all_contents pages)); auto.
    simpl in Hle. lia.
  - intros ->. reflexivity.
Qed.

Lemma all_keys_eq pages :
  Script.all_keys pages
  = map obj_Key
      (filter (fun obj => negb (PyStr.endswith_sep (obj_Key obj)))
         (all_contents pages)).
Proof.
  unfold Script.all_keys, all_contents.
  induction pages as [|p pages IH]; simpl; auto.
  rewrite IH, filter_app, map_app. now destruct (Contents p).
Qed.

(** The two directory listings differ only on empty objects and on keys
    that end in a separator: the script's [all_keys] are the listed keys
    that do not end in a separator, in listing order and whatever the
    size; a key [list_objects_in_prefix] returns is in [all_keys] unless
    it ends in a separator, and an object behind a key of [all_keys] is
    returned by [list_objects_in_prefix] unless its size is 0 or less. *)
Theorem directory_listings_of_the_two_clients :
  forall pages,
    Script.all_keys pages
    = map obj_Key
        (filter (fun obj => negb (PyStr.endswith_sep (obj_Key obj)))
           (all_contents pages))
    /\ (forall o,
           In o (fst (S3Handler.list_objects_in_prefix pages)) ->
           PyStr.endswith_sep (obj_Key o) = false ->
           In (obj_Key o) (Script.all_keys pages))
    /\ (forall k,
           In k (Script.all_keys pages) ->
           exists o,
             In o (all_contents pages) /\ obj_Key o = k
             /\ (0 < obj_Size o ->
                 In o (fst (S3Handler.list_objects_in_prefix pages)))).
Proof.
  intros pages. rewrite all_keys_eq, list_objects_in_prefix_eq. cbn [fst].
  split; [reflexivity|]. split.
  - intros o Hin Hfile. apply filter_In in Hin. destruct Hin as [Hin _].
    apply in_map. apply filter_In. split; auto. now rewrite Hfile.
  - intros k Hin. apply in_map_iff in Hin. destruct Hin as (o & Hk & Hin).
    apply filter_In in Hin. destruct Hin as [Hin _].
    exists o. repeat split; auto. intros Hpos.
    apply filter_In. split; auto. unfold has_content. now apply Z.gtb_lt.
Qed.

(* ================================================================== *)
(** * The path mapping on arbitrary keys and prefixes *)
(* ================================================================== *)

Section MappingFacts.
Import PyStr PosixPath.

Lemma kept_nonempty c : kept_component c = true -> c <> "".
Proof.
  unfold kept_component, truthy. rewrite andb_true_iff, negb_true_iff.
  intros [H _]. now apply String.eqb_neq.
Qed.

Lemma kept_sep_free c : kept_component c = true -> sep_free c = true.
Proof. unfold kept_component. rewrite andb_true_iff. tauto. Qed.

Lemma kept_startswith c : kept_component c = true -> startswith_sep c = false.
Proof.
  intros H. pose proof (kept_nonempty _ H) as Hne. apply kept_sep_free in H.
  destruct c as [|a c]; [congruence|]. simpl in *.
  apply andb_true_iff in H. now apply negb_true_iff.
Qed.

Lemma plain_forall_kept l :
  forallb plain_component l = true -> forallb kept_component l = true.
Proof.
  rewrite !forallb_forall. intros H c Hin. now apply plain_is_kept, H.
Qed.

Lemma endswith_sep_concat_kept comps :
  comps <> [] -> forallb kept_component comps = true ->
  endswith_sep (String.concat "/" comps) = false.
Proof.
  induction comps as [|x comps IH]; [congruence|]. intros _ H.
  simpl in H. apply andb_true_iff in H. destruct H as [Hx H].
  destruct comps as [|y comps].
  - simpl. now apply endswith_sep_free, kept_sep_free.
  - rewrite concat_cons.
    change (String sep (String.concat "/" (y :: comps)))
      with ("/" ++ String.concat "/" (y :: comps))%string.
    rewrite <- string_app_assoc, endswith_sep_app.
    + apply IH; auto. discriminate.
    + apply concat_nonempty. simpl in H. apply andb_true_iff in H.
      now apply kept_nonempty.
Qed.

Lemma join_kept acc b :
  acc <> [] -> forallb kept_component acc = true ->
  kept_component b = true ->
  join (String.concat "/" acc) b = String.concat "/" (acc ++ [b]).
Proof.
  intros Hne Hacc Hb. unfold join.
  rewrite (kept_startswith _ Hb), endswith_sep_concat_kept by assumption.
  destruct acc as [|x acc]; [congruence|].
  simpl in Hacc. apply andb_true_iff in Hacc. destruct Hacc as [Hx _].
  pose proof (concat_nonempty x acc (kept_nonempty _ Hx)) as Hc.
  apply String.eqb_neq in Hc. rewrite Hc. cbn [orb].
  now rewrite concat_snoc by discriminate.
Qed.

Lemma join_all_kept p : forall acc,
  acc <> [] -> forallb kept_component acc = true ->
  forallb kept_component p = true ->
  fold_left join p (String.concat "/" acc) = String.concat "/" (acc ++ p).
Proof.
  induction p as [|b p IH]; intros acc Hne Hacc Hp; simpl.
  - now rewrite app_nil_r.
  - simpl in Hp. apply andb_true_iff in Hp. destruct Hp as [Hb Hp].
    rewrite join_kept by assumption.
    rewrite IH; auto.
    + now rewrite <- app_assoc.
    + destruct acc; discriminate.
    + rewrite forallb_app, Hacc. simpl. now rewrite Hb.
Qed.

Lemma rel_list_kept P K :
  forallb kept_component K = true ->
  forallb kept_component (rel_list P K) = true.
Proof.
  intros H. unfold rel_list. rewrite forallb_app. apply andb_true_iff. split.
  - apply forallb_forall. intros c Hin. apply repeat_spec in Hin.
    subst c. reflexivity.
  - apply forallb_forall. intros c Hin.
    rewrite forallb_forall in H. apply H.
    rewrite <- (firstn_skipn (List.length (commonprefix P K)) K).
    apply in_or_app. now right.
Qed.

(** The last step of [relpath] spells [rel_text]. *)
Lemma relpath_result_text P K :
  forallb kept_component K = true ->
  match rel_list P K with
  | [] => @inr exn string "."
  | a :: p => inr (join_all a p)
  end = inr (rel_text P K).
Proof.
  intros H. pose proof (rel_list_kept P K H) as Hk. unfold rel_text.
  destruct (rel_list P K) as [|a p]; auto.
  f_equal. unfold join_all.
  simpl in Hk. apply andb_true_iff in Hk. destruct Hk as [Ha Hp].
  assert (Hone : forallb kept_component [a] = true)
    by (simpl; now rewrite Ha).
  exact (join_all_kept p [a] ltac:(discriminate) Hone Hp).
Qed.

Lemma plain_not_skipped l :
  forallb plain_component l = true -> filter not_skipped l = l.
Proof.
  intros H. apply forallb_filter_id. apply forallb_forall. intros c Hin.
  rewrite forallb_forall in H. specialize (H c Hin).
  unfold plain_component in H. unfold not_skipped.
  rewrite !andb_true_iff, !negb_true_iff in H.
  destruct H as [[[H1 H2] _] _]. now rewrite H1, H2.
Qed.

Lemma plain_not_dotdot l :
  forallb plain_component l = true -> forallb not_dotdot l = true.
Proof.
  rewrite !forallb_forall. intros H c Hin. specialize (H c Hin).
  unfold plain_component in H. unfold not_dotdot.
  rewrite !andb_true_iff in H. tauto.
Qed.

Lemma plain_all_sep_free l :
  forallb plain_component l = true ->
  Forall (fun c => sep_free c = true) l.
Proof.
  intros H. apply Forall_forall. intros c Hin.
  rewrite forallb_forall in H. now apply plain_sep_free, H.
Qed.

(** The components of a relative path spelled from directory names,
    with or without a trailing separator. *)
Lemma split_sep_spelled P :
  forallb plain_component P = true ->
  filter not_skipped (split_sep (String.concat "/" P)) = P
  /\ forallb not_dotdot (split_sep (String.concat "/" P)) = true
  /\ startswith_sep (String.concat "/" P) = false
  /\ filter not_skipped (split_sep (String.concat "/" P ++ "/")) = P
  /\ forallb not_dotdot (split_sep (String.concat "/" P ++ "/")) = true
  /\ (P <> [] -> startswith_sep (String.concat "/" P ++ "/") = false).
Proof.
  intros H. pose proof (plain_all_sep_free _ H) as Hsf.
  assert (Htrail : P <> [] ->
                   split_sep (String.concat "/" P ++ "/") = P ++ [""]).
  { intros Hne. rewrite <- concat_snoc by assumption.
    now rewrite split_sep_concat_snoc. }
  assert (Hstart : P <> [] -> startswith_sep (String.concat "/" P) = false).
  { intros Hne. destruct P as [|x P]; [congruence|].
    simpl in H. apply andb_true_iff in H. destruct H as [Hx _].
    pose proof (kept_startswith _ (plain_is_kept _ Hx)) as Hs.
    pose proof (plain_nonempty _ Hx) as Hnx.
    destruct x as [|a x]; [congruence|].
    destruct P; simpl in *; exact Hs. }
  destruct P as [|x P].
  - repeat split; try reflexivity. congruence.
  - rewrite Htrail, split_sep_concat by (auto; discriminate).
    rewrite filter_app, forallb_app, plain_not_skipped, plain_not_dotdot
      by assumption.
    cbn [filter not_skipped String.eqb orb negb app forallb not_dotdot andb].
    rewrite app_nil_r. repeat split; auto using plain_not_skipped.
    + apply Hstart. discriminate.
    + intros _. specialize (Hstart ltac:(discriminate)).
      destruct (String.concat "/" (x :: P)) eqn:E; [|exact Hstart].
      exfalso. revert E. apply concat_nonempty.
      simpl in H. apply andb_true_iff in H. now apply plain_nonempty.
Qed.

Lemma relpath_spelled comps P K start :
  forallb plain_component comps = true ->
  forallb plain_component P = true ->
  forallb plain_component K = true -> K <> [] ->
  start = String.concat "/" P
  \/ (P <> [] /\ start = (String.concat "/" P ++ "/")%string) ->
  relpath (cwd_of comps) (String.concat "/" K) start = inr (rel_text P K).
Proof.
  intros Hc HP HK Hne Hstart.
  destruct (split_sep_spelled K HK) as (HK1 & HK2 & HK3 & _).
  destruct (split_sep_spelled P HP) as (HP1 & HP2 & HP3 & HP4 & HP5 & HP6).
  assert (Ht : truthy (String.concat "/" K) = true).
  { destruct K as [|x K]; [congruence|]. unfold truthy.
    apply negb_true_iff, String.eqb_neq, concat_nonempty.
    simpl in HK. apply andb_true_iff in HK. now apply plain_nonempty. }
  destruct Hstart as [->|[HPne ->]].
  - rewrite relpath_no_dotdot by assumption. rewrite HP1, HK1.
    apply relpath_result_text. now apply plain_forall_kept.
  - rewrite relpath_no_dotdot by auto. rewrite HP4, HK1.
    apply relpath_result_text. now apply plain_forall_kept.
Qed.

Lemma rel_list_under P R : rel_list P (P ++ R) = R.
Proof.
  rewrite <- (app_nil_r P) at 1. rewrite rel_list_common_base.
  reflexivity.
Qed.

Lemma rel_text_under P R : R <> [] -> rel_text P (P ++ R) = String.concat "/" R.
Proof.
  intros H. unfold rel_text. rewrite rel_list_under.
  destruct R; [congruence | reflexivity].
Qed.

Lemma commonprefix_length_le P K :
  (List.length (commonprefix P K) <= List.length P)%nat.
Proof.
  revert K. induction P as [|x P IH]; intros [|y K]; simpl; try lia.
  destruct (String.eqb x y); simpl; [specialize (IH K)|]; lia.
Qed.

Lemma commonprefix_full P K :
  List.length (commonprefix P K) = List.length P ->
  exists R, K = P ++ R.
Proof.
  revert K. induction P as [|x P IH]; intros K H.
  - now exists K.
  - destruct K as [|y K]; [discriminate|]. simpl in H.
    destruct (String.eqb x y) eqn:E; [|discriminate].
    apply String.eqb_eq in E. subst y. simpl in H.
    destruct (IH K ltac:(lia)) as (R & ->). now exists R.
Qed.

(** ** [dirname] of a spelled prefix *)

Lemma head_to_last_sep_free c : sep_free c = true -> head_to_last_sep c = "".
Proof.
  induction c as [|a c IH]; auto. simpl.
  rewrite andb_true_iff, negb_true_iff. intros [Ha Hc].
  now rewrite IH, Ha.
Qed.

Lemma head_to_last_sep_app a c :
  sep_free c = true ->
  head_to_last_sep (a ++ String sep c) = (a ++ "/")%string.
Proof.
  intros Hc. induction a as [|x a IH].
  - simpl. now rewrite head_to_last_sep_free.
  - change (String x a ++ String sep c)%string
      with (String x (a ++ String sep c)).
    cbn [head_to_last_sep]. rewrite IH.
    replace (truthy (a ++ "/")) with true.
    + now rewrite orb_true_r.
    + destruct a; reflexivity.
Qed.

Lemma rstrip_sep_cons x r :
  rstrip_sep (String x r)
  = if Ascii.eqb x sep && String.eqb (rstrip_sep r) ""
    then "" else String x (rstrip_sep r).
Proof. reflexivity. Qed.

Lemma rstrip_sep_id s : endswith_sep s = false -> rstrip_sep s = s.
Proof.
  induction s as [|x r IH]; auto. intros H.
  rewrite rstrip_sep_cons. destruct r as [|y r].
  - simpl in *. now rewrite H.
  - rewrite endswith_sep_cons in H by discriminate.
    rewrite (IH H). cbn [String.eqb]. now rewrite andb_false_r.
Qed.

Lemma rstrip_sep_trailing a :
  a <> "" -> endswith_sep a = false -> rstrip_sep (a ++ "/") = a.
Proof.
  induction a as [|x r IH]; [congruence|]. intros _ H.
  change (String x r ++ "/")%string with (String x (r ++ "/")).
  rewrite rstrip_sep_cons. destruct r as [|y r].
  - simpl in *. now rewrite H.
  - rewrite endswith_sep_cons in H by discriminate.
    rewrite IH by (auto; discriminate).
    cbn [String.eqb]. now rewrite andb_false_r.
Qed.

Lemma dirname_spelled Q c :
  forallb plain_component Q = true -> plain_component c = true ->
  dirname (String.concat "/" (Q ++ [c])) = String.concat "/" Q.
Proof.
  intros HQ Hc. apply plain_sep_free in Hc. unfold dirname.
  destruct Q as [|x Q].
  - simpl. now rewrite head_to_last_sep_free.
  - rewrite concat_snoc, head_to_last_sep_app by (auto; discriminate).
    pose proof (endswith_sep_concat (x :: Q) ltac:(discriminate) HQ) as He.
    simpl in HQ. apply andb_true_iff in HQ. destruct HQ as [Hx _].
    pose proof (concat_nonempty x Q (plain_nonempty _ Hx)) as Hne.
    pose proof (kept_startswith _ (plain_is_kept _ Hx)) as Hs.
    assert (Hfirst : startswith_sep (String.concat "/" (x :: Q)) = false).
    { pose proof (plain_nonempty _ Hx) as Hnx.
      destruct x as [|a x]; [congruence|]. destruct Q; exact Hs. }
    destruct (String.concat "/" (x :: Q)) as [|a s] eqn:E; [congruence|].
    simpl in Hfirst.
    change (String a s ++ "/")%string with (String a (s ++ "/")).
    cbn [truthy String.eqb negb all_sep andb]. rewrite Hfirst.
    cbn [andb negb].
    change (String a (s ++ "/")) with (String a s ++ "/")%string.
    apply rstrip_sep_trailing; auto.
Qed.

Lemma prefix_dir_spelled Q c :
  forallb plain_component Q = true -> plain_component c = true ->
  PathMapper.prefix_dir (String.concat "/" (Q ++ [c])) = String.concat "/" Q.
Proof.
  intros HQ Hc. unfold PathMapper.prefix_dir.
  assert (HP : forallb plain_component (Q ++ [c]) = true).
  { rewrite forallb_app, HQ. simpl. now rewrite Hc. }
  pose proof (endswith_sep_concat (Q ++ [c])
                ltac:(destruct Q; discriminate) HP) as He.
  rewrite He, rstrip_sep_id by assumption.
  replace (truthy (String.concat "/" (Q ++ [c]))) with true.
  - cbn [andb negb]. now apply dirname_spelled.
  - symmetry. unfold truthy. apply negb_true_iff, String.eqb_neq.
    destruct Q as [|x Q].
    + simpl. now apply plain_nonempty.
    + apply concat_nonempty. simpl in HQ. apply andb_true_iff in HQ.
      now apply plain_nonempty.
Qed.

Lemma prefix_dir_trailing P :
  P <> [] -> forallb plain_component P = true ->
  PathMapper.prefix_dir (String.concat "/" P ++ "/")
  = (String.concat "/" P ++ "/")%string.
Proof.
  intros Hne HP. unfold PathMapper.prefix_dir.
  rewrite endswith_sep_app by discriminate.
  cbn [endswith_sep]. now rewrite andb_false_r.
Qed.

End MappingFacts.


(** The script's mapping, for a key below the prefix: when the prefix
    spells the directory names [P] (with or without a trailing
    separator) and the key spells [P] followed by the names [R], the
    local path is [dest_dir] joined with the names [R], in every working
    directory. *)
Theorem script_mapping_below_prefix :
  forall comps P R dest_dir,
    forallb plain_component comps = true ->
    forallb plain_component P = true ->
    forallb plain_component R = true -> R <> [] ->
    PathMapper.script_local_path (cwd_of comps) dest_dir
      (String.concat "/" P) (String.concat "/" (P ++ R))
    = inr (PosixPath.join dest_dir (String.concat "/" R))
    /\ (P <> [] ->
        PathMapper.script_local_path (cwd_of comps) dest_dir
          (String.concat "/" P ++ "/") (String.concat "/" (P ++ R))
        = inr (PosixPath.join dest_dir (String.concat "/" R))).
Proof.
  intros comps P R dest_dir Hc HP HR Hne.
  assert (HK : forallb plain_component (P ++ R) = true)
    by now rewrite forallb_app, HP, HR.
  assert (HKne : P ++ R <> []) by (destruct P; [exact Hne | discriminate]).
  unfold PathMapper.script_local_path. split; [|intros HPne].
  - rewrite (relpath_spelled comps P) by auto.
    now rewrite rel_text_under.
  - rewrite (relpath_spelled comps P) by auto.
    now rewrite rel_text_under.
Qed.

(** The script's mapping of [img/2024/a.png] under the prefix [img]. *)
Lemma script_mapping_below_prefix_witness :
  PathMapper.script_local_path "/srv/work" "Download" "img" "img/2024/a.png"
  = inr "Download/2024/a.png".
Proof.
  apply (proj1 (script_mapping_below_prefix ["srv"; "work"] ["img"]
                  ["2024"; "a.png"] "Download" eq_refl eq_refl eq_refl
                  ltac:(discriminate))).
Defined.

(** The script's mapping, for a key beside the prefix: the storage
    matches a prefix character by character, so the prefix [a/b] also
    lists [a/bc/x.txt]; when the names of the key do not start with all
    the names of the prefix, the relative path starts with [..], and the
    local path is [dest_dir] joined with a path that climbs out of it. *)
Theorem script_mapping_beside_prefix :
  forall comps P K dest_dir,
    forallb plain_component comps = true ->
    forallb plain_component P = true ->
    forallb plain_component K = true -> K <> [] ->
    (List.length (PosixPath.commonprefix P K) < List.length P)%nat ->
    exists rest,
      PosixPath.rel_list P K = ".." :: rest
      /\ PathMapper.script_local_path (cwd_of comps) dest_dir
           (String.concat "/" P) (String.concat "/" K)
         = inr (PosixPath.join dest_dir (String.concat "/" (".." :: rest))).
Proof.
  intros comps P K dest_dir Hc HP HK Hne Hlt.
  unfold PathMapper.script_local_path.
  rewrite (relpath_spelled comps P) by auto.
  unfold rel_text, PosixPath.rel_list.
  destruct (List.length P - List.length (PosixPath.commonprefix P K))%nat
    as [|n] eqn:E; [lia|].
  cbn [repeat app]. eexists. split; reflexivity.
Qed.

(** The script's mapping of [a/bc/x.txt] under the prefix [a/b]. *)
Lemma script_mapping_beside_prefix_witness :
  exists rest,
    PosixPath.rel_list ["a"; "b"] ["a"; "bc"; "x.txt"] = ".." :: rest
    /\ PathMapper.script_local_path "/srv/work" "Download" "a/b" "a/bc/x.txt"
       = inr (PosixPath.join "Download" (String.concat "/" (".." :: rest))).
Proof.
  apply (script_mapping_beside_prefix ["srv"; "work"] ["a"; "b"]
           ["a"; "bc"; "x.txt"] "Download" eq_refl eq_refl eq_refl
           ltac:(discriminate)).
  simpl. lia.
Defined.

(** The mapping of [download_objects]: for a prefix without trailing
    separator that spells the names [Q] and a last name [c], the base is
    the directory [Q], so a key that spells [Q] followed by the names
    [R] goes to [destination_dir] joined with [R]: below the prefix the
    last name of the prefix is kept, and a key beside the prefix stays
    inside the destination; for a prefix with a trailing separator and
    for the empty prefix the base is the prefix itself. *)
Theorem handler_mapping_relative_to_parent :
  forall comps Q c R destination_dir,
    forallb plain_component comps = true ->
    forallb plain_component Q = true ->
    plain_component c = true ->
    forallb plain_component R = true -> R <> [] ->
    PathMapper.handler_destination_path (cwd_of comps) destination_dir
      (String.concat "/" (Q ++ [c])) (String.concat "/" (Q ++ R))
    = inr (PosixPath.join destination_dir (String.concat "/" R))
    /\ PathMapper.handler_destination_path (cwd_of comps) destination_dir
         (String.concat "/" (Q ++ [c]) ++ "/")
         (String.concat "/" ((Q ++ [c]) ++ R))
       = inr (PosixPath.join destination_dir (String.concat "/" R))
    /\ PathMapper.handler_destination_path (cwd_of comps) destination_dir
         "" (String.concat "/" R)
       = inr (PosixPath.join destination_dir (String.concat "/" R)).
Proof.
  intros comps Q c R destination_dir Hc HQ Hcc HR Hne.
  assert (HP : forallb plain_component (Q ++ [c]) = true).
  { rewrite forallb_app, HQ. simpl. now rewrite Hcc. }
  assert (HPne : Q ++ [c] <> []) by (destruct Q; discriminate).
  unfold PathMapper.handler_destination_path.
  split; [|split].
  - rewrite prefix_dir_spelled by assumption.
    replace (if PyStr.truthy (String.concat "/" Q)
             then String.concat "/" Q else "")
      with (String.concat "/" Q).
    + rewrite (relpath_spelled comps Q); auto.
      * now rewrite rel_text_under.
      * now rewrite forallb_app, HQ, HR.
      * destruct Q; [exact Hne | discriminate].
    + unfold PyStr.truthy.
      destruct (String.eqb_spec (String.concat "/" Q) ""); simpl; auto.
  - rewrite prefix_dir_trailing by assumption.
    replace (PyStr.truthy (String.concat "/" (Q ++ [c]) ++ "/")) with true.
    + rewrite (relpath_spelled comps (Q ++ [c])); auto.
      * now rewrite rel_text_under.
      * now rewrite forallb_app, HP, HR.
      * destruct Q; discriminate.
    + destruct (String.concat "/" (Q ++ [c])); reflexivity.
  - change (PathMapper.prefix_dir "") with "".
    cbn [PyStr.truthy String.eqb negb].
    rewrite (relpath_spelled comps []); auto.
    now rewrite <- (rel_text_under [] R Hne).
Qed.

(** [download_objects] on the keys [a/b/c/d.txt] and [a/bc/x.txt] under
    the prefix [a/b]. *)
Lemma handler_mapping_relative_to_parent_witness :
  PathMapper.handler_destination_path "/srv/work" "Download" "a/b"
    "a/b/c/d.txt" = inr "Download/b/c/d.txt"
  /\ PathMapper.handler_destination_path "/srv/work" "Download" "a/b"
       "a/bc/x.txt" = inr "Download/bc/x.txt".
Proof.
  split.
  - apply (proj1 (handler_mapping_relative_to_parent ["srv"; "work"] ["a"]
                    "b" ["b"; "c"; "d.txt"] "Download" eq_refl eq_refl
                    eq_refl eq_refl ltac:(discriminate))).
  - apply (proj1 (handler_mapping_relative_to_parent ["srv"; "work"] ["a"]
                    "b" ["bc"; "x.txt"] "Download" eq_refl eq_refl
                    eq_refl eq_refl ltac:(discriminate))).
Defined.


(** On a listing without keys that end in a separator the two clients
    resolve alike: the state of [download_versioned] is the state of
    [list_object_versions_at_timestamp], every entry of the handler's
    download list is in [to_download] under its version, and an entry
    behind [to_download] is in the handler's list unless its size is 0. *)
Theorem versioned_download_sets_of_the_two_clients :
  forall pages timestamp,
    (forall e, In e (listing_sequence pages) ->
               PyStr.endswith_sep (Key e) = false) ->
    Script.latest_versions_in_time pages timestamp
    = S3Handler.latest_valid_versions pages timestamp
    /\ forall td,
        Script.to_download pages timestamp = inr td ->
        (forall e,
            In e (fst (S3Handler.list_object_versions_at_timestamp pages
                         timestamp)) ->
            PyDict.get (Key e) td = VersionId e)
        /\ (forall k v,
               PyDict.get k td = Some v ->
               exists e,
                 PyDict.get k
                   (S3Handler.latest_valid_versions pages timestamp)
                 = Some e
                 /\ VersionId e = Some v
                 /\ (0 < get_Size e 0 ->
                     In e (fst (S3Handler.list_object_versions_at_timestamp
                                  pages timestamp)))).
Proof.
  intros pages timestamp Hfiles.
  assert (Hstate : Script.latest_versions_in_time pages timestamp
                   = S3Handler.latest_valid_versions pages timestamp).
  { unfold Script.latest_versions_in_time, S3Handler.latest_valid_versions.
    rewrite script_all_entries, script_resolve_all,
      handler_pages_as_sequence.
    rewrite forallb_filter_id; auto.
    apply forallb_forall. intros e Hin. unfold is_file_entry.
    now rewrite (Hfiles e Hin). }
  split; auto. intros td Htd. split.
  - intros e Hin. apply handler_listed in Hin.
    destruct Hin as (Hget & Hv & Hpos).
    unfold has_VersionId in Hv. destruct (VersionId e) as [v|] eqn:E;
      [|discriminate].
    apply (script_download_set _ _ _ Htd). exists e.
    rewrite Hstate. repeat split; auto.
    unfold get_Size in Hpos. destruct (Size e); [discriminate | lia].
  - intros k v Hget. apply (script_download_set _ _ _ Htd) in Hget.
    destruct Hget as (e & Hget & Hs & Hv). rewrite Hstate in Hget.
    exists e. repeat split; auto. intros Hpos.
    apply (handler_lists _ _ k); auto; [|lia].
    unfold has_VersionId. now rewrite Hv.
Qed.

(** The two clients on a version with content and an empty version. *)
Lemma versioned_download_sets_of_the_two_clients_witness :
  Script.latest_versions_in_time
    [mkVersionPage [old_version; empty_version] []] 20
  = S3Handler.latest_valid_versions
      [mkVersionPage [old_version; empty_version] []] 20.
Proof.
  apply (proj1 (versioned_download_sets_of_the_two_clients
                  [mkVersionPage [old_version; empty_version] []] 20
                  ltac:(intros e [<-|[<-|[]]]; reflexivity))).
Defined.


(* ================================================================== *)
(** * Further properties of the batch loops *)
(* ================================================================== *)

(** The loop of [download_dir] on any number of keys: when every local
    path is defined, every directory can be created and no transfer
    fails with anything but an [Exception], the loop visits every key,
    sends its head request, writes the local file of every key whose
    head request and transfer succeed, and ends with the line that
    gives the number of those keys as succeeded and the number of the
    other keys as failed; the two numbers add up to the number of
    keys. *)
Theorem download_dir_batch_counts_every_key :
  forall env bucket source_prefix dest_dir all_keys paths w,
    Forall2 (script_target_ready env bucket source_prefix dest_dir)
      paths (map (fun key => (key, @None string)) all_keys) ->
    let targets :=
      combine paths (map (fun key => (key, @None string)) all_keys) in
    exists w',
      ScriptIO.download_dir_batch env bucket source_prefix dest_dir
        all_keys w = (inr tt, w')
      /\ stdout w'
         = stdout w
             ++ [(PyStr.nl ++ "Directory download complete. "
                    ++ PyStr.str_of_nat (successes env bucket targets)
                    ++ " files succeeded, "
                    ++ PyStr.str_of_nat (failures env bucket targets)
                    ++ " files failed.")%string]
      /\ successes env bucket targets
         = List.length
             (filter (fun pt => transfer_ok env bucket (fst (snd pt)) None
                                  (fst pt)) targets)
      /\ (successes env bucket targets + failures env bucket targets
          = List.length all_keys)%nat
      /\ (forall key, In key all_keys ->
            In (HeadObject bucket key None) (sdk_log w'))
      /\ (forall p key,
            In (p, (key, None)) targets ->
            transfer_ok env bucket key None p = true -> In p (files w')).
Proof.
  intros env bucket source_prefix dest_dir all_keys paths w Hready targets.
  destruct (download_each_visits_all env bucket source_prefix dest_dir
              _ _ Hready 0%nat 0%nat w)
    as (w1 & Hrun & Hout & _ & _ & Hall & Hnew).
  fold targets in Hrun, Hnew.
  unfold ScriptIO.download_dir_batch, Eff.bind. rewrite Hrun.
  eexists. split; [reflexivity|].
  cbn [fst snd stdout sdk_log files Nat.add].
  split; [now rewrite Hout|].
  split.
  { unfold successes. f_equal. apply filter_ext_in.
    intros [p [key version]] Hin. unfold target_ok. cbn [fst snd].
    subst targets. apply in_combine_r in Hin. apply in_map_iff in Hin.
    destruct Hin as (key' & Heq & _). inversion Heq. reflexivity. }
  split.
  { rewrite successes_failures. subst targets.
    apply Forall2_length in Hready.
    rewrite length_combine, Hready, length_map. lia. }
  split.
  - intros key Hin.
    apply (Hall (key, None)). apply in_map_iff. eauto.
  - intros p key Hin Hok. apply (Hnew p (key, None) Hin). exact Hok.
Qed.

(** [download_dir] on the bucket whose second transfer is refused: two
    of the three keys succeed. *)
Lemma download_dir_batch_counts_every_key_witness :
  exists w',
    ScriptIO.download_dir_batch second_fails "bucket" "" "Download"
      ["a.txt"; "b.txt"; "c.txt"] initial_world = (inr tt, w')
    /\ stdout w'
       = [(PyStr.nl ++ "Directory download complete. "
             ++ "2 files succeeded, 1 files failed.")%string]
    /\ In "Download/a.txt" (files w')
    /\ In "Download/c.txt" (files w').
Proof.
  destruct (download_dir_batch_counts_every_key second_fails "bucket" ""
              "Download" ["a.txt"; "b.txt"; "c.txt"]
              ["Download/a.txt"; "Download/b.txt"; "Download/c.txt"]
              initial_world)
    as (w' & Hrun & Hout & _ & _ & _ & Hfiles).
  - repeat constructor; try (intros _; reflexivity);
      intros e He; vm_compute in He; inversion He; reflexivity.
  - exists w'. split; [exact Hrun|]. split; [exact Hout|]. split.
    + apply (Hfiles "Download/a.txt" "a.txt"); [left|]; reflexivity.
    + apply (Hfiles "Download/c.txt" "c.txt");
        [right; right; left|]; reflexivity.
Defined.

Section HandlerBatchFacts.
Import Eff.
Variable env : environment.
Variables bucket destination_dir source_prefix : string.

Lemma download_object_recoverable p obj w :
  handler_target_ready env destination_dir source_prefix p obj ->
  handler_transfer_recoverable env bucket (p, obj) ->
  exists w',
    S3HandlerIO.download_object env bucket destination_dir source_prefix
      obj w = (inr tt, w')
    /\ sdk_log w' = sdk_log w ++ [handler_request bucket (p, obj)]
    /\ stderr w' = stderr w
    /\ (forall x, In x (files w') -> x = p \/ In x (files w)).
Proof.
  intros Hready [Hok|(code & Herr)]; cbn [fst snd] in *.
  - rewrite (download_object_success env bucket destination_dir
               source_prefix p obj w Hready Hok).
    eexists. split; [reflexivity|]. simpl. repeat split; auto.
    intros x [<-|Hx]; auto.
  - rewrite (download_object_client_error env bucket destination_dir
               source_prefix p obj code w Hready Herr).
    eexists. split; [reflexivity|]. simpl. repeat split; auto.
Qed.

Lemma download_objects_recoverable paths objs :
  Forall2 (handler_target_ready env destination_dir source_prefix)
    paths objs ->
  Forall (handler_transfer_recoverable env bucket) (combine paths objs) ->
  forall w,
  exists w',
    S3HandlerIO.download_objects env bucket destination_dir source_prefix
      objs w = (inr tt, w')
    /\ sdk_log w'
       = sdk_log w ++ map (handler_request bucket) (combine paths objs)
    /\ stderr w' = stderr w
    /\ (forall x, In x (files w') -> In x paths \/ In x (files w)).
Proof.
  induction 1 as [|p obj paths objs Hready Hrest IH]; intros Hrec w.
  - exists w. simpl. rewrite app_nil_r. auto.
  - cbn [combine] in Hrec. inversion Hrec as [|? ? Hone Hothers]; subst.
    destruct (download_object_recoverable p obj w Hready Hone)
      as (w1 & Hrun & Hlog & Herr & Hfiles).
    destruct (IH Hothers w1) as (w' & Hrun' & Hlog' & Herr' & Hfiles').
    cbn [S3HandlerIO.download_objects]. unfold bind.
    rewrite Hrun, Hrun'. exists w'. split; [reflexivity|].
    cbn [combine map]. rewrite Hlog', Hlog, <- app_assoc.
    repeat split; auto; [congruence|].
    intros x Hx. destruct (Hfiles' x Hx) as [Hin|Hin]; simpl; auto.
    destruct (Hfiles x Hin); auto.
Qed.

Lemma download_objects_app objs1 : forall objs2 w,
  S3HandlerIO.download_objects env bucket destination_dir source_prefix
    (objs1 ++ objs2) w
  = match S3HandlerIO.download_objects env bucket destination_dir
            source_prefix objs1 w with
    | (inr _, w1) =>
        S3HandlerIO.download_objects env bucket destination_dir
          source_prefix objs2 w1
    | (inl e, w1) => (inl e, w1)
    end.
Proof.
  induction objs1 as [|obj objs1 IH]; intros objs2 w; auto.
  cbn [app S3HandlerIO.download_objects]. unfold bind.
  destruct (S3HandlerIO.download_object env bucket destination_dir
              source_prefix obj w) as [[e|[]] w1]; auto.
Qed.

End HandlerBatchFacts.

(** [download_objects] on any number of objects: when every destination
    is defined, every directory can be created and every transfer
    succeeds or fails with a [ClientError], the loop returns normally
    and has requested the transfer of every object, in the order of the
    list; nothing is written to standard error and only destinations of
    the list are new files. *)
Theorem download_objects_requests_every_object :
  forall env bucket destination_dir source_prefix paths object_list w,
    Forall2 (handler_target_ready env destination_dir source_prefix)
      paths object_list ->
    Forall (handler_transfer_recoverable env bucket)
      (combine paths object_list) ->
    exists w',
      S3HandlerIO.download_objects env bucket destination_dir source_prefix
        object_list w = (inr tt, w')
      /\ sdk_log w'
         = sdk_log w
             ++ map (handler_request bucket) (combine paths object_list)
      /\ stderr w' = stderr w
      /\ (forall x, In x (files w') -> In x paths \/ In x (files w)).
Proof.
  intros. now apply download_objects_recoverable.
Qed.

(** [download_objects] on the bucket whose second transfer is refused. *)
Lemma download_objects_requests_every_object_witness :
  exists w',
    S3HandlerIO.download_objects second_fails "bucket" "/srv/work/Download"
      "" [("a.txt", None); ("b.txt", None)] initial_world = (inr tt, w')
    /\ sdk_log w'
       = sdk_log initial_world
           ++ map (handler_request "bucket")
                (combine ["/srv/work/Download/a.txt";
                          "/srv/work/Download/b.txt"]
                   [("a.txt", None); ("b.txt", None)])
    /\ stderr w' = stderr initial_world
    /\ (forall x, In x (files w') ->
          In x ["/srv/work/Download/a.txt"; "/srv/work/Download/b.txt"]
          \/ In x (files initial_world)).
Proof.
  apply (download_objects_requests_every_object second_fails "bucket"
           "/srv/work/Download" ""
           ["/srv/work/Download/a.txt"; "/srv/work/Download/b.txt"]
           [("a.txt", None); ("b.txt", None)] initial_world).
  - repeat constructor; discriminate.
  - constructor; [left; reflexivity|].
    constructor; [right; exists "403"; reflexivity | constructor].
Defined.

(** [download_objects] stops at the first transfer that fails with
    anything but a [ClientError]: the exception leaves the loop, and no
    transfer is requested for the objects after it. *)
Theorem download_objects_stops_at_other_exception :
  forall env bucket destination_dir source_prefix paths done p obj rest e w,
    Forall2 (handler_target_ready env destination_dir source_prefix)
      paths done ->
    Forall (handler_transfer_recoverable env bucket) (combine paths done) ->
    handler_target_ready env destination_dir source_prefix p obj ->
    sdk_download_file env bucket (fst obj) (snd obj) p = Some e ->
    (forall code, e <> ClientError code) ->
    exists w',
      S3HandlerIO.download_objects env bucket destination_dir source_prefix
        (done ++ obj :: rest) w = (inl e, w')
      /\ sdk_log w'
         = sdk_log w
             ++ map (handler_request bucket) (combine paths done)
             ++ [handler_request bucket (p, obj)].
Proof.
  intros env bucket destination_dir source_prefix paths done p obj rest e w
    Hready Hrec Hobj Hget Hother.
  destruct (download_objects_recoverable env bucket destination_dir
              source_prefix paths done Hready Hrec w)
    as (w1 & Hrun & Hlog & _).
  rewrite download_objects_app, Hrun.
  rewrite (download_objects_other_exception env bucket destination_dir
             source_prefix p obj rest e w1 Hobj Hget Hother).
  eexists. split; [reflexivity|]. cbn [sdk_log].
  now rewrite Hlog, <- app_assoc.
Qed.


(** [download_objects] on the bucket whose second transfer cannot be
    written: the third object is never requested. *)
Lemma download_objects_stops_at_other_exception_witness :
  exists w',
    S3HandlerIO.download_objects second_unwritable "bucket"
      "/srv/work/Download" ""
      ([("a.txt", None)] ++ ("b.txt", None) :: [("c.txt", None)])
      initial_world = (inl PermissionError, w')
    /\ sdk_log w'
       = sdk_log initial_world
           ++ map (handler_request "bucket")
                (combine ["/srv/work/Download/a.txt"] [("a.txt", None)])
           ++ [handler_request "bucket"
                 ("/srv/work/Download/b.txt", ("b.txt", None))].
Proof.
  apply (download_objects_stops_at_other_exception second_unwritable
           "bucket" "/srv/work/Download" "" ["/srv/work/Download/a.txt"]
           [("a.txt", None)] "/srv/work/Download/b.txt" ("b.txt", None)
           [("c.txt", None)] PermissionError initial_world).
  - repeat constructor; discriminate.
  - constructor; [left; reflexivity | constructor].
  - repeat constructor; discriminate.
  - reflexivity.
  - discriminate.
Defined.

(* ================================================================== *)
(** * Listing errors, bad dates and empty listings *)
(* ================================================================== *)

(** A [ClientError] of the listing ends the three batch flows
    differently: the script's [download_dir] prints the error and
    returns, so the process exits with status 0; the package's [main]
    prints it and exits with status 1. *)
Theorem directory_listing_error_in_each_client :
  forall env bucket source destination code w,
    list_objects_v2 env bucket source = inl (ClientError code) ->
    ScriptIO.main env bucket (download_dir_cmd source destination) w
    = (inr tt,
       mkWorld (files w) (dirs w) (stdout w)
         (stderr w
            ++ [("Error listing files in '" ++ source ++ "': "
                   ++ exn_text env (ClientError code))%string])
         (sdk_log w))
    /\ PackageMain.main env bucket (download_dir_cmd source destination) w
       = (inl (SystemExit 1),
          mkWorld (files w) (dirs w)
            (stdout w
               ++ [("Analyzing files in '"
                      ++ PackageMain.bucket_root_or source ++ "'...")%string])
            (stderr w
               ++ [(PyStr.nl ++ "ERROR: "
                      ++ exn_text env (ClientError code))%string])
            (sdk_log w)).
Proof.
  intros env bucket source destination code w Hlist. split.
  - unfold ScriptIO.main, ScriptIO.execute, ScriptIO.download_dir,
      Eff.try_except.
    rewrite Hlist. reflexivity.
  - unfold PackageMain.main, PackageMain.execute, PackageMain.run_batch,
      PackageMain.list_batch, Eff.try_except, Eff.bind, Eff.print, Eff.lift.
    rewrite Hlist. reflexivity.
Qed.

(** The two clients on the bucket that refuses to be listed. *)
Lemma directory_listing_error_in_each_client_witness :
  Eff.exit_status
    (fst (ScriptIO.main access_denied "bucket" (download_dir_cmd "docs" None)
            initial_world)) = 0
  /\ Eff.exit_status
       (fst (PackageMain.main access_denied "bucket"
               (download_dir_cmd "docs" None) initial_world)) = 1.
Proof.
  destruct (directory_listing_error_in_each_client access_denied "bucket"
              "docs" None "AccessDenied" initial_world eq_refl) as [Hs Hp].
  rewrite Hs, Hp. split; reflexivity.
Defined.

(** A [ClientError] of the version listing is fatal in
    [download_versioned]: the process exits with status 1 after one line
    on standard error, which blames missing versioning when the code is
    [InvalidRequest]; nothing is requested or written. *)
Theorem version_listing_error_is_fatal :
  forall env bucket timestamp source destination code y m d w,
    strptime env timestamp = Some (y, m, d) ->
    list_object_versions env bucket source = inl (ClientError code) ->
    ScriptIO.main env bucket
      (download_versioned_cmd timestamp source destination) w
    = (inl (SystemExit 1),
       mkWorld (files w) (dirs w)
         (stdout w
            ++ [("Fetching versions as of end-of-day "
                   ++ Datetime.isoformat_date y m d ++ " UTC...")%string])
         (stderr w
            ++ [if String.eqb code "InvalidRequest"
                then ("Error: Bucket '" ++ bucket
                        ++ "' may not have versioning enabled, which is required for this command.")%string
                else ("Error listing object versions: "
                        ++ exn_text env (ClientError code))%string])
         (sdk_log w)).
Proof.
  intros env bucket timestamp source destination code y m d w Hdate Hlist.
  unfold ScriptIO.main, ScriptIO.execute, ScriptIO.download_versioned,
    Eff.try_except.
  rewrite Hdate. unfold Eff.bind at 1, Eff.print at 1.
  rewrite Hlist.
  destruct (String.eqb code "InvalidRequest"); reflexivity.
Qed.

(** [download_versioned] on the bucket without versioning. *)
Lemma version_listing_error_is_fatal_witness :
  Eff.exit_status
    (fst (ScriptIO.main access_denied "bucket"
            (download_versioned_cmd "20240601" "docs" None) initial_world))
  = 1.
Proof.
  rewrite (version_listing_error_is_fatal access_denied "bucket" "20240601"
             "docs" None "InvalidRequest" 2024 6 1 initial_world
             eq_refl eq_refl).
  reflexivity.
Defined.

(** A timestamp that [strptime] rejects is fatal in both clients before
    any listing: the script prints its message and exits with status 1,
    the package raises [ValueError], which its [main] prints before it
    exits with status 1; nothing is requested or written. *)
Theorem invalid_timestamp_is_fatal :
  forall env bucket timestamp source destination w,
    strptime env timestamp = None ->
    ScriptIO.main env bucket
      (download_versioned_cmd timestamp source destination) w
    = (inl (SystemExit 1),
       mkWorld (files w) (dirs w) (stdout w)
         (stderr w
            ++ [("Error: Invalid timestamp format '" ++ timestamp
                   ++ "'. Please use YYYYMMDD.")%string])
         (sdk_log w))
    /\ PackageMain.main env bucket
         (download_versioned_cmd timestamp source destination) w
       = (inl (SystemExit 1),
          mkWorld (files w) (dirs w)
            (stdout w
               ++ [("Analyzing files in '"
                      ++ PackageMain.bucket_root_or source ++ "'...")%string])
            (stderr w
               ++ [(PyStr.nl
                      ++ "ERROR: Invalid timestamp format. Please use YYYYMMDD.")
                     %string])
            (sdk_log w)).
Proof.
  intros env bucket timestamp source destination w Hdate. split.
  - unfold ScriptIO.main, ScriptIO.execute, ScriptIO.download_versioned,
      Eff.try_except.
    rewrite Hdate. reflexivity.
  - unfold PackageMain.main, PackageMain.execute, PackageMain.run_batch,
      PackageMain.list_batch, Eff.try_except, Eff.bind, Eff.print.
    rewrite Hdate. reflexivity.
Qed.

(** Both clients on a timestamp that is no date. *)
Lemma invalid_timestamp_is_fatal_witness :
  Eff.exit_status
    (fst (ScriptIO.main empty_bucket "bucket"
            (download_versioned_cmd "2024-06" "" None) initial_world)) = 1
  /\ Eff.exit_status
       (fst (PackageMain.main empty_bucket "bucket"
               (download_versioned_cmd "2024-06" "" None) initial_world))
     = 1.
Proof.
  destruct (invalid_timestamp_is_fatal empty_bucket "bucket" "2024-06" ""
              None initial_world eq_refl) as [Hs Hp].
  rewrite Hs, Hp. split; reflexivity.
Defined.

(** When the listing leaves nothing to download, each flow prints one
    line and returns: no directory is created, nothing is requested,
    and the process exits with status 0.  For [download_dir] that is a
    listing without a key that does not end in a separator, for
    [download_versioned] an empty [to_download], for the package a
    listing without object of positive size. *)
Theorem nothing_to_download_returns_quietly :
  forall env bucket source destination w,
    (forall pages,
        list_objects_v2 env bucket source = inr pages ->
        (Script.all_keys pages = [] ->
         ScriptIO.main env bucket (download_dir_cmd source destination) w
         = (inr tt,
            mkWorld (files w) (dirs w)
              (stdout w
                 ++ [("No files found in '"
                        ++ ScriptIO.bucket_root_or source ++ "'.")%string])
              (stderr w) (sdk_log w)))
        /\ (fst (S3Handler.list_objects_in_prefix pages) = [] ->
            PackageMain.main env bucket (download_dir_cmd source destination)
              w
            = (inr tt,
               mkWorld (files w) (dirs w)
                 (stdout w
                    ++ [("Analyzing files in '"
                           ++ PackageMain.bucket_root_or source ++ "'...")
                          %string;
                        "No files found to download."])
                 (stderr w) (sdk_log w))))
    /\ (forall timestamp y m d pages,
           strptime env timestamp = Some (y, m, d) ->
           list_object_versions env bucket source = inr pages ->
           Script.to_download pages (Datetime.target_timestamp y m d)
           = inr [] ->
           ScriptIO.main env bucket
             (download_versioned_cmd timestamp source destination) w
           = (inr tt,
              mkWorld (files w) (dirs w)
                (stdout w
                   ++ [("Fetching versions as of end-of-day "
                          ++ Datetime.isoformat_date y m d ++ " UTC...")
                         %string;
                       ("No file versions found for the specified timestamp '"
                          ++ timestamp ++ "'.")%string])
                (stderr w) (sdk_log w))).
Proof.
  intros env bucket source destination w. split.
  - intros pages Hlist. split; intros Hempty.
    + unfold ScriptIO.main, ScriptIO.execute, ScriptIO.download_dir,
        Eff.try_except.
      rewrite Hlist, Hempty. reflexivity.
    + unfold PackageMain.main, PackageMain.execute, PackageMain.run_batch,
        PackageMain.list_batch, Eff.try_except, Eff.bind, Eff.print,
        Eff.lift.
      rewrite Hlist.
      destruct (S3Handler.list_objects_in_prefix pages) as [objs total].
      cbn [fst] in Hempty. subst objs. cbn. now rewrite <- app_assoc.
  - intros timestamp y m d pages Hdate Hlist Hempty.
    unfold ScriptIO.main, ScriptIO.execute, ScriptIO.download_versioned,
      Eff.try_except.
    rewrite Hdate. unfold Eff.bind at 1, Eff.print at 1.
    rewrite Hlist. unfold Eff.bind at 1, Eff.lift. rewrite Hempty.
    cbn. now rewrite <- app_assoc.
Qed.

(** The flows on a bucket without objects. *)
Lemma nothing_to_download_returns_quietly_witness :
  Eff.exit_status
    (fst (ScriptIO.main empty_versioned_bucket "bucket"
            (download_dir_cmd "" None) initial_world)) = 0
  /\ dirs
       (snd (ScriptIO.main empty_versioned_bucket "bucket"
               (download_versioned_cmd "20240601" "" None) initial_world))
     = [].
Proof.
  destruct (nothing_to_download_returns_quietly empty_versioned_bucket
              "bucket" "" None initial_world) as [Hdir Hver].
  rewrite (proj1 (Hdir [mkObjectPage None] eq_refl) eq_refl).
  rewrite (Hver "20240601" 2024 6 1 [mkVersionPage [] []]
             eq_refl eq_refl eq_refl).
  split; reflexivity.
Defined.


(* ================================================================== *)
(** * The single-file command *)
(* ================================================================== *)

Section SingleFileFacts.
Import Eff.
Variable env : environment.
Variables bucket source : string.

Lemma prepare_destination_returns destination w :
  script_directory_ready env destination ->
  exists w1,
    ScriptIO.prepare_destination env source destination w
    = (inr (script_single_destination source destination), w1)
    /\ files w1 = files w /\ stdout w1 = stdout w
    /\ stderr w1 = stderr w /\ sdk_log w1 = sdk_log w.
Proof.
  unfold script_directory_ready. destruct destination as [d|]; intros H.
  - exact (prepare_destination_ready env source d w H).
  - unfold ScriptIO.prepare_destination, bind, makedirs, ret.
    change Script.DEFAULT_DOWNLOAD_DIR with "Download" in *.
    cbn [String.eqb Ascii.eqb Bool.eqb].
    rewrite H. eexists. split; [reflexivity|]. simpl. auto.
Qed.

(** [download_single_file] as the single-file command calls it. *)
Lemma download_single_file_returns destination w :
  script_directory_ready env destination ->
  (forall e,
      transfer_result env bucket source None
        (script_single_destination source destination) = Some e ->
      is_Exception e = true) ->
  let dest := script_single_destination source destination in
  let ok := transfer_ok env bucket source None dest in
  exists w',
    ScriptIO.download_single_file env bucket source destination None w
    = (inr (ok, if ok then Some dest else None), w')
    /\ stdout w' = stdout w
    /\ files w' = (if ok then dest :: files w else files w)
    /\ (if ok then stderr w' = stderr w
        else exists line, stderr w' = stderr w ++ [line]).
Proof.
  intros Hready Hexn dest ok. subst dest ok.
  destruct (prepare_destination_returns destination w Hready)
    as (w1 & Hprep & Hf & Ho & He & Hl).
  unfold ScriptIO.download_single_file, bind at 1. rewrite Hprep.
  unfold transfer_ok, transfer_result in *.
  cbn [ScriptIO.extra_args].
  unfold try_except, bind, client_head_object, client_download_file.
  destruct (head_object env bucket source None) as [e|n] eqn:Hhead.
  - specialize (Hexn e eq_refl).
    destruct e; try discriminate Hexn;
      try (destruct (String.eqb code "404"));
      eexists; (split; [reflexivity|]); simpl;
      rewrite ?Ho, ?Hf, ?He; repeat split; eauto.
  - destruct (sdk_download_file env bucket source None
                (script_single_destination source destination))
      as [e|] eqn:Hget.
    + specialize (Hexn e eq_refl).
      destruct e; try discriminate Hexn;
        try (destruct (String.eqb code "404"));
        eexists; (split; [reflexivity|]); simpl;
        rewrite ?Ho, ?Hf, ?He; repeat split; eauto.
    + eexists; (split; [reflexivity|]); simpl;
        rewrite ?Ho, ?Hf, ?He; repeat split; eauto.
Qed.

(** The package's single-file command once the head request is
    answered and the directory of the destination exists, when the
    transfer succeeds or is answered with a [ClientError]. *)
Lemma run_download_file_transfers destination size w :
  head_object env bucket source None = inr size ->
  PosixPath.dirname (package_single_destination env source destination)
  <> "" ->
  makedirs_error env
    (PosixPath.dirname (package_single_destination env source destination))
  = None ->
  let dest := package_single_destination env source destination in
  let answer := sdk_download_file env bucket source None dest in
  answer = None \/ (exists code, answer = Some (ClientError code)) ->
  PackageMain.main env bucket (download_file_cmd source destination) w
  = (inr tt,
     mkWorld
       (match answer with None => dest :: files w | Some _ => files w end)
       (PosixPath.dirname dest :: dirs w)
       (stdout w
          ++ [("Analyzing file '" ++ source ++ "'...")%string;
              ("Found 1 file with total size of "
                 ++ format_bytes env size ++ ".")%string;
              ("Downloading to '" ++ dest ++ "'...")%string]
          ++ match answer with
             | None => []
             | Some e =>
                 [(PyStr.nl ++ "Warning: Could not download " ++ source
                     ++ ". Error: " ++ exn_text env e)%string]
             end
          ++ [(PyStr.nl ++ "Successfully downloaded 1 file.")%string])
       (stderr w)
       (sdk_log w
          ++ [HeadObject bucket source None;
              DownloadFile bucket source None dest])).
Proof.
  intros Hhead Hdir Hmk dest answer Hanswer.
  unfold PackageMain.main, PackageMain.execute,
    PackageMain.run_download_file.
  fold (package_single_destination env source destination). fold dest.
  unfold S3HandlerIO.get_object_info, S3HandlerIO.download_file,
    try_except, bind, print, client_head_object, client_download_file,
    makedirs, log_call.
  rewrite Hhead. apply String.eqb_neq in Hdir. fold dest in Hdir, Hmk.
  rewrite Hdir, Hmk. cbn [files dirs stdout stderr sdk_log].
  fold answer.
  destruct Hanswer as [->|(code & ->)];
    cbn [files dirs stdout stderr sdk_log str];
    now rewrite <- !app_assoc.
Qed.

(** The script's single-file command: its result, its files and its
    output. *)
Lemma script_single_file_run destination w :
  script_directory_ready env destination ->
  (forall e,
      transfer_result env bucket source None
        (script_single_destination source destination) = Some e ->
      is_Exception e = true) ->
  let dest := script_single_destination source destination in
  let ok := transfer_ok env bucket source None dest in
  exists w',
    ScriptIO.main env bucket (download_file_cmd source destination) w
    = (if ok then inr tt else inl (SystemExit 1), w')
    /\ files w' = (if ok then dest :: files w else files w)
    /\ (if ok
        then stdout w'
             = stdout w
                 ++ [("Starting download of '" ++ source ++ "'...")%string;
                     (PyStr.nl ++ "Successfully downloaded to '" ++ dest
                        ++ "'")%string]
             /\ stderr w' = stderr w
        else exists line,
            stderr w'
            = stderr w
                ++ [line;
                    (PyStr.nl ++ "Download failed for '" ++ source ++ "'")
                      %string]).
Proof.
  intros Hready Hexn dest ok.
  unfold ScriptIO.main, ScriptIO.execute.
  unfold try_except, bind at 1, print at 1, bind at 1.
  match goal with
  | |- context [ScriptIO.download_single_file env bucket source
                  destination None ?w0] =>
      destruct (download_single_file_returns destination w0 Hready Hexn)
        as (w1 & Hrun & Ho & Hf & He)
  end.
  rewrite Hrun. fold dest in Ho, Hf, He |- *. fold ok in Ho, Hf, He |- *.
  cbn [files stdout stderr] in Ho, Hf, He.
  destruct ok.
  - eexists. split; [reflexivity|]. cbn.
    rewrite Ho, Hf, He, <- app_assoc. auto.
  - destruct He as (line & He).
    eexists. split; [reflexivity|]. cbn.
    rewrite Hf, He, <- app_assoc. split; auto. now exists line.
Qed.

End SingleFileFacts.

(** The script's single-file command exits with status 0 exactly when
    head request and transfer both succeed: then the local file is new
    and its path is printed; otherwise no file is written and two lines
    go to standard error, the last one naming the source. *)
Theorem script_single_file_exit_status :
  forall env bucket source destination w,
    script_directory_ready env destination ->
    (forall e,
        transfer_result env bucket source None
          (script_single_destination source destination) = Some e ->
        Eff.is_Exception e = true) ->
    let dest := script_single_destination source destination in
    let ok := transfer_ok env bucket source None dest in
    let run :=
      ScriptIO.main env bucket (download_file_cmd source destination) w in
    Eff.exit_status (fst run) = (if ok then 0 else 1)
    /\ files (snd run) = (if ok then dest :: files w else files w)
    /\ (if ok
        then stdout (snd run)
             = stdout w
                 ++ [("Starting download of '" ++ source ++ "'...")%string;
                     (PyStr.nl ++ "Successfully downloaded to '" ++ dest
                        ++ "'")%string]
             /\ stderr (snd run) = stderr w
        else exists line,
            stderr (snd run)
            = stderr w
                ++ [line;
                    (PyStr.nl ++ "Download failed for '" ++ source ++ "'")
                      %string]).
Proof.
  intros env bucket source destination w Hready Hexn dest ok run.
  destruct (script_single_file_run env bucket source destination w Hready
              Hexn) as (w' & Hrun & Hf & Hrest).
  fold dest in Hrun, Hf, Hrest. fold ok in Hrun, Hf, Hrest.
  subst run. rewrite Hrun. cbn [fst snd].
  split; [now destruct ok|]. auto.
Qed.

(** The script's single-file command on a bucket that refuses the
    transfer. *)
Lemma script_single_file_exit_status_witness :
  Eff.exit_status
    (fst (ScriptIO.main fetch_refused "bucket"
            (download_file_cmd "docs/a.txt" None) initial_world)) = 1
  /\ files
       (snd (ScriptIO.main fetch_refused "bucket"
               (download_file_cmd "docs/a.txt" None) initial_world)) = [].
Proof.
  destruct (script_single_file_exit_status fetch_refused "bucket"
              "docs/a.txt" None initial_world) as (Hexit & Hfiles & _).
  - reflexivity.
  - intros e He. vm_compute in He. injection He as <-. reflexivity.
  - split; [exact Hexit | exact Hfiles].
Defined.

(** When the storage client answers the transfer of the single-file
    command with a [ClientError], the package's [download_file] prints a
    warning and returns: [main] then prints its success line and the
    process exits with status 0, though no file was written.  The
    script's command exits with status 1 in that situation. *)
Theorem refused_single_transfer_in_each_client :
  forall env bucket source destination size code w,
    head_object env bucket source None = inr size ->
    PosixPath.dirname (package_single_destination env source destination)
    <> "" ->
    makedirs_error env
      (PosixPath.dirname (package_single_destination env source destination))
    = None ->
    sdk_download_file env bucket source None
      (package_single_destination env source destination)
    = Some (ClientError code) ->
    script_directory_ready env destination ->
    sdk_download_file env bucket source None
      (script_single_destination source destination)
    = Some (ClientError code) ->
    let package :=
      PackageMain.main env bucket (download_file_cmd source destination) w in
    let script :=
      ScriptIO.main env bucket (download_file_cmd source destination) w in
    Eff.exit_status (fst package) = 0
    /\ files (snd package) = files w
    /\ stderr (snd package) = stderr w
    /\ (exists lines,
           stdout (snd package)
           = stdout w ++ lines
               ++ [(PyStr.nl ++ "Warning: Could not download " ++ source
                      ++ ". Error: " ++ exn_text env (ClientError code))
                     %string;
                   (PyStr.nl ++ "Successfully downloaded 1 file.")%string])
    /\ Eff.exit_status (fst script) = 1
    /\ files (snd script) = files w.
Proof.
  intros env bucket source destination size code w Hhead Hdir Hmk Hget
    Hready Hget' package script.
  destruct (script_single_file_run env bucket source destination w Hready)
    as (w' & Hrun & Hfiles & _).
  { unfold transfer_result. rewrite Hhead, Hget'.
    intros e He. injection He as <-. reflexivity. }
  unfold transfer_ok, transfer_result in Hrun, Hfiles.
  rewrite Hhead, Hget' in Hrun, Hfiles.
  subst package.
  rewrite (run_download_file_transfers env bucket source destination size w
             Hhead Hdir Hmk)
    by (right; exists code; exact Hget).
  rewrite Hget. cbn [fst snd Eff.exit_status files stderr stdout].
  repeat split.
  - eexists [_; _; _]. reflexivity.
  - subst script. rewrite Hrun. reflexivity.
  - subst script. rewrite Hrun. exact Hfiles.
Qed.

(** Both clients on the bucket that refuses every transfer. *)
Lemma refused_single_transfer_in_each_client_witness :
  Eff.exit_status
    (fst (PackageMain.main fetch_refused "bucket"
            (download_file_cmd "docs/a.txt" None) initial_world)) = 0
  /\ files
       (snd (PackageMain.main fetch_refused "bucket"
               (download_file_cmd "docs/a.txt" None) initial_world)) = []
  /\ Eff.exit_status
       (fst (ScriptIO.main fetch_refused "bucket"
               (download_file_cmd "docs/a.txt" None) initial_world)) = 1.
Proof.
  destruct (refused_single_transfer_in_each_client fetch_refused "bucket"
              "docs/a.txt" None 10 "403" initial_world)
    as (Hp & Hf & _ & _ & Hs & _);
    try reflexivity; try discriminate.
  split; [exact Hp | split; [exact Hf | exact Hs]].
Defined.

(** A destination without a directory part: the package's
    [download_file] calls [os.makedirs] on the empty string, which
    raises [FileNotFoundError], so [main] exits with status 1 after the
    head request and before any transfer; the script creates no
    directory for such a destination and transfers the object. *)
Theorem bare_filename_destination_in_each_client :
  forall env bucket source d size w,
    PyStr.truthy d = true ->
    sep_free d = true ->
    head_object env bucket source None = inr size ->
    sdk_download_file env bucket source None d = None ->
    PackageMain.main env bucket (download_file_cmd source (Some d)) w
    = (inl (SystemExit 1),
       mkWorld (files w) (dirs w)
         (stdout w
            ++ [("Analyzing file '" ++ source ++ "'...")%string;
                ("Found 1 file with total size of "
                   ++ format_bytes env size ++ ".")%string;
                ("Downloading to '" ++ d ++ "'...")%string])
         (stderr w
            ++ [(PyStr.nl
                   ++ "ERROR: [Errno 2] No such file or directory: ''")
                  %string])
         (sdk_log w ++ [HeadObject bucket source None]))
    /\ ScriptIO.main env bucket (download_file_cmd source (Some d)) w
       = (inr tt,
          mkWorld (d :: files w) (dirs w)
            (stdout w
               ++ [("Starting download of '" ++ source ++ "'...")%string;
                   (PyStr.nl ++ "Successfully downloaded to '" ++ d ++ "'")
                     %string])
            (stderr w)
            (sdk_log w
               ++ [HeadObject bucket source None;
                   DownloadFile bucket source None d])).
Proof.
  intros env bucket source d size w Hd Hfree Hhead Hget.
  assert (Hdir : PosixPath.dirname d = "").
  { unfold PosixPath.dirname.
    now rewrite (head_to_last_sep_free d Hfree). }
  split.
  - unfold PackageMain.main, PackageMain.execute,
      PackageMain.run_download_file, PackageMain.destination_or.
    rewrite Hd.
    unfold S3HandlerIO.get_object_info, S3HandlerIO.download_file,
      Eff.try_except, Eff.bind, Eff.print, Eff.client_head_object,
      Eff.makedirs, Eff.log_call.
    rewrite Hhead, Hdir. cbn. now rewrite <- !app_assoc.
  - unfold ScriptIO.main, ScriptIO.execute, ScriptIO.download_single_file,
      ScriptIO.prepare_destination.
    rewrite Hdir.
    unfold Eff.try_except, Eff.bind, Eff.print, Eff.client_head_object,
      Eff.client_download_file, Eff.log_call.
    cbn. rewrite Hhead. cbn. rewrite Hget. cbn.
    now rewrite <- !app_assoc.
Qed.

(** Both clients asked to save an object as [out.bin]. *)
Lemma bare_filename_destination_in_each_client_witness :
  Eff.exit_status
    (fst (PackageMain.main all_fetched "bucket"
            (download_file_cmd "docs/a.txt" (Some "out.bin"))
            initial_world)) = 1
  /\ files
       (snd (ScriptIO.main all_fetched "bucket"
               (download_file_cmd "docs/a.txt" (Some "out.bin"))
               initial_world)) = ["out.bin"].
Proof.
  destruct (bare_filename_destination_in_each_client all_fetched "bucket"
              "docs/a.txt" "out.bin" 10 initial_world
              eq_refl eq_refl eq_refl eq_refl) as [Hp Hs].
  rewrite Hp, Hs. split; reflexivity.
Defined.

(** A [ClientError] of the head request other than 404 is raised again
    by [get_object_info]; the package's [main] prints it and exits with
    status 1 without asking for a transfer. *)
Theorem head_error_ends_the_package_single_file_command :
  forall env bucket source destination code w,
    head_object env bucket source None = inl (ClientError code) ->
    code <> "404" ->
    S3HandlerIO.get_object_info env bucket source w
    = (inl (ClientError code),
       Eff.log_call (HeadObject bucket source None) w)
    /\ PackageMain.main env bucket (download_file_cmd source destination) w
       = (inl (SystemExit 1),
          mkWorld (files w) (dirs w)
            (stdout w ++ [("Analyzing file '" ++ source ++ "'...")%string])
            (stderr w
               ++ [(PyStr.nl ++ "ERROR: "
                      ++ exn_text env (ClientError code))%string])
            (sdk_log w ++ [HeadObject bucket source None])).
Proof.
  intros env bucket source destination code w Hhead Hcode.
  apply String.eqb_neq in Hcode.
  assert (Hinfo : S3HandlerIO.get_object_info env bucket source
                    (snd (Eff.print
                            ("Analyzing file '" ++ source ++ "'...")%string
                            w))
                  = (inl (ClientError code),
                     Eff.log_call (HeadObject bucket source None)
                       (snd (Eff.print
                               ("Analyzing file '" ++ source ++ "'...")
                                 %string w)))).
  { unfold S3HandlerIO.get_object_info, Eff.try_except,
      Eff.client_head_object.
    rewrite Hhead, Hcode. reflexivity. }
  split.
  - unfold S3HandlerIO.get_object_info, Eff.try_except,
      Eff.client_head_object.
    rewrite Hhead, Hcode. reflexivity.
  - unfold PackageMain.main, PackageMain.execute,
      PackageMain.run_download_file.
    unfold Eff.try_except, Eff.bind at 1, Eff.print at 1, Eff.bind at 1.
    cbn [snd Eff.print] in Hinfo. rewrite Hinfo. reflexivity.
Qed.

(** The package's single-file command on the bucket that answers 403. *)
Lemma head_error_ends_the_package_single_file_command_witness :
  Eff.exit_status
    (fst (PackageMain.main access_denied "bucket"
            (download_file_cmd "docs/a.txt" None) initial_world)) = 1.
Proof.
  destruct (head_error_ends_the_package_single_file_command access_denied
              "bucket" "docs/a.txt" None "403" initial_world eq_refl)
    as [_ Hp].
  - discriminate.
  - rewrite Hp. reflexivity.
Defined.


(* ================================================================== *)
(** * [format_bytes] and the progress callback *)
(* ================================================================== *)

Section FormatFacts.
Import PackageFormat.

Lemma power_positive : (0 < power)%Q.
Proof. reflexivity. Qed.

Lemma inject_Z_power_succ k :
  (inject_Z (1024 ^ Z.of_nat (S k)) == power * inject_Z (1024 ^ Z.of_nat k))%Q.
Proof.
  rewrite Nat2Z.inj_succ, Z.pow_succ_r by lia.
  now rewrite inject_Z_mult.
Qed.

(** The loop divides [k] times, at most [remaining] times: it stops
    below [power] unless the labels are used up, and a quotient it
    reached by dividing is at least one. *)
Lemma scale_divides remaining :
  forall q n,
    exists k,
      snd (scale remaining q n) = (n + k)%nat
      /\ (k <= remaining)%nat
      /\ (fst (scale remaining q n) * inject_Z (1024 ^ Z.of_nat k) == q)%Q
      /\ ((k < remaining)%nat -> (fst (scale remaining q n) < power)%Q)
      /\ ((0 < k)%nat -> (1 <= fst (scale remaining q n))%Q).
Proof.
  induction remaining as [|r IH]; intros q n.
  - exists 0%nat. cbn [scale fst snd]. repeat split; try lia.
    change (inject_Z (1024 ^ Z.of_nat 0)) with 1%Q. ring.
  - cbn [scale]. destruct (Qle_bool power q) eqn:Hle.
    + apply Qle_bool_iff in Hle.
      destruct (IH (q / power)%Q (S n)) as (k & Hn & Hk & Heq & Hlt & Hge).
      exists (S k). repeat split; try lia.
      * rewrite inject_Z_power_succ.
        rewrite (Qmult_comm power), Qmult_assoc, Heq.
        field. intros H. discriminate H.
      * intros H. apply Hlt. lia.
      * intros _. destruct k as [|k]; [|apply Hge; lia].
        change (inject_Z (1024 ^ Z.of_nat 0)) with 1%Q in Heq.
        rewrite Qmult_1_r in Heq. rewrite Heq.
        apply Qle_shift_div_l; [exact power_positive|].
        now rewrite Qmult_1_l.
    + exists 0%nat. cbn [fst snd]. repeat split; try lia.
      * change (inject_Z (1024 ^ Z.of_nat 0)) with 1%Q. ring.
      * intros _. apply Qnot_le_lt. intros H.
        apply Qle_bool_iff in H. congruence.
Qed.

Lemma round_half_even_integer z : round_half_even (inject_Z z) = z.
Proof.
  unfold round_half_even. rewrite Qfloor_Z.
  assert (H : (inject_Z z - inject_Z z < 1 # 2)%Q).
  { unfold Qlt, Qminus, Qplus, Qopp, inject_Z. simpl. lia. }
  apply Qlt_alt in H. unfold Qcompare. now rewrite H.
Qed.

Lemma format_2f_integer z :
  0 <= z -> format_2f (inject_Z z) = (digits z ++ ".00")%string.
Proof.
  intros Hz. unfold format_2f.
  assert (Hsign : Qcompare (inject_Z z) 0 <> Lt).
  { intros H. apply Qlt_alt in H. revert H. apply Qle_not_lt.
    change 0%Q with (inject_Z 0). now rewrite <- Zle_Qle. }
  assert (Habs : format_2f_abs (inject_Z z) = (digits z ++ ".00")%string).
  { unfold format_2f_abs.
    change (inject_Z z * inject_Z 100)%Q with (inject_Z (z * 100)).
    rewrite round_half_even_integer, Z.div_mul, Z.mod_mul by lia.
    reflexivity. }
  destruct (Qcompare (inject_Z z) 0); congruence.
Qed.

End FormatFacts.

Section ProgressFacts.
Import Progress.

Lemma last_of_cons (l : list Z) :
  forall a d d', last (a :: l) d = last (a :: l) d'.
Proof.
  induction l as [|x l IH]; intros a d d'; [reflexivity|].
  change (last (x :: l) d = last (x :: l) d'). apply IH.
Qed.

Lemma calls_last amounts :
  forall self,
    t (calls self amounts)
    = t self + (last amounts (last_block self) - last_block self)
    /\ last_block (calls self amounts) = last amounts (last_block self).
Proof.
  unfold calls.
  induction amounts as [|a amounts IH]; intros self.
  - cbn. split; [lia | reflexivity].
  - cbn [fold_left]. destruct (IH (call self a)) as [Ht Hl].
    rewrite Ht, Hl. cbn [call t last_block].
    destruct amounts as [|a' amounts].
    + cbn [last]. split; [lia | reflexivity].
    + change (last (a :: a' :: amounts) (last_block self))
        with (last (a' :: amounts) (last_block self)).
      rewrite (last_of_cons amounts a' a (last_block self)).
      split; [lia | reflexivity].
Qed.

End ProgressFacts.

(** The unit [format_bytes] picks for a count [b]: the loop divides by
    1024 as long as the quotient is at least 1024 and a larger label is
    left, so the label is the one of the largest power of 1024 that is
    at most [b], and the last label, terabytes, from [1024^4] on.  The
    number it prints is [b] over that power. *)
Theorem format_bytes_unit_selection :
  forall b,
    0 <= b < 2 ^ 53 ->
    let scaled :=
      PackageFormat.scale (List.length PackageFormat.power_labels - 1)
        (inject_Z b) 0 in
    let n := snd scaled in
    (n <= 4)%nat
    /\ (fst scaled * inject_Z (1024 ^ Z.of_nat n) == inject_Z b)%Q
    /\ ((0 < n)%nat -> 1024 ^ Z.of_nat n <= b)
    /\ ((n < 4)%nat -> b < 1024 ^ Z.of_nat (S n))
    /\ PackageFormat.format_bytes (Some b)
       = (PackageFormat.format_2f (fst scaled) ++ " "
            ++ nth n PackageFormat.power_labels "" ++ "B")%string.
Proof.
  intros b Hb scaled n.
  destruct (scale_divides 4 (inject_Z b) 0) as (k & Hn & Hk & Heq & Hlt & Hge).
  change (PackageFormat.scale 4 (inject_Z b) 0) with scaled in *.
  fold n in Hn. cbn [Nat.add] in Hn. subst k.
  assert (Hpos : 0 < 1024 ^ Z.of_nat n) by (apply Z.pow_pos_nonneg; lia).
  repeat split; auto.
  - intros H. specialize (Hge H).
    rewrite Zle_Qle, <- Heq.
    rewrite <- (Qmult_1_l (inject_Z (1024 ^ Z.of_nat n))) at 1.
    apply Qmult_le_compat_r; auto.
    change 0%Q with (inject_Z 0). rewrite <- Zle_Qle. lia.
  - intros H. specialize (Hlt H).
    rewrite Zlt_Qlt, inject_Z_power_succ, <- Heq.
    apply Qmult_lt_compat_r; auto.
    change 0%Q with (inject_Z 0). now rewrite <- Zlt_Qlt.
  - unfold PackageFormat.format_bytes.
    change (PackageFormat.scale
              (List.length PackageFormat.power_labels - 1) (inject_Z b) 0)
      with scaled.
    subst n. now destruct scaled.
Qed.

(** A count of 1536 bytes is printed in kilobytes. *)
Lemma format_bytes_unit_selection_witness :
  (snd (PackageFormat.scale (List.length PackageFormat.power_labels - 1)
          (inject_Z 1536) 0) <= 4)%nat
  /\ PackageFormat.format_bytes (Some 1536) = "1.50 KB".
Proof.
  destruct (format_bytes_unit_selection 1536) as (Hn & _ & _ & _ & Hs).
  - split; [lia | reflexivity].
  - split; [exact Hn | rewrite Hs; reflexivity].
Defined.

(** Below 1024 bytes [format_bytes] prints the count itself with two
    zero decimals and the unit [B]. *)
Theorem format_bytes_below_a_kilobyte :
  forall b,
    0 <= b < 1024 ->
    PackageFormat.format_bytes (Some b)
    = (PackageFormat.digits b ++ ".00 B")%string.
Proof.
  intros b Hb. unfold PackageFormat.format_bytes.
  cbn [List.length PackageFormat.power_labels Nat.sub PackageFormat.scale].
  assert (Hle : Qle_bool PackageFormat.power (inject_Z b) = false).
  { destruct (Qle_bool PackageFormat.power (inject_Z b)) eqn:H; auto.
    apply Qle_bool_iff in H. unfold PackageFormat.power in H.
    rewrite <- Zle_Qle in H. lia. }
  rewrite Hle, format_2f_integer by lia.
  cbn [nth]. rewrite string_app_assoc. reflexivity.
Qed.

(** A count of 512 bytes. *)
Lemma format_bytes_below_a_kilobyte_witness :
  PackageFormat.format_bytes (Some 512) = "512.00 B".
Proof.
  rewrite (format_bytes_below_a_kilobyte 512) by lia. reflexivity.
Defined.

(** The callback turns the amounts it is called with into differences:
    after any calls the bar has advanced by the last amount, whatever
    the amounts before, and [last_block] is that amount. *)
Theorem progress_callback_advances_by_last_amount :
  forall t0 amounts,
    Progress.t (Progress.calls (Progress.init t0) amounts)
    = t0 + last amounts 0
    /\ Progress.last_block (Progress.calls (Progress.init t0) amounts)
       = last amounts 0.
Proof.
  intros t0 amounts.
  destruct (calls_last amounts (Progress.init t0)) as [Ht Hl].
  rewrite Ht, Hl. cbn. split; [lia | reflexivity].
Qed.

(* ================================================================== *)
(** * The configuration and the connection *)
(* ================================================================== *)

Section ConfigFacts.
Import ConfigLoader.

Lemma get_fold_set (rows : list (string * value)) :
  forall (d : PyDict.t value) k,
    PyDict.get k
      (fold_left (fun d row => PyDict.set (fst row) (snd row) d) rows d)
    = match last_value rows k with
      | Some v => Some v
      | None => PyDict.get k d
      end.
Proof.
  induction rows as [|[k0 v0] rows IH]; intros d k; [reflexivity|].
  cbn [fold_left last_value fst snd]. rewrite IH.
  destruct (last_value rows k); [reflexivity|].
  destruct (String.eqb k k0) eqn:E.
  - apply String.eqb_eq in E. subst k0. apply get_set_same.
  - apply String.eqb_neq in E. apply get_set_other. congruence.
Qed.

Lemma get_to_dict rows k : PyDict.get k (to_dict rows) = last_value rows k.
Proof.
  unfold to_dict. rewrite get_fold_set. now destruct (last_value rows k).
Qed.

Lemma is_missing_to_dict rows k :
  is_missing (to_dict rows) k = negb (has_value_b rows k).
Proof.
  unfold is_missing, has_value_b. rewrite get_to_dict.
  destruct (last_value rows k) as [v|]; [|reflexivity].
  now rewrite negb_involutive.
Qed.

Lemma missing_keys_of_table rows :
  filter (is_missing (to_dict rows)) required_keys
  = filter (fun k => negb (has_value_b rows k)) required_keys.
Proof.
  apply filter_ext. intros k. apply is_missing_to_dict.
Qed.

Lemma has_column_In name df :
  In name (columns df) -> has_column name df = true.
Proof.
  intros H. unfold has_column. apply existsb_exists.
  exists name. split; [exact H | apply String.eqb_refl].
Qed.

(** What [load_config] has checked when it returns. *)
Lemma load_config_returned read_csv path config :
  load_config read_csv path = inr config ->
  exists df,
    read_csv path = inr df
    /\ filter (is_missing (to_dict (records df))) required_keys = []
    /\ config
       = match PyDict.get "mfa_serial_number" (to_dict (records df)) with
         | Some v =>
             if isna v
             then PyDict.set "mfa_serial_number" PyNone
                    (to_dict (records df))
             else to_dict (records df)
         | None => to_dict (records df)
         end.
Proof.
  unfold load_config. destruct (read_csv path) as [e|df].
  - destruct e; discriminate.
  - destruct (negb (has_column "key" df) || negb (has_column "value" df));
      [discriminate|].
    destruct (filter (is_missing (to_dict (records df))) required_keys)
      eqn:Hmissing; [|discriminate].
    intros H. exists df. split; [reflexivity|]. split; [exact Hmissing|].
    destruct (PyDict.get "mfa_serial_number" (to_dict (records df)))
      as [v|]; [destruct (isna v)|]; congruence.
Qed.

Lemma loaded_other_key read_csv path config df k :
  load_config read_csv path = inr config ->
  read_csv path = inr df ->
  k <> "mfa_serial_number" ->
  PyDict.get k config = last_value (records df) k.
Proof.
  intros Hload Hread Hk.
  destruct (load_config_returned _ _ _ Hload) as (df' & Hread' & _ & ->).
  assert (df' = df) by congruence. subst df'.
  rewrite <- get_to_dict.
  destruct (PyDict.get "mfa_serial_number" (to_dict (records df)))
    as [v|]; [destruct (isna v)|]; auto.
  apply get_set_other. congruence.
Qed.

Lemma loaded_required_key read_csv path config k :
  load_config read_csv path = inr config ->
  In k required_keys ->
  exists v, PyDict.get k config = Some v /\ isna v = false.
Proof.
  intros Hload Hk.
  destruct (load_config_returned _ _ _ Hload) as (df & Hread & Hnone & _).
  assert (Hin : ~ In k (filter (is_missing (to_dict (records df)))
                          required_keys)) by (rewrite Hnone; auto).
  rewrite filter_In in Hin.
  assert (Hpresent : is_missing (to_dict (records df)) k = false).
  { destruct (is_missing (to_dict (records df)) k); auto.
    exfalso. apply Hin. auto. }
  assert (Hother : k <> "mfa_serial_number").
  { intros ->. cbn in Hk. intuition discriminate. }
  rewrite (loaded_other_key _ _ _ df k Hload Hread Hother).
  unfold is_missing in Hpresent. rewrite get_to_dict in Hpresent.
  destruct (last_value (records df) k) as [v|]; [|discriminate].
  now exists v.
Qed.

Lemma loaded_serial read_csv path config df :
  load_config read_csv path = inr config ->
  read_csv path = inr df ->
  PyDict.get "mfa_serial_number" config
  = match last_value (records df) "mfa_serial_number" with
    | Some v => if isna v then Some PyNone else Some v
    | None => None
    end.
Proof.
  intros Hload Hread.
  destruct (load_config_returned _ _ _ Hload) as (df' & Hread' & _ & ->).
  assert (df' = df) by congruence. subst df'.
  rewrite get_to_dict.
  destruct (last_value (records df) "mfa_serial_number") as [v|] eqn:E;
    [|now rewrite get_to_dict].
  destruct (isna v); [apply get_set_same | now rewrite get_to_dict].
Qed.

Lemma load_config_missing_keys read_csv path df :
  read_csv path = inr df ->
  In "key" (columns df) ->
  In "value" (columns df) ->
  forallb (has_value_b (records df)) required_keys = false ->
  load_config read_csv path
  = inl (ValueError
           ("Missing required configuration keys: "
              ++ join_comma
                   (filter (fun k => negb (has_value_b (records df) k))
                      required_keys))%string).
Proof.
  intros Hread Hkey Hvalue Hall.
  unfold load_config. rewrite Hread.
  rewrite (has_column_In "key" df Hkey), (has_column_In "value" df Hvalue).
  cbn [negb orb]. rewrite missing_keys_of_table.
  destruct (filter (fun k => negb (has_value_b (records df) k))
              required_keys) as [|k ks] eqn:Hf; [|reflexivity].
  exfalso.
  assert (H : forallb (has_value_b (records df)) required_keys = true).
  { apply forallb_forall. intros k Hk.
    destruct (has_value_b (records df) k) eqn:E; auto.
    assert (Hin : In k (filter (fun k => negb (has_value_b (records df) k))
                          required_keys)).
    { apply filter_In. rewrite E. auto. }
    rewrite Hf in Hin. contradiction. }
  congruence.
Qed.

Lemma load_config_complete read_csv path df :
  read_csv path = inr df ->
  In "key" (columns df) ->
  In "value" (columns df) ->
  forallb (has_value_b (records df)) required_keys = true ->
  exists config, load_config read_csv path = inr config.
Proof.
  intros Hread Hkey Hvalue Hall.
  unfold load_config. rewrite Hread.
  rewrite (has_column_In "key" df Hkey), (has_column_In "value" df Hvalue).
  cbn [negb orb]. rewrite missing_keys_of_table.
  assert (Hnone : filter (fun k => negb (has_value_b (records df) k))
                    required_keys = []).
  { rewrite forallb_forall in Hall.
    induction required_keys as [|k ks IH]; [reflexivity|].
    cbn [filter]. rewrite (Hall k (or_introl eq_refl)). cbn [negb].
    apply IH. intros x Hx. apply Hall. now right. }
  rewrite Hnone.
  destruct (PyDict.get "mfa_serial_number" (to_dict (records df))) as [v|];
    [destruct (isna v)|]; eexists; reflexivity.
Qed.

End ConfigFacts.

(** [load_config] on a table with the columns [key] and [value]
    succeeds exactly when the last row of each of the four required
    keys holds a value, a text or, in a table of numbers, a number: its
    cell is not empty; otherwise its [ValueError] names the required
    keys without one, in the order of [required_keys]. *)
Theorem load_config_requires_the_four_keys :
  forall read_csv path df,
    read_csv path = inr df ->
    In "key" (columns df) ->
    In "value" (columns df) ->
    (forallb (has_value_b (records df)) ConfigLoader.required_keys = true ->
     exists config, ConfigLoader.load_config read_csv path = inr config)
    /\ (forallb (has_value_b (records df)) ConfigLoader.required_keys = false ->
        ConfigLoader.load_config read_csv path
        = inl (ValueError
                 ("Missing required configuration keys: "
                    ++ ConfigLoader.join_comma
                         (filter (fun k => negb (has_value_b (records df) k))
                            ConfigLoader.required_keys))%string)).
Proof.
  intros read_csv path df Hread Hkey Hvalue. split.
  - now apply load_config_complete.
  - now apply load_config_missing_keys.
Qed.

(** A table without secret key and with an empty bucket name is
    refused; a table whose values are numbers is accepted. *)
Lemma load_config_requires_the_four_keys_witness :
  ConfigLoader.load_config (fun _ => inr (table incomplete_rows)) "config.csv"
  = inl (ValueError
           "Missing required configuration keys: aws_secret_access_key, bucket_name")
  /\ exists config,
      ConfigLoader.load_config (fun _ => inr (table numeric_rows))
        "config.csv" = inr config.
Proof.
  split.
  - destruct (load_config_requires_the_four_keys
                (fun _ => inr (table incomplete_rows)) "config.csv"
                (table incomplete_rows) eq_refl) as [_ H].
    + left. reflexivity.
    + right. left. reflexivity.
    + rewrite H; reflexivity.
  - destruct (load_config_requires_the_four_keys
                (fun _ => inr (table numeric_rows)) "config.csv"
                (table numeric_rows) eq_refl) as [H _].
    + left. reflexivity.
    + right. left. reflexivity.
    + apply H. reflexivity.
Defined.

(** The dict [load_config] returns: each required key holds a value
    that is not missing (neither [nan] nor [None]), every key but
    [mfa_serial_number] holds the value of its last row, and an empty
    [mfa_serial_number] cell, which the table gives as the float [nan],
    is replaced by [None]. *)
Theorem loaded_config_invariant :
  forall read_csv path config,
    ConfigLoader.load_config read_csv path = inr config ->
    exists df,
      read_csv path = inr df
      /\ (forall k, In k ConfigLoader.required_keys ->
                    exists v,
                      PyDict.get k config = Some v
                      /\ ConfigLoader.isna v = false)
      /\ (forall k, k <> "mfa_serial_number" ->
                    PyDict.get k config = last_value (records df) k)
      /\ PyDict.get "mfa_serial_number" config <> Some NaN
      /\ (last_value (records df) "mfa_serial_number" = Some NaN ->
          PyDict.get "mfa_serial_number" config = Some PyNone)
      /\ (forall v,
             last_value (records df) "mfa_serial_number" = Some v ->
             ConfigLoader.isna v = false ->
             PyDict.get "mfa_serial_number" config = Some v).
Proof.
  intros read_csv path config Hload.
  destruct (load_config_returned _ _ _ Hload) as (df & Hread & _).
  exists df. split; [exact Hread|].
  split; [intros k; now apply loaded_required_key with (1 := Hload)|].
  split; [intros k; now apply loaded_other_key with (1 := Hload)|].
  rewrite (loaded_serial _ _ _ df Hload Hread).
  split; [|split].
  - destruct (last_value (records df) "mfa_serial_number") as [[]|];
      discriminate.
  - now intros ->.
  - intros v -> Hv. now rewrite Hv.
Qed.

(** The configuration of a table whose serial number cell is empty. *)
Lemma loaded_config_invariant_witness :
  exists df,
    (fun _ : string => @inr exn frame (table plain_rows)) "config.csv"
    = inr df
    /\ (forall k, In k ConfigLoader.required_keys ->
                  exists v,
                    PyDict.get k
                      (PyDict.set "mfa_serial_number" PyNone
                         (ConfigLoader.to_dict plain_rows))
                    = Some v
                    /\ ConfigLoader.isna v = false)
    /\ (forall k, k <> "mfa_serial_number" ->
                  PyDict.get k
                    (PyDict.set "mfa_serial_number" PyNone
                       (ConfigLoader.to_dict plain_rows))
                  = last_value (records df) k)
    /\ PyDict.get "mfa_serial_number"
         (PyDict.set "mfa_serial_number" PyNone
            (ConfigLoader.to_dict plain_rows)) <> Some NaN
    /\ (last_value (records df) "mfa_serial_number" = Some NaN ->
        PyDict.get "mfa_serial_number"
          (PyDict.set "mfa_serial_number" PyNone
             (ConfigLoader.to_dict plain_rows)) = Some PyNone)
    /\ (forall v,
           last_value (records df) "mfa_serial_number" = Some v ->
           ConfigLoader.isna v = false ->
           PyDict.get "mfa_serial_number"
             (PyDict.set "mfa_serial_number" PyNone
                (ConfigLoader.to_dict plain_rows)) = Some v).
Proof.
  exact (loaded_config_invariant (fun _ => inr (table plain_rows))
           "config.csv"
           (PyDict.set "mfa_serial_number" PyNone
              (ConfigLoader.to_dict plain_rows)) eq_refl).
Defined.

Section SessionFacts.
Import Session.

Lemma loaded_items read_csv path config :
  ConfigLoader.load_config read_csv path = inr config ->
  exists access_key secret_key endpoint bucket,
    (PyDict.get "aws_access_key_id" config = Some access_key
     /\ ConfigLoader.isna access_key = false)
    /\ (PyDict.get "aws_secret_access_key" config = Some secret_key
        /\ ConfigLoader.isna secret_key = false)
    /\ (PyDict.get "endpoint_url" config = Some endpoint
        /\ ConfigLoader.isna endpoint = false)
    /\ (PyDict.get "bucket_name" config = Some bucket
        /\ ConfigLoader.isna bucket = false).
Proof.
  intros Hload.
  destruct (loaded_required_key _ _ _ "aws_access_key_id" Hload)
    as (a & Ha); [cbn; auto|].
  destruct (loaded_required_key _ _ _ "aws_secret_access_key" Hload)
    as (b & Hb); [cbn; auto|].
  destruct (loaded_required_key _ _ _ "endpoint_url" Hload)
    as (c & Hc); [cbn; auto|].
  destruct (loaded_required_key _ _ _ "bucket_name" Hload)
    as (d & Hd); [cbn; auto 6|].
  exists a, b, c, d. auto.
Qed.

End SessionFacts.

(** Without a serial number in the configuration, which is an absent
    or empty cell, an empty text, the placeholder of the example file or
    a zero, so whenever a truthy cell is the [nan] of an empty field or
    the placeholder, [get_s3_client] connects with the keys of the file:
    the token service is not asked, no session token is passed, and the
    MFA token of the caller is ignored. *)
Theorem get_s3_client_without_mfa :
  forall read_csv path df config,
    read_csv path = inr df ->
    ConfigLoader.load_config read_csv path = inr config ->
    (forall v,
        last_value (records df) "mfa_serial_number" = Some v ->
        Session.truthy v = true ->
        v = NaN \/ v = Text Session.MFA_PLACEHOLDER) ->
    Session.mfa_configured config = false
    /\ exists endpoint access_key secret_key,
        PyDict.get "endpoint_url" config = Some endpoint
        /\ PyDict.get "aws_access_key_id" config = Some access_key
        /\ PyDict.get "aws_secret_access_key" config = Some secret_key
        /\ ConfigLoader.isna endpoint = false
        /\ ConfigLoader.isna access_key = false
        /\ ConfigLoader.isna secret_key = false
        /\ forall get_session_token mfa_token,
            Session.get_s3_client get_session_token config mfa_token
            = (inr (mkClientParams endpoint access_key secret_key None
                      (Session.ssl_verify config)),
               []).
Proof.
  intros read_csv path df config Hread Hload Hserial.
  assert (Hmfa : Session.mfa_configured config = false).
  { unfold Session.mfa_configured.
    rewrite (loaded_serial _ _ _ df Hload Hread).
    destruct (last_value (records df) "mfa_serial_number") as [v|] eqn:E;
      [|reflexivity].
    destruct (ConfigLoader.isna v) eqn:Hna; [reflexivity|].
    destruct (Session.truthy v) eqn:Ht; [|reflexivity].
    destruct (Hserial v eq_refl Ht) as [->| ->];
      [discriminate Hna | reflexivity]. }
  split; [exact Hmfa|].
  destruct (loaded_items _ _ _ Hload)
    as (a & b & c & d & [Ha Hna] & [Hb Hnb] & [Hc Hnc] & _).
  exists c, a, b. repeat split; auto.
  intros get_session_token mfa_token.
  unfold Session.get_s3_client, Session.item.
  now rewrite Ha, Hb, Hc, Hmfa.
Qed.

(** [get_s3_client] on the configuration with an empty serial number. *)
Lemma get_s3_client_without_mfa_witness :
  Session.mfa_configured
    (PyDict.set "mfa_serial_number" PyNone (ConfigLoader.to_dict plain_rows))
  = false
  /\ Session.get_s3_client sts_accepts
       (PyDict.set "mfa_serial_number" PyNone
          (ConfigLoader.to_dict plain_rows)) (Some "123456")
     = (inr (mkClientParams (Text "https://s3.wasabisys.com") (Text "AKIA")
               (Text "secret") None None),
        []).
Proof.
  destruct (get_s3_client_without_mfa (fun _ => inr (table plain_rows))
              "config.csv" (table plain_rows)
              (PyDict.set "mfa_serial_number" PyNone
                 (ConfigLoader.to_dict plain_rows)) eq_refl eq_refl)
    as (Hmfa & endpoint & access_key & secret_key & He & Ha & Hs & _ & _ & _
        & Hclient).
  - intros v Hv _. injection Hv as <-. now left.
  - split; [exact Hmfa|].
    rewrite (Hclient sts_accepts (Some "123456")).
    injection He as <-. injection Ha as <-. injection Hs as <-.
    reflexivity.
Defined.

(** With a serial number in the configuration [get_s3_client] raises
    [ValueError] without asking the token service when the MFA token is
    missing or empty; otherwise it asks the token service once, with the
    serial number and the token, and connects with the temporary
    credentials of the answer and not with the keys of the file; an
    exception of the token service is the exception of the function. *)
Theorem get_s3_client_with_mfa :
  forall read_csv path config serial get_session_token,
    ConfigLoader.load_config read_csv path = inr config ->
    PyDict.get "mfa_serial_number" config = Some (Text serial) ->
    serial <> "" ->
    serial <> Session.MFA_PLACEHOLDER ->
    (forall mfa_token,
        Session.no_token mfa_token = true ->
        Session.get_s3_client get_session_token config mfa_token
        = (inl (ValueError "MFA token is required for authentication."), []))
    /\ exists endpoint,
        PyDict.get "endpoint_url" config = Some endpoint
        /\ ConfigLoader.isna endpoint = false
        /\ forall token,
            token <> "" ->
            Session.get_s3_client get_session_token config (Some token)
            = (match get_session_token (Text serial) token with
               | inl e => inl e
               | inr c =>
                   inr (mkClientParams endpoint
                          (Text (AccessKeyId c)) (Text (SecretAccessKey c))
                          (Some (Text (SessionToken c)))
                          (Session.ssl_verify config))
               end, [(Text serial, token)]).
Proof.
  intros read_csv path config serial get_session_token Hload Hserial
    Hne Hph.
  destruct (loaded_items _ _ _ Hload)
    as (a & b & c & d & [Ha _] & [Hb _] & [Hc Hnc] & _).
  assert (Hmfa : Session.mfa_configured config = true).
  { unfold Session.mfa_configured. rewrite Hserial.
    cbn [Session.truthy Session.differs]. unfold PyStr.truthy.
    apply String.eqb_neq in Hne, Hph. now rewrite Hne, Hph. }
  split.
  - intros mfa_token Htoken.
    unfold Session.get_s3_client, Session.item.
    now rewrite Ha, Hb, Hmfa, Htoken.
  - exists c. split; [exact Hc|]. split; [exact Hnc|]. intros token Htoken.
    unfold Session.get_s3_client, Session.item.
    rewrite Ha, Hb, Hmfa, Hserial, Hc.
    cbn [Session.no_token Session.token_text]. unfold PyStr.truthy.
    apply String.eqb_neq in Htoken. rewrite Htoken. cbn [negb].
    now destruct (get_session_token (Text serial) token).
Qed.

(** [get_s3_client] on the configuration with a serial number, without
    a token and with the code the token service accepts. *)
Lemma get_s3_client_with_mfa_witness :
  Session.get_s3_client sts_accepts (ConfigLoader.to_dict mfa_rows) None
  = (inl (ValueError "MFA token is required for authentication."), [])
  /\ Session.get_s3_client sts_accepts (ConfigLoader.to_dict mfa_rows)
       (Some "123456")
     = (inr (mkClientParams (Text "https://s3.wasabisys.com") (Text "ASIA")
               (Text "temp") (Some (Text "token")) None),
        [(Text "arn:aws:iam::1:mfa/user", "123456")]).
Proof.
  destruct (get_s3_client_with_mfa (fun _ => inr (table mfa_rows))
              "config.csv" (ConfigLoader.to_dict mfa_rows)
              "arn:aws:iam::1:mfa/user" sts_accepts eq_refl eq_refl)
    as [Hnone Hsome]; try discriminate.
  split.
  - apply Hnone. reflexivity.
  - destruct Hsome as (endpoint & Hendpoint & _ & Hsome).
    rewrite (Hsome "123456") by discriminate.
    injection Hendpoint as <-. reflexivity.
Defined.

(* ================================================================== *)
(** * [main] of the package from its [try] *)
(* ================================================================== *)

(** Errors of the start are fatal before anything is requested from
    the storage: a configuration file that is not there, a table
    without one of the required keys and an empty MFA token each end
    [main] with one line on standard error and exit status 1; only in
    the last case the line [Connecting to Wasabi...] was printed. *)
Theorem startup_errors_are_fatal :
  forall s path env c w,
    (forall msg,
        read_csv s path = inl (FileNotFoundError msg) ->
        PackageStartup.main s path env c w
        = (inl (SystemExit 1),
           mkWorld (files w) (dirs w) (stdout w)
             (stderr w
                ++ [(PyStr.nl
                       ++ "ERROR: Error: Configuration file not found at '"
                       ++ path ++ "'")%string])
             (sdk_log w)))
    /\ (forall df,
           read_csv s path = inr df ->
           In "key" (columns df) ->
           In "value" (columns df) ->
           forallb (has_value_b (records df)) ConfigLoader.required_keys
           = false ->
           PackageStartup.main s path env c w
           = (inl (SystemExit 1),
              mkWorld (files w) (dirs w) (stdout w)
                (stderr w
                   ++ [(PyStr.nl
                          ++ "ERROR: Missing required configuration keys: "
                          ++ ConfigLoader.join_comma
                               (filter
                                  (fun k => negb (has_value_b (records df) k))
                                  ConfigLoader.required_keys))%string])
                (sdk_log w)))
    /\ (forall config,
           ConfigLoader.load_config (read_csv s) path = inr config ->
           Session.mfa_configured config = true ->
           getpass s = "" ->
           PackageStartup.main s path env c w
           = (inl (SystemExit 1),
              mkWorld (files w) (dirs w)
                (stdout w ++ ["Connecting to Wasabi..."])
                (stderr w
                   ++ [(PyStr.nl
                          ++ "ERROR: MFA token is required for authentication.")
                         %string])
                (sdk_log w))).
Proof.
  intros s path env c w. split; [|split].
  - intros msg Hread.
    unfold PackageStartup.main, PackageStartup.connect, Eff.try_except,
      Eff.bind at 1, Eff.bind at 1, Eff.lift.
    unfold ConfigLoader.load_config. rewrite Hread. reflexivity.
  - intros df Hread Hkey Hvalue Hall.
    unfold PackageStartup.main, PackageStartup.connect, Eff.try_except,
      Eff.bind at 1, Eff.bind at 1, Eff.lift.
    rewrite (load_config_missing_keys (read_csv s) path df Hread Hkey
               Hvalue Hall).
    reflexivity.
  - intros config Hload Hmfa Htoken.
    destruct (loaded_items _ _ _ Hload)
      as (a & b & c0 & d & [Ha _] & [Hb _] & _).
    unfold PackageStartup.main, PackageStartup.connect, Eff.try_except,
      Eff.bind, Eff.lift, Eff.print.
    rewrite Hload, Hmfa, Htoken.
    unfold Session.get_s3_client, Session.item.
    rewrite Ha, Hb, Hmfa. reflexivity.
Qed.

(** [main] without a configuration file. *)
Lemma startup_errors_are_fatal_witness :
  Eff.exit_status
    (fst (PackageStartup.main unconfigured_session "config.csv" all_fetched
            (download_dir_cmd "" None) initial_world)) = 1
  /\ Eff.exit_status
       (fst (PackageStartup.main mfa_session_without_token "config.csv"
               all_fetched (download_dir_cmd "" None) initial_world)) = 1.
Proof.
  destruct (startup_errors_are_fatal unconfigured_session "config.csv"
              all_fetched (download_dir_cmd "" None) initial_world)
    as (Hfile & _).
  destruct (startup_errors_are_fatal mfa_session_without_token "config.csv"
              all_fetched (download_dir_cmd "" None) initial_world)
    as (_ & _ & Htoken).
  rewrite (Hfile "config.csv" eq_refl).
  rewrite (Htoken (ConfigLoader.to_dict mfa_rows) eq_refl eq_refl eq_refl).
  split; reflexivity.
Defined.

(** Once the configuration is loaded and the client is there, [main]
    prints its two lines and is its step 4 on the bucket of the
    configuration, a value that is not missing: everything shown of
    [PackageMain.main] holds of the whole [main]. *)
Theorem connected_main_is_step_four :
  forall s path env c w config params,
    ConfigLoader.load_config (read_csv s) path = inr config ->
    fst (Session.get_s3_client (get_session_token s) config
           (if Session.mfa_configured config then Some (getpass s)
            else None)) = inr params ->
    boto3_client s params = None ->
    exists bucket,
      PyDict.get "bucket_name" config = Some bucket
      /\ ConfigLoader.isna bucket = false
      /\ PackageStartup.main s path env c w
         = PackageMain.main env (PackageStartup.value_text bucket) c
             (mkWorld (files w) (dirs w)
                (stdout w
                   ++ ["Connecting to Wasabi..."; "Connection successful."])
                (stderr w) (sdk_log w)).
Proof.
  intros s path env c w config params Hload Hclient Hboto.
  destruct (loaded_items _ _ _ Hload) as (a & b & c0 & d & _ & _ & _ & Hd & Hnd).
  exists d. split; [exact Hd|]. split; [exact Hnd|].
  unfold PackageStartup.main, PackageStartup.connect, PackageMain.main.
  unfold Eff.try_except at 1, Eff.bind at 1, Eff.bind at 1, Eff.lift at 1.
  rewrite Hload.
  unfold Eff.bind at 1, Eff.print at 1, Eff.bind at 1, Eff.lift at 1.
  rewrite Hclient, Hboto.
  unfold Eff.bind at 1, Eff.print at 1, Eff.bind at 1, Eff.lift at 1,
    Session.item.
  rewrite Hd. cbn [files dirs stdout stderr sdk_log Eff.ret].
  rewrite <- app_assoc. reflexivity.
Qed.

(** The whole [main] on the configuration without a serial number and
    the bucket whose objects can all be fetched. *)
Lemma connected_main_is_step_four_witness :
  exists bucket,
    PyDict.get "bucket_name"
      (PyDict.set "mfa_serial_number" PyNone
         (ConfigLoader.to_dict plain_rows)) = Some bucket
    /\ ConfigLoader.isna bucket = false
    /\ PackageStartup.main plain_session "config.csv" all_fetched
         (download_file_cmd "docs/a.txt" None) initial_world
       = PackageMain.main all_fetched (PackageStartup.value_text bucket)
           (download_file_cmd "docs/a.txt" None)
           (mkWorld (files initial_world) (dirs initial_world)
              (stdout initial_world
                 ++ ["Connecting to Wasabi..."; "Connection successful."])
              (stderr initial_world) (sdk_log initial_world)).
Proof.
  apply (connected_main_is_step_four plain_session "config.csv" all_fetched
           (download_file_cmd "docs/a.txt" None) initial_world
           (PyDict.set "mfa_serial_number" PyNone
              (ConfigLoader.to_dict plain_rows))
           (mkClientParams (Text "https://s3.wasabisys.com") (Text "AKIA")
              (Text "secret") None None));
    reflexivity.
Defined.
